(** * A shallow embedding of the fingerprint matching engine (match_service2.py)

    The development follows the layout of the service:
    - [PyFloat]: Python's binary64 floats, on the executable IEEE 754
      specification of the Standard Library;
    - configuration (the FP_* environment parameters with their defaults);
    - the Matcher ([compute_threshold], [compute_margin],
      [match_feature_sets]);
    - the orchestrators and the employee index.

    Python exceptions are values of the error monad [res]. *)

From Stdlib Require Import Reals Lra.
From Stdlib Require Import ZArith Lia Bool List Ascii String SpecFloat.
From stdpp Require Import base option list strings gmap pretty.

Local Open Scope Z_scope.

(** ** Exceptions *)

Inductive exn :=
  | OverflowError
  | ValueError
  | ZeroDivisionError
  | TypeError
  | IndexError
  | KeyError (key : string)
  | DatabaseError
  | HTTPException (status : Z).

(** [str(e)]: the text is the library's; a name stands for it. *)
Definition exn_message (e : exn) : string :=
  match e with
  | OverflowError => "OverflowError"
  | ValueError => "ValueError"
  | ZeroDivisionError => "ZeroDivisionError"
  | TypeError => "TypeError"
  | IndexError => "IndexError"
  | KeyError key => key
  | DatabaseError => "DatabaseError"
  | HTTPException _ => "HTTPException"
  end.

Inductive res (A : Type) :=
  | Ok (a : A)
  | Raise (e : exn).
Arguments Ok {A} a.
Arguments Raise {A} e.

Definition rbind {A B} (m : res A) (f : A -> res B) : res B :=
  match m with
  | Ok a => f a
  | Raise e => Raise e
  end.

#[global] Instance res_ret : MRet res := @Ok.
#[global] Instance res_bind : MBind res := fun A B f m => rbind m f.

(** ** Python floats *)

Module PyFloat.

Definition prec : Z := 53.
Definition emax : Z := 1024.

Definition float := spec_float.

(** [float(z)] for a Python int: the nearest binary64, ties to even.  The
    result is infinite exactly when Python raises OverflowError. *)
Definition of_Z (z : Z) : float := binary_normalize prec emax z 0 false.

Definition is_finite (x : float) : bool :=
  match x with
  | S754_zero _ | S754_finite _ _ _ => true
  | _ => false
  end.

(** The operand of a mixed int/float operation. *)
Definition of_int (z : Z) : res float :=
  let x := of_Z z in
  if is_finite x then Ok x else Raise OverflowError.

Definition mul : float -> float -> float := SFmul prec emax.
Definition add : float -> float -> float := SFadd prec emax.
Definition div : float -> float -> float := SFdiv prec emax.
Definition ltb : float -> float -> bool := SFltb.
Definition leb : float -> float -> bool := SFleb.

(** A decimal literal [n / 10^k], as the Python parser reads it: the
    nearest binary64 (numerator and denominator are exact, and the division
    rounds once). *)
Definition literal (n : Z) (k : Z) : float := div (of_Z n) (of_Z (10 ^ k)).

(** [a / b] on Python ints: the correctly rounded quotient. *)
Definition int_truediv (a b : Z) : res float :=
  match b with
  | Z0 => Raise ZeroDivisionError
  | _ =>
      match a with
      | Z0 => Ok (S754_zero (b <? 0))
      | _ =>
          let q := SFdiv prec emax
                     (S754_finite (a <? 0) (Z.to_pos (Z.abs a)) 0)
                     (S754_finite (b <? 0) (Z.to_pos (Z.abs b)) 0) in
          if is_finite q then Ok q else Raise OverflowError
      end
  end.

(** [int(x)]: truncation towards zero. *)
Definition trunc (x : float) : res Z :=
  match x with
  | S754_zero _ => Ok 0
  | S754_finite s m e =>
      let a := match e with
               | Zneg p => Z.pos m / 2 ^ Z.pos p
               | _ => Z.pos m * 2 ^ e
               end in
      Ok (if s then - a else a)
  | S754_infinity _ => Raise OverflowError
  | S754_nan => Raise ValueError
  end.

(** Nearest integer of [n / d] with ties to even, for [0 <= n], [0 < d]. *)
Definition half_even (n d : Z) : Z :=
  let q := n / d in
  let r := n mod d in
  match 2 * r ?= d with
  | Lt => q
  | Gt => q + 1
  | Eq => if Z.even q then q else q + 1
  end.

(** [round(x)] with one argument: an int, ties to even. *)
Definition round (x : float) : res Z :=
  match x with
  | S754_zero _ => Ok 0
  | S754_finite s m e =>
      let a := match e with
               | Zneg p => half_even (Z.pos m) (2 ^ Z.pos p)
               | _ => Z.pos m * 2 ^ e
               end in
      Ok (if s then - a else a)
  | S754_infinity _ => Raise OverflowError
  | S754_nan => Raise ValueError
  end.

(** [round(x, 2)]: the exact value is rounded to two decimals (ties to
    even) and the decimal result is read back as a float. *)
Definition round2 (x : float) : float :=
  match x with
  | S754_finite s m e =>
      let a := match e with
               | Zneg p => half_even (Z.pos m * 100) (2 ^ Z.pos p)
               | _ => Z.pos m * 100 * 2 ^ e
               end in
      match a with
      | Z0 => S754_zero s
      | _ => SFdiv prec emax (S754_finite s (Z.to_pos a) 0)
                             (S754_finite false 100 0)
      end
  | _ => x
  end.

(** [min(a, b)] as the builtin computes it: [b] only when [b < a]. *)
Definition min (a b : float) : float := if ltb b a then b else a.

End PyFloat.

(** ** 32-bit floats

    The elements of numpy's float32 arrays and the C floats of a
    cv2.KeyPoint are binary32 numbers: mantissa and exponent are normalised
    for 24 bits, where a Python float is normalised for 53. *)

Module F32.

Definition prec : Z := 24.
Definition emax : Z := 128.

Definition is_f32 (x : PyFloat.float) : bool := valid_binary prec emax x.

(** Conversion of a binary64 number: rounding to nearest, ties to even. *)
Definition of_f64 (x : PyFloat.float) : PyFloat.float :=
  match x with
  | S754_finite s m e => binary_round prec emax s m e
  | _ => x
  end.

(** Conversion to binary64 ([float(x)], [a.tolist()]): the same number,
    normalised for 53 bits. *)
Definition to_f64 (x : PyFloat.float) : PyFloat.float :=
  match x with
  | S754_finite s m e => binary_round PyFloat.prec PyFloat.emax s m e
  | _ => x
  end.

Definition of_Z (z : Z) : PyFloat.float := binary_normalize prec emax z 0 false.

End F32.

(** ** Base64 *)

Module Base64.

Record sextet := Sextet { s5 : bool; s4 : bool; s3 : bool; s2 : bool; s1 : bool; s0 : bool }.

(** The alphabet, by the value of the six bits (most significant first). *)
Definition alphabet : string :=
  "ABCDEFGHIJKLMNOPQRSTUVWXYZabcdefghijklmnopqrstuvwxyz0123456789+/".

Definition sextet_index (x : sextet) : nat :=
  let b (v : bool) (n : nat) := if v then n else 0%nat in
  (b (s5 x) 32 + b (s4 x) 16 + b (s3 x) 8 + b (s2 x) 4 + b (s1 x) 2 + b (s0 x) 1)%nat.

Definition sextet_of_index (n : nat) : sextet :=
  Sextet (Nat.testbit n 5) (Nat.testbit n 4) (Nat.testbit n 3)
         (Nat.testbit n 2) (Nat.testbit n 1) (Nat.testbit n 0).

Definition b2a (x : sextet) : ascii :=
  match String.get (sextet_index x) alphabet with
  | Some c => c
  | None => "="%char
  end.

Fixpoint index_of (c : ascii) (s : string) (i : nat) : option nat :=
  match s with
  | EmptyString => None
  | String d s' => if Ascii.eqb c d then Some i else index_of c s' (S i)
  end.

(** [table_a2b_base64]: the value of an alphabet character. *)
Definition a2b (c : ascii) : option sextet :=
  sextet_of_index <$> index_of c alphabet 0.

(** Three bytes as four sextets.  In [Ascii b0 .. b7], [b0] is the least
    significant bit. *)
Definition quad (a b c : ascii) : sextet * sextet * sextet * sextet :=
  let '(Ascii a0 a1 a2 a3 a4 a5 a6 a7) := a in
  let '(Ascii b0 b1 b2 b3 b4 b5 b6 b7) := b in
  let '(Ascii c0 c1 c2 c3 c4 c5 c6 c7) := c in
  (Sextet a7 a6 a5 a4 a3 a2, Sextet a1 a0 b7 b6 b5 b4,
   Sextet b3 b2 b1 b0 c7 c6, Sextet c5 c4 c3 c2 c1 c0).

Definition pad : ascii := "="%char.

Fixpoint b64encode (s : string) : string :=
  match s with
  | EmptyString => EmptyString
  | String a EmptyString =>
      let '(x0, x1, _, _) := quad a zero zero in
      String (b2a x0) (String (b2a x1) (String pad (String pad EmptyString)))
  | String a (String b EmptyString) =>
      let '(x0, x1, x2, _) := quad a b zero in
      String (b2a x0) (String (b2a x1) (String (b2a x2) (String pad EmptyString)))
  | String a (String b (String c rest)) =>
      let '(x0, x1, x2, x3) := quad a b c in
      String (b2a x0) (String (b2a x1) (String (b2a x2) (String (b2a x3)
        (b64encode rest))))
  end.

(** The position in the current quad, with the sextet read last and, after
    two sextets, whether a pad has been seen. *)
Inductive quad_pos :=
  | Q0
  | Q1 (left : sextet)
  | Q2 (left : sextet) (pads : bool)
  | Q3 (left : sextet).

Definition byte1 (l x : sextet) : ascii :=
  Ascii (s4 x) (s5 x) (s0 l) (s1 l) (s2 l) (s3 l) (s4 l) (s5 l).
Definition byte2 (l x : sextet) : ascii :=
  Ascii (s2 x) (s3 x) (s4 x) (s5 x) (s0 l) (s1 l) (s2 l) (s3 l).
Definition byte3 (l x : sextet) : ascii :=
  Ascii (s0 x) (s1 x) (s2 x) (s3 x) (s4 x) (s5 x) (s0 l) (s1 l).

(** [binascii.a2b_base64] without strict mode: characters outside the
    alphabet are skipped, a complete pad sequence ends the data, and data
    that stops inside a quad is an error. *)
Fixpoint a2b_base64 (s : string) (st : quad_pos) : option string :=
  match s with
  | EmptyString => match st with Q0 => Some EmptyString | _ => None end
  | String ch rest =>
      if Ascii.eqb ch pad then
        match st with
        | Q0 | Q1 _ => a2b_base64 rest st
        | Q2 l false => a2b_base64 rest (Q2 l true)
        | Q2 _ true | Q3 _ => Some EmptyString
        end
      else
        match a2b ch with
        | None => a2b_base64 rest st
        | Some x =>
            match st with
            | Q0 => a2b_base64 rest (Q1 x)
            | Q1 l => String (byte1 l x) <$> a2b_base64 rest (Q2 x false)
            | Q2 l _ => String (byte2 l x) <$> a2b_base64 rest (Q3 x)
            | Q3 l => String (byte3 l x) <$> a2b_base64 rest Q0
            end
        end
  end.

Definition is_ascii (c : ascii) : bool :=
  let '(Ascii _ _ _ _ _ _ _ b7) := c in negb b7.

Fixpoint all_ascii (s : string) : bool :=
  match s with
  | EmptyString => true
  | String c rest => is_ascii c && all_ascii rest
  end.

(** [base64.b64decode] on a str: a character beyond ASCII is a ValueError,
    bad padding a binascii.Error; both are [None]. *)
Definition b64decode (s : string) : option string :=
  if all_ascii s then a2b_base64 s Q0 else None.

Lemma a2b_b2a (x : sextet) : a2b (b2a x) = Some x.
Proof. destruct x as [[] [] [] [] [] []]; vm_compute; reflexivity. Qed.

Lemma b2a_not_pad (x : sextet) : Ascii.eqb (b2a x) pad = false.
Proof. destruct x as [[] [] [] [] [] []]; vm_compute; reflexivity. Qed.

Lemma b2a_is_ascii (x : sextet) : is_ascii (b2a x) = true.
Proof. destruct x as [[] [] [] [] [] []]; vm_compute; reflexivity. Qed.

#[local] Opaque b2a a2b.

Lemma string_ind3 (P : string -> Prop) :
  P EmptyString ->
  (forall a, P (String a EmptyString)) ->
  (forall a b, P (String a (String b EmptyString))) ->
  (forall a b c rest, P rest -> P (String a (String b (String c rest)))) ->
  forall s, P s.
Proof.
  intros H0 H1 H2 H3.
  assert (H : forall s, P s /\ (forall a, P (String a s)) /\
                        (forall a b, P (String a (String b s)))).
  { induction s as [|c s (IH0 & IH1 & IH2)].
    - split; [exact H0|]. split; [exact H1|exact H2].
    - split; [apply IH1|]. split; [intros x; apply IH2|].
      intros x y. apply H3. exact IH0. }
  intros s. apply H.
Qed.

Lemma a2b_base64_b64encode (s : string) : a2b_base64 (b64encode s) Q0 = Some s.
Proof.
  induction s as [|a|a b|a b c rest IH] using string_ind3.
  - reflexivity.
  - destruct a as [a0 a1 a2 a3 a4 a5 a6 a7].
    cbn. rewrite !b2a_not_pad, !a2b_b2a. cbn. reflexivity.
  - destruct a as [a0 a1 a2 a3 a4 a5 a6 a7], b as [b0 b1 b2 b3 b4 b5 b6 b7].
    cbn. rewrite !b2a_not_pad, !a2b_b2a. cbn. reflexivity.
  - destruct a as [a0 a1 a2 a3 a4 a5 a6 a7], b as [b0 b1 b2 b3 b4 b5 b6 b7],
      c as [c0 c1 c2 c3 c4 c5 c6 c7].
    cbn. rewrite !b2a_not_pad, !a2b_b2a. cbn. rewrite IH. reflexivity.
Qed.

Lemma all_ascii_b64encode (s : string) : all_ascii (b64encode s) = true.
Proof.
  induction s as [|a|a b|a b c rest IH] using string_ind3.
  - reflexivity.
  - destruct a as [a0 a1 a2 a3 a4 a5 a6 a7]. cbn.
    rewrite !b2a_is_ascii. reflexivity.
  - destruct a as [a0 a1 a2 a3 a4 a5 a6 a7], b as [b0 b1 b2 b3 b4 b5 b6 b7].
    cbn. rewrite !b2a_is_ascii. reflexivity.
  - destruct a as [a0 a1 a2 a3 a4 a5 a6 a7], b as [b0 b1 b2 b3 b4 b5 b6 b7],
      c as [c0 c1 c2 c3 c4 c5 c6 c7].
    cbn. rewrite !b2a_is_ascii, IH. reflexivity.
Qed.

Theorem b64decode_b64encode (s : string) : b64decode (b64encode s) = Some s.
Proof.
  unfold b64decode. rewrite all_ascii_b64encode. apply a2b_base64_b64encode.
Qed.

End Base64.


(** ** JSON values *)

#[warnings="-register-all"]
Inductive json :=
  | JNull
  | JBool (b : bool)
  | JInt (z : Z)
  | JFloat (x : PyFloat.float)
  | JStr (s : string)
  | JArr (items : list json)
  | JObj (members : list (string * json)).

(** A value that a Python object made of dicts, lists, numbers and strings
    can have: the keys of a dict are distinct and the floats are binary64
    numbers. *)
Fixpoint json_wf (j : json) : bool :=
  match j with
  | JFloat x => valid_binary PyFloat.prec PyFloat.emax x
  | JArr items => forallb json_wf items
  | JObj members =>
      bool_decide (NoDup (map fst members)) &&
      forallb (fun kv => json_wf (snd kv)) members
  | _ => true
  end.

(** [d[key]] and [d.get(key)] on a dict. *)
Fixpoint lookup_member (key : string) (members : list (string * json)) : option json :=
  match members with
  | [] => None
  | (k, v) :: rest => if String.eqb k key then Some v else lookup_member key rest
  end.

(** ** Configuration

    The FP_* parameters are read from the environment once, at import
    time; [default_config] holds the values used when a variable is unset. *)

Class Config := {
  FP_RATIO : PyFloat.float;
  FP_MIN_BASE : Z;
  FP_MIN_PERCENT : PyFloat.float;
  FP_CONF_MIN : PyFloat.float;
  FP_CONF_HIGH : PyFloat.float;
  FP_MIN_KEYPOINTS : Z;
  FP_MIN_KEYPOINTS_WARN : Z;
  FP_HIGH_CONF_KP : Z;
  FP_MARGIN_BASE : Z;
  FP_MARGIN_PERCENT : PyFloat.float;
  FP_ABS_MIN_SCORE : Z;
  FP_SINGLE_TEMPLATE_MARGIN_MIN : Z;
  FP_SINGLE_TEMPLATE_MARGIN_RATIO : PyFloat.float;
  FP_FORCE_BASIC : bool;
}.

Definition default_config : Config := {|
  FP_RATIO := PyFloat.literal 70 2;
  FP_MIN_BASE := 45;
  FP_MIN_PERCENT := PyFloat.literal 55 3;
  FP_CONF_MIN := PyFloat.of_Z 65;
  FP_CONF_HIGH := PyFloat.of_Z 85;
  FP_MIN_KEYPOINTS := 200;
  FP_MIN_KEYPOINTS_WARN := 160;
  FP_HIGH_CONF_KP := 525;
  FP_MARGIN_BASE := 3;
  FP_MARGIN_PERCENT := PyFloat.literal 10 2;
  FP_ABS_MIN_SCORE := 45;
  FP_SINGLE_TEMPLATE_MARGIN_MIN := 5;
  FP_SINGLE_TEMPLATE_MARGIN_RATIO := PyFloat.literal 10 2;
  FP_FORCE_BASIC := false;
|}.

(** ** Thresholds *)

Section Thresholds.
Context {cfg : Config}.

(** [int(z * p)] for an int [z] and a float [p]. *)
Definition int_times (z : Z) (p : PyFloat.float) : res Z :=
  x ← PyFloat.of_int z; PyFloat.trunc (PyFloat.mul x p).

(** [int(round(z * p))]. *)
Definition round_times (z : Z) (p : PyFloat.float) : res Z :=
  x ← PyFloat.of_int z; PyFloat.round (PyFloat.mul x p).

Definition compute_threshold (min_keypoints : Z) (override : option Z) : res Z :=
  match override with
  | Some o => Ok (Z.max 1 o)
  | None =>
      p ← int_times min_keypoints FP_MIN_PERCENT;
      let dynamic := Z.max FP_MIN_BASE p in
      Ok (Z.max dynamic 1)
  end.

Definition compute_margin (threshold : Z) : res Z :=
  percent_margin ← round_times threshold FP_MARGIN_PERCENT;
  Ok (Z.max FP_MARGIN_BASE percent_margin).

End Thresholds.

(** ** Feature sets and match payloads *)

(** A numpy array: its shape and its elements in row-major order. *)
Record ndarray := { shape : list nat; flat : list PyFloat.float }.

(** [len(a)]: the first dimension; a 0-d array has no length. *)
Definition ndarray_len (a : ndarray) : res Z :=
  match shape a with
  | n :: _ => Ok (Z.of_nat n)
  | [] => Raise TypeError
  end.

(** The value of [d.get(key)] for a key that some producers omit. *)
Inductive entry (A : Type) :=
  | Absent
  | Present (v : A).
Arguments Absent {A}.
Arguments Present {A} v.

#[global] Instance entry_eq_dec {A} `{EqDecision A} : EqDecision (entry A).
Proof. solve_decision. Defined.

Definition get_default {A} (e : entry A) (d : A) : A :=
  match e with
  | Absent => d
  | Present v => v
  end.

(** The metadata of a stored template, as [deserialize_keypoints_descriptors]
    returns it. *)
Record metadata := {
  md_method : json;
  md_kp_count : json;
  md_roi_w : option json;
  md_roi_h : option json;
}.

(** The features dict built by [prepare_features],
    [load_precomputed_template] and the orchestrators. *)
Record features := {
  f_label : entry string;
  f_success : bool;
  f_keypoints : Z;
  f_descriptors : option ndarray;
  f_quality_flag : bool;
  f_quality_warn : bool;
  f_error : entry (option string);
  f_is_precomputed : entry bool;
  f_metadata : entry metadata;
}.

(** The match payload of [_base_match_payload], with the keys added by
    [match_feature_sets] and by the orchestrators. *)
Record payload := {
  accepted : bool;
  score : Z;
  threshold_used : Z;
  required_score : Z;
  confidence : PyFloat.float;
  confidence_required : PyFloat.float;
  min_keypoints : Z;
  probe_keypoints : Z;
  template_keypoints : Z;
  probe_quality_ok : bool;
  template_quality_ok : bool;
  quality_warnings : list string;
  good_matches : Z;
  ratio : PyFloat.float;
  reason : option string;
  p_is_precomputed : entry bool;
  template_index : entry Z;
  employee_id : entry Z;
  num_templates_tested : entry Z;
  all_template_scores : entry (list Z);
}.

Definition set_reason (r : option string) (p : payload) : payload :=
  {| accepted := accepted p; score := score p;
     threshold_used := threshold_used p; required_score := required_score p;
     confidence := confidence p; confidence_required := confidence_required p;
     min_keypoints := min_keypoints p; probe_keypoints := probe_keypoints p;
     template_keypoints := template_keypoints p;
     probe_quality_ok := probe_quality_ok p;
     template_quality_ok := template_quality_ok p;
     quality_warnings := quality_warnings p; good_matches := good_matches p;
     ratio := ratio p; reason := r; p_is_precomputed := p_is_precomputed p;
     template_index := template_index p; employee_id := employee_id p;
     num_templates_tested := num_templates_tested p;
     all_template_scores := all_template_scores p |}.

Definition set_accepted (a : bool) (p : payload) : payload :=
  {| accepted := a; score := score p;
     threshold_used := threshold_used p; required_score := required_score p;
     confidence := confidence p; confidence_required := confidence_required p;
     min_keypoints := min_keypoints p; probe_keypoints := probe_keypoints p;
     template_keypoints := template_keypoints p;
     probe_quality_ok := probe_quality_ok p;
     template_quality_ok := template_quality_ok p;
     quality_warnings := quality_warnings p; good_matches := good_matches p;
     ratio := ratio p; reason := reason p;
     p_is_precomputed := p_is_precomputed p;
     template_index := template_index p; employee_id := employee_id p;
     num_templates_tested := num_templates_tested p;
     all_template_scores := all_template_scores p |}.

Definition set_is_precomputed (b : bool) (p : payload) : payload :=
  {| accepted := accepted p; score := score p;
     threshold_used := threshold_used p; required_score := required_score p;
     confidence := confidence p; confidence_required := confidence_required p;
     min_keypoints := min_keypoints p; probe_keypoints := probe_keypoints p;
     template_keypoints := template_keypoints p;
     probe_quality_ok := probe_quality_ok p;
     template_quality_ok := template_quality_ok p;
     quality_warnings := quality_warnings p; good_matches := good_matches p;
     ratio := ratio p; reason := reason p; p_is_precomputed := Present b;
     template_index := template_index p; employee_id := employee_id p;
     num_templates_tested := num_templates_tested p;
     all_template_scores := all_template_scores p |}.

Definition set_template_index (i : Z) (p : payload) : payload :=
  {| accepted := accepted p; score := score p;
     threshold_used := threshold_used p; required_score := required_score p;
     confidence := confidence p; confidence_required := confidence_required p;
     min_keypoints := min_keypoints p; probe_keypoints := probe_keypoints p;
     template_keypoints := template_keypoints p;
     probe_quality_ok := probe_quality_ok p;
     template_quality_ok := template_quality_ok p;
     quality_warnings := quality_warnings p; good_matches := good_matches p;
     ratio := ratio p; reason := reason p;
     p_is_precomputed := p_is_precomputed p;
     template_index := Present i; employee_id := employee_id p;
     num_templates_tested := num_templates_tested p;
     all_template_scores := all_template_scores p |}.

(** The three keys that [identify_employee] adds to the best payload of an
    employee. *)
Definition set_employee (emp : Z) (n : Z) (scores : list Z) (p : payload) : payload :=
  {| accepted := accepted p; score := score p;
     threshold_used := threshold_used p; required_score := required_score p;
     confidence := confidence p; confidence_required := confidence_required p;
     min_keypoints := min_keypoints p; probe_keypoints := probe_keypoints p;
     template_keypoints := template_keypoints p;
     probe_quality_ok := probe_quality_ok p;
     template_quality_ok := template_quality_ok p;
     quality_warnings := quality_warnings p; good_matches := good_matches p;
     ratio := ratio p; reason := reason p;
     p_is_precomputed := p_is_precomputed p;
     template_index := template_index p; employee_id := Present emp;
     num_templates_tested := Present n;
     all_template_scores := Present scores |}.

(** ** The descriptor matcher of OpenCV

    [BF_MATCHER.knnMatch(probe, template, k=2)]: for each probe descriptor
    the distances of its nearest template descriptors, nearest first (at
    most two); a cv2.error is the exception. *)
Class OpenCV := {
  knnMatch : ndarray -> ndarray -> res (list (list PyFloat.float));
}.

(** ** The Matcher *)

Section Matcher.
Context {cfg : Config} {cv : OpenCV}.

Definition _base_match_payload (probe_kp template_kp : Z) : payload :=
  {| accepted := false; score := 0; threshold_used := 0;
     required_score := 0; confidence := S754_zero false;
     confidence_required := FP_CONF_MIN;
     min_keypoints := Z.min probe_kp template_kp;
     probe_keypoints := probe_kp; template_keypoints := template_kp;
     probe_quality_ok := FP_MIN_KEYPOINTS_WARN <=? probe_kp;
     template_quality_ok := FP_MIN_KEYPOINTS_WARN <=? template_kp;
     quality_warnings := []; good_matches := 0; ratio := FP_RATIO;
     reason := None; p_is_precomputed := Absent;
     template_index := Absent; employee_id := Absent;
     num_templates_tested := Absent; all_template_scores := Absent |}.

(** Lowe's ratio test on one row of [knnMatch]: rows with fewer than two
    neighbours are skipped. *)
Definition is_good_match (pair : list PyFloat.float) : bool :=
  match pair with
  | [m; n] => PyFloat.ltb m (PyFloat.mul FP_RATIO n)
  | _ => false
  end.

Definition count_good_matches (matches : list (list PyFloat.float)) : Z :=
  Z.of_nat (length (filter (fun pair => is_good_match pair = true) matches)).

(** The decision after scoring: the first violated gate names the
    reason.  [None] is acceptance. *)
Definition score_gates (strict_mode is_precomputed : bool)
    (score threshold required_score : Z) : res (option string) :=
  if strict_mode then
    if score <? FP_ABS_MIN_SCORE then Ok (Some "score_below_abs_min")
    else if score <? threshold then Ok (Some "score_below_threshold")
    else if score <? required_score then Ok (Some "insufficient_margin")
    else Ok None
  else
    abs_min_for_precomputed ←
      (if is_precomputed
       then a ← int_times FP_ABS_MIN_SCORE (PyFloat.literal 85 2);
            Ok (Z.max 38 a)
       else Ok FP_ABS_MIN_SCORE);
    if score <? abs_min_for_precomputed then Ok (Some "score_below_abs_min")
    else if is_precomputed then
      let threshold_with_leniency :=
        Z.max abs_min_for_precomputed (threshold - 7) in
      if score <? threshold_with_leniency
      then Ok (Some "score_below_threshold")
      else
        let min_score_for_acceptance := threshold_with_leniency + 3 in
        if score <? min_score_for_acceptance
        then Ok (Some "insufficient_margin")
        else Ok None
    else
      if score <? threshold then Ok (Some "score_below_threshold")
      else if score <? required_score then Ok (Some "insufficient_margin")
      else Ok None.

Definition match_feature_sets (probe_features template_features : features)
    (threshold_override : option Z) (strict_mode : bool) : res payload :=
  let payload0 :=
    _base_match_payload (f_keypoints probe_features)
                        (f_keypoints template_features) in
  if negb (f_success probe_features) then
    Ok (set_reason (get_default (f_error probe_features)
                      (Some "probe_features_error")) payload0)
  else if negb (f_success template_features) then
    Ok (set_reason (get_default (f_error template_features)
                      (Some "template_features_error")) payload0)
  else
    match f_descriptors probe_features, f_descriptors template_features with
    | Some des_probe, Some des_template =>
        n_probe ← ndarray_len des_probe;
        n_template ← ndarray_len des_template;
        if (n_probe <? 10) || (n_template <? 10) then
          Ok (set_reason (Some "insufficient_descriptors") payload0)
        else
          matches ← knnMatch des_probe des_template;
          let score := count_good_matches matches in
          let min_keypoints := min_keypoints payload0 in
          threshold ← compute_threshold min_keypoints threshold_override;
          margin ← compute_margin threshold;
          let required_score := threshold + margin in
          confidence ←
            (if 0 <? threshold
             then q ← PyFloat.int_truediv score threshold;
                  Ok (PyFloat.min (PyFloat.of_Z 100)
                        (PyFloat.mul q (PyFloat.of_Z 100)))
             else Ok (S754_zero false));
          let conf_required :=
            if FP_HIGH_CONF_KP <=? min_keypoints
            then FP_CONF_HIGH else FP_CONF_MIN in
          let probe_quality_ok := probe_quality_ok payload0 in
          let template_quality_ok := template_quality_ok payload0 in
          let quality_warnings :=
            (if probe_quality_ok then [] else ["probe_low_quality"]) ++
            (if template_quality_ok then [] else ["template_low_quality"]) in
          let is_precomputed :=
            get_default (f_is_precomputed template_features) false in
          let payload1 :=
            {| accepted := false; score := score;
               threshold_used := threshold;
               required_score := required_score;
               confidence := PyFloat.round2 confidence;
               confidence_required := conf_required;
               min_keypoints := min_keypoints;
               probe_keypoints := probe_keypoints payload0;
               template_keypoints := template_keypoints payload0;
               probe_quality_ok := probe_quality_ok;
               template_quality_ok := template_quality_ok;
               quality_warnings := quality_warnings;
               good_matches := score; ratio := FP_RATIO; reason := None;
               p_is_precomputed := Present is_precomputed;
               template_index := Absent; employee_id := Absent;
               num_templates_tested := Absent;
               all_template_scores := Absent |} in
          if negb probe_quality_ok then
            Ok (set_reason (Some "probe_low_quality") payload1)
          else
            gate ← score_gates strict_mode is_precomputed
                     score threshold required_score;
            match gate with
            | Some r => Ok (set_reason (Some r) payload1)
            | None =>
                if PyFloat.ltb confidence conf_required
                then Ok (set_reason (Some "confidence_low") payload1)
                else Ok (set_accepted true
                           (set_reason (Some "match") payload1))
            end
    | _, _ => Ok (set_reason (Some "missing_descriptors") payload0)
    end.

End Matcher.

(** ** The template codec

    json and gzip are libraries: their functions are parameters, and what
    the codec relies on is stated as [LibsLaws].  [json_loads] stands for
    [bytes.decode('utf-8')] followed by [json.loads]; both failures are
    [None].  [gzip_compress] takes the modification time that
    [gzip.compress] writes into the header.  [float_of_str] and
    [int_of_str] are the builtins [float] and [int] on a str, [None] for a
    ValueError; [np_maxdims] is the largest number of dimensions that numpy
    accepts. *)

Class Libs := {
  json_dumps : json -> string;
  json_loads : string -> option json;
  gzip_compress : Z -> string -> string;
  gzip_decompress : string -> option string;
  float_of_str : string -> option PyFloat.float;
  int_of_str : string -> option Z;
  np_maxdims : nat;
}.

Definition gzip_id1 : ascii := ascii_of_nat 31.
Definition gzip_id2 : ascii := ascii_of_nat 139.
Definition gzip_deflate : ascii := ascii_of_nat 8.

Class LibsLaws `{Libs} : Prop := {
  json_loads_dumps :
    forall v, json_wf v = true -> json_loads (json_dumps v) = Some v;
  gzip_decompress_compress :
    forall mtime s, gzip_decompress (gzip_compress mtime s) = Some s;
  gzip_compress_header :
    forall mtime s, exists rest,
      gzip_compress mtime s =
      String gzip_id1 (String gzip_id2 (String gzip_deflate rest));
  gzip_decompress_magic :
    forall b s, gzip_decompress b = Some s ->
      b = EmptyString \/ exists rest, b = String gzip_id1 (String gzip_id2 rest);
  np_maxdims_matrix : (2 <= np_maxdims)%nat;
}.

(** A cv2.KeyPoint: five C floats and two C ints. *)
Record keypoint := {
  kp_x : PyFloat.float;
  kp_y : PyFloat.float;
  kp_size : PyFloat.float;
  kp_angle : PyFloat.float;
  kp_response : PyFloat.float;
  kp_octave : Z;
  kp_class_id : Z;
}.

Definition is_int32 (z : Z) : bool := (- 2 ^ 31 <=? z) && (z <? 2 ^ 31).

Definition keypoint_valid (kp : keypoint) : bool :=
  F32.is_f32 (kp_x kp) && F32.is_f32 (kp_y kp) && F32.is_f32 (kp_size kp) &&
  F32.is_f32 (kp_angle kp) && F32.is_f32 (kp_response kp) &&
  is_int32 (kp_octave kp) && is_int32 (kp_class_id kp).

(** *** numpy arrays and nested lists *)

Fixpoint chunks {A} (n k : nat) (l : list A) : list (list A) :=
  match n with
  | O => []
  | S n' => take k l :: chunks n' k (drop k l)
  end.

(** [a.tolist()] on a float32 array: nested lists of Python floats that
    follow the shape. *)
Fixpoint tolist (sh : list nat) (elements : list PyFloat.float) : json :=
  match sh with
  | [] => JFloat (F32.to_f64 (hd S754_nan elements))
  | n :: sh' =>
      JArr (map (tolist sh') (chunks n (foldr Nat.mul 1%nat sh') elements))
  end.

(** The shape numpy finds in a nested list: it follows first elements. *)
Fixpoint shape_of (j : json) : list nat :=
  match j with
  | JArr items =>
      length items :: match items with
                      | x :: _ => shape_of x
                      | [] => []
                      end
  | _ => []
  end.

(** *** Encoding *)

Definition json_of_keypoint (kp : keypoint) : json :=
  JObj [("x", JFloat (F32.to_f64 (kp_x kp)));
        ("y", JFloat (F32.to_f64 (kp_y kp)));
        ("size", JFloat (F32.to_f64 (kp_size kp)));
        ("angle", JFloat (F32.to_f64 (kp_angle kp)));
        ("response", JFloat (F32.to_f64 (kp_response kp)));
        ("octave", JInt (kp_octave kp)); ("class_id", JInt (kp_class_id kp))].

Definition template_data (keypoints : list keypoint) (descriptors : ndarray)
    (enhancement_method : string) (roi_shape : option (Z * Z)) : json :=
  JObj [("method", JStr enhancement_method);
        ("kp_count", JInt (Z.of_nat (length keypoints)));
        ("roi_w", match roi_shape with Some (_, w) => JInt w | None => JNull end);
        ("roi_h", match roi_shape with Some (h, _) => JInt h | None => JNull end);
        ("kpts", JArr (map json_of_keypoint keypoints));
        ("des", tolist (shape descriptors) (flat descriptors))].

Section Codec.
Context {libs : Libs} {cfg : Config}.

Definition serialize_keypoints_descriptors (mtime : Z)
    (keypoints : option (list keypoint)) (descriptors : option ndarray)
    (enhancement_method : string) (roi_shape : option (Z * Z)) : option string :=
  match keypoints, descriptors with
  | Some (kp :: kps), Some des =>
      let json_str :=
        json_dumps (template_data (kp :: kps) des enhancement_method roi_shape) in
      let compressed := gzip_compress mtime json_str in
      Some (Base64.b64encode compressed)
  | _, _ => None
  end.

(** *** Decoding *)

(** [len(s)] and [s.startswith(pre)] on a str. *)
Definition len (s : string) : Z := Z.of_nat (String.length s).

Fixpoint startswith (pre s : string) : bool :=
  match pre, s with
  | EmptyString, _ => true
  | String a pre', String b s' => Ascii.eqb a b && startswith pre' s'
  | String _ _, EmptyString => false
  end.

(** [key in data]: membership in a dict or a list, substring of a str, and
    a TypeError ([None]) on anything else. *)
Fixpoint is_substring (key s : string) : bool :=
  startswith key s ||
  match s with
  | EmptyString => false
  | String _ rest => is_substring key rest
  end.

Definition json_eqb_str (key : string) (j : json) : bool :=
  match j with
  | JStr s => String.eqb s key
  | _ => false
  end.

Definition contains_key (key : string) (data : json) : option bool :=
  match data with
  | JObj members => Some (bool_decide (is_Some (lookup_member key members)))
  | JArr items => Some (existsb (json_eqb_str key) items)
  | JStr s => Some (is_substring key s)
  | _ => None
  end.

(** [float(j)] and [int(j)]; [None] is a TypeError, a ValueError or an
    OverflowError. *)
Definition py_float (j : json) : option PyFloat.float :=
  match j with
  | JFloat x => Some x
  | JInt z => match PyFloat.of_int z with Ok x => Some x | Raise _ => None end
  | JBool b => Some (PyFloat.of_Z (if b then 1 else 0))
  | JStr s => float_of_str s
  | _ => None
  end.

Definition py_int (j : json) : option Z :=
  match j with
  | JInt z => Some z
  | JFloat x => match PyFloat.trunc x with Ok z => Some z | Raise _ => None end
  | JBool b => Some (if b then 1 else 0)
  | JStr s => int_of_str s
  | _ => None
  end.

(** [len(j)]; [None] is a TypeError. *)
Definition py_len (j : json) : option Z :=
  match j with
  | JArr items => Some (Z.of_nat (length items))
  | JObj members => Some (Z.of_nat (length members))
  | JStr s => Some (len s)
  | _ => None
  end.

(** A scalar of a float32 array: numpy takes [None] as nan and converts
    anything else with [float], then to binary32. *)
Definition f32_of_json (j : json) : option PyFloat.float :=
  match j with
  | JNull => Some S754_nan
  | _ => F32.of_f64 <$> py_float j
  end.

(** The elements of a nested list of the given shape, in row-major order;
    [None] when the list is ragged or an element does not convert. *)
Fixpoint conform (sh : list nat) (j : json) : option (list PyFloat.float) :=
  match sh with
  | [] => x ← f32_of_json j; Some [x]
  | n :: sh' =>
      match j with
      | JArr items =>
          if (length items =? n)%nat
          then (fun rows => List.concat rows) <$> mapM (conform sh') items
          else None
      | _ => None
      end
  end.

(** [np.array(j, dtype=np.float32)]. *)
Definition np_array (j : json) : option ndarray :=
  if (length (shape_of j) <=? np_maxdims)%nat then
    elements ← conform (shape_of j) j;
    Some {| shape := shape_of j; flat := elements |}
  else None.

(** [cv2.KeyPoint(x=float(d["x"]), ...)] for one element of "kpts". *)
Definition keypoint_of_json (kp_dict : json) : option keypoint :=
  match kp_dict with
  | JObj members =>
      x ← lookup_member "x" members ≫= py_float;
      y ← lookup_member "y" members ≫= py_float;
      size ← lookup_member "size" members ≫= py_float;
      angle ← lookup_member "angle" members ≫= py_float;
      response ← lookup_member "response" members ≫= py_float;
      octave ← lookup_member "octave" members ≫= py_int;
      class_id ← lookup_member "class_id" members ≫= py_int;
      if is_int32 octave && is_int32 class_id then
        Some {| kp_x := F32.of_f64 x; kp_y := F32.of_f64 y;
                kp_size := F32.of_f64 size; kp_angle := F32.of_f64 angle;
                kp_response := F32.of_f64 response;
                kp_octave := octave; kp_class_id := class_id |}
      else None
  | _ => None
  end.

(** What a [for] loop over a JSON value visits; [None] when the value is
    not iterable. *)
Definition iterate (j : json) : option (list json) :=
  match j with
  | JArr items => Some items
  | JObj members => Some (map (fun kv => JStr (fst kv)) members)
  | JStr s => Some (map (fun c => JStr (String c EmptyString)) (list_ascii_of_string s))
  | _ => None
  end.

Definition deserialize_keypoints_descriptors (b64_compressed_json : string)
    : option (list keypoint * ndarray * metadata) :=
  if len b64_compressed_json <? 100 then None
  else
    compressed ← Base64.b64decode b64_compressed_json;
    json_str ← gzip_decompress compressed;
    data ← json_loads json_str;
    has_kpts ← contains_key "kpts" data;
    has_des ← (if has_kpts then contains_key "des" data else Some false);
    if negb (has_kpts && has_des) then None
    else
      match data with
      | JObj members =>
          kpts ← lookup_member "kpts" members;
          kp_dicts ← iterate kpts;
          keypoints ← mapM keypoint_of_json kp_dicts;
          des ← lookup_member "des" members;
          descriptors ← np_array des;
          Some (keypoints, descriptors,
                {| md_method :=
                     default (JStr "unknown") (lookup_member "method" members);
                   md_kp_count :=
                     default (JInt (Z.of_nat (length keypoints)))
                             (lookup_member "kp_count" members);
                   md_roi_w := lookup_member "roi_w" members;
                   md_roi_h := lookup_member "roi_h" members |})
      | _ => None
      end.

(** The validation inside [is_precomputed_template], up to [is_valid];
    [None] is any exception. *)
Definition valid_template_json (template_data : string) : option (json * bool) :=
  decoded ← Base64.b64decode template_data;
  decompressed ← gzip_decompress decoded;
  data ← json_loads decompressed;
  has_kpts ← contains_key "kpts" data;
  is_valid ← (if (has_kpts : bool) then contains_key "des" data else Some false);
  Some (data, is_valid).

(** [len(data.get('kpts', []))] in the message about a valid template:
    only a dict has [get]. *)
Definition kpts_count (data : json) : option Z :=
  match data with
  | JObj members => py_len (default (JArr []) (lookup_member "kpts" members))
  | _ => None
  end.

(** [list(data.keys())] in the message about missing fields. *)
Definition keys (data : json) : option (list string) :=
  match data with
  | JObj members => Some (map fst members)
  | _ => None
  end.

Definition is_precomputed_template (template_data : string) : bool :=
  if len template_data <? 100 then false
  else if startswith "H4sI" template_data then
    match
      '(data, is_valid) ← valid_template_json template_data;
      if (is_valid : bool)
      then _ ← kpts_count data; Some is_valid
      else _ ← keys data; Some is_valid
    with
    | Some is_valid => is_valid
    | None => negb (len template_data <? 5000)
    end
  else if 10000 <? len template_data then
    match
      '(data, is_valid) ← valid_template_json template_data;
      if (is_valid : bool)
      then _ ← kpts_count data; Some is_valid
      else Some is_valid
    with
    | Some is_valid => is_valid
    | None => false
    end
  else false.

Definition load_precomputed_template (b64_compressed_json : string)
    (label : string) : features :=
  match deserialize_keypoints_descriptors b64_compressed_json with
  | None =>
      {| f_label := Present label; f_success := false; f_keypoints := 0;
         f_descriptors := None; f_quality_flag := false;
         f_quality_warn := false;
         f_error := Present (Some "deserialization_failed");
         f_is_precomputed := Present true; f_metadata := Absent |}
  | Some (keypoints, descriptors, md) =>
      let kp_count := Z.of_nat (length keypoints) in
      let success := 10 <=? kp_count in
      {| f_label := Present label; f_success := success;
         f_keypoints := kp_count; f_descriptors := Some descriptors;
         f_quality_flag := FP_MIN_KEYPOINTS <=? kp_count;
         f_quality_warn := FP_MIN_KEYPOINTS_WARN <=? kp_count;
         f_error :=
           Present (if success then None else Some "insufficient_features");
         f_is_precomputed := Present true; f_metadata := Present md |}
  end.

End Codec.

(** ** Feature extraction

    Decoding the image, enhancing it, cleaning it, cutting the region of
    interest and running SIFT are OpenCV work: the whole chain is one
    parameter, by the enhancement it starts with. *)

Inductive enhancement :=
  | Professional (force_basic : bool)
  | Improved.

Inductive detection :=
  | DecodeFailed
  | EnhancementFailed
  | Detected (keypoints : option (list keypoint)) (descriptors : option ndarray)
  | ImagingError.

Class Imaging := {
  detectAndCompute : enhancement -> string -> detection;
}.

Section Extraction.
Context {cfg : Config} {img : Imaging}.

Definition failed_features (label : string) (why : string) : features :=
  {| f_label := Present label; f_success := false; f_keypoints := 0;
     f_descriptors := None; f_quality_flag := false; f_quality_warn := false;
     f_error := Present (Some why); f_is_precomputed := Absent;
     f_metadata := Absent |}.

(** [prepare_features]: every caller asks for the professional
    enhancement; [force_basic] is the value of FP_FORCE_BASIC at the call. *)
Definition prepare_features (b64_string : string) (label : string)
    (force_basic : bool) : res features :=
  match detectAndCompute (Professional force_basic) b64_string with
  | DecodeFailed => Ok (failed_features label "decode_failed")
  | EnhancementFailed => Ok (failed_features label "enhancement_failed")
  | ImagingError => Raise ValueError
  | Detected kp des =>
      let kp_count := Z.of_nat (length (default [] kp)) in
      let success := bool_decide (is_Some des) && (10 <=? kp_count) in
      Ok {| f_label := Present label; f_success := success;
            f_keypoints := kp_count; f_descriptors := des;
            f_quality_flag := FP_MIN_KEYPOINTS <=? kp_count;
            f_quality_warn := FP_MIN_KEYPOINTS_WARN <=? kp_count;
            f_error :=
              Present (if success then None else Some "insufficient_features");
            f_is_precomputed := Absent; f_metadata := Absent |}
  end.

End Extraction.

(** ** Multi-template verification ([match_templates])

    The per-template workers run in a process pool.  The orchestrator sees
    them through [as_completed]: a sequence of finished futures, in an order
    the pool decides, each carrying the payload the worker returned or the
    exception that [future.result()] raises. *)

Inductive outcome :=
  | Returned (result : payload)
  | Crashed (message : string).

(** The state of the gathering loop: the results stored so far, the futures
    not yet seen, the early-exit flag and the futures that [cancel()] has
    cancelled. *)
Record gathering := {
  template_results_dict : gmap nat payload;
  pending_futures : gset nat;
  high_confidence_match_found : bool;
  cancelled_futures : gset nat;
}.

Section Verification.
Context {cfg : Config}.

Definition placeholder_payload (probe_kp : Z) (why : string) (idx : nat) : payload :=
  set_template_index (Z.of_nat idx)
    (set_reason (Some why) (_base_match_payload probe_kp 0)).

(** The keys a worker adds to the Matcher's payload before returning it. *)
Definition worker_result (idx : nat) (template_features : features)
    (result : payload) : payload :=
  set_is_precomputed (get_default (f_is_precomputed template_features) false)
    (set_template_index (Z.of_nat idx) result).

Definition is_high_confidence (result : payload) : bool :=
  accepted result &&
  PyFloat.leb (PyFloat.add FP_CONF_HIGH (PyFloat.of_Z 15)) (confidence result).

(** The loop over [as_completed].  [cancellable] tells for which pending
    futures [cancel()] succeeds (those the pool has not started). *)
Fixpoint gather (probe_kp : Z) (total : nat) (cancellable : nat -> bool)
    (completed : list (nat * outcome)) (st : gathering) : gathering :=
  match completed with
  | [] => st
  | (idx, Crashed message) :: rest =>
      gather probe_kp total cancellable rest
        {| template_results_dict :=
             <[idx := placeholder_payload probe_kp
                        ("future_error: " +:+ message) idx]>
               (template_results_dict st);
           pending_futures := pending_futures st ∖ {[idx]};
           high_confidence_match_found := high_confidence_match_found st;
           cancelled_futures := cancelled_futures st |}
  | (idx, Returned result) :: rest =>
      let dict := <[idx := result]> (template_results_dict st) in
      let pending := pending_futures st ∖ {[idx]} in
      if is_high_confidence result && (3 <=? total)%nat then
        {| template_results_dict := dict;
           pending_futures := pending;
           high_confidence_match_found := true;
           cancelled_futures :=
             filter (fun i => cancellable i = true) pending |}
      else
        gather probe_kp total cancellable rest
          {| template_results_dict := dict;
             pending_futures := pending;
             high_confidence_match_found := high_confidence_match_found st;
             cancelled_futures := cancelled_futures st |}
  end.

Definition gather_start (total : nat) : gathering :=
  {| template_results_dict := ∅;
     pending_futures := list_to_set (seq 0 total);
     high_confidence_match_found := false;
     cancelled_futures := ∅ |}.

(** The results in input order; an index without a stored result gets the
    placeholder of a cancelled worker. *)
Definition ordered_results (probe_kp : Z) (total : nat) (st : gathering) : list payload :=
  map (fun idx =>
         default (placeholder_payload probe_kp "cancelled_early_exit" idx)
                 (template_results_dict st !! idx))
      (seq 0 total).

(** *** The decision *)

Definition replaces_best (result best_result : payload) : bool :=
  if accepted result && negb (accepted best_result) then true
  else if accepted result && accepted best_result &&
          (score best_result <? score result) then true
  else negb (accepted best_result) && (score best_result <? score result).

(** The best result and its position: the position stands for the identity
    of the dict, which the code tests with [is] and mutates in place. *)
Fixpoint select_best (i : nat) (results : list payload)
    (best : option (nat * payload)) : option (nat * payload) :=
  match results with
  | [] => best
  | result :: rest =>
      select_best (S i) rest
        (match best with
         | None => Some (i, result)
         | Some (bi, best_result) =>
             if replaces_best result best_result
             then Some (i, result) else Some (bi, best_result)
         end)
  end.

Definition skipped_reasons : list string :=
  ["empty_template"; "decode_failed"; "enhancement_failed";
   "insufficient_features"; "cancelled_early_exit"].

Definition counts_as_evaluated (r : payload) : bool :=
  match reason r with
  | Some why => negb (bool_decide (why ∈ skipped_reasons))
  | None => true
  end.

Definition non_empty_templates (results : list payload) : list (nat * payload) :=
  filter (fun ir => counts_as_evaluated ir.2 = true) (imap pair results).

(** The highest-scoring evaluated template other than the best one; the
    first one among equals. *)
Fixpoint find_secondary (best_index : nat) (candidates : list (nat * payload))
    (best_secondary_score : Z) (secondary_support : option (nat * payload))
    : option (nat * payload) :=
  match candidates with
  | [] => secondary_support
  | (i, candidate) :: rest =>
      if (i =? best_index)%nat
      then find_secondary best_index rest best_secondary_score secondary_support
      else if best_secondary_score <? score candidate
      then find_secondary best_index rest (score candidate) (Some (i, candidate))
      else find_secondary best_index rest best_secondary_score secondary_support
  end.

(** Whether the secondary template supports the primary, by score tier of
    the primary. *)
Definition secondary_valid (primary_score : Z) (secondary_support : payload) : res bool :=
  let support_score := score secondary_support in
  let support_required := required_score secondary_support in
  let secondary_threshold := threshold_used secondary_support in
  if 70 <=? primary_score then
    t ← int_times secondary_threshold (PyFloat.literal 85 2);
    let secondary_min_threshold := Z.max 45 t in
    Ok ((45 <=? support_score) && (secondary_min_threshold <=? support_score))
  else if 60 <=? primary_score then
    t ← int_times secondary_threshold (PyFloat.literal 80 2);
    let secondary_min_threshold := Z.max 45 t in
    if get_default (p_is_precomputed secondary_support) false then
      Ok (((support_required - 2 <=? support_score) && (45 <=? support_score))
          || (secondary_min_threshold <=? support_score))
    else
      Ok ((45 <=? support_score) && (secondary_min_threshold <=? support_score))
  else
    Ok (accepted secondary_support && (FP_ABS_MIN_SCORE <=? support_score)).

Definition support_floor (primary_score : Z) (secondary_support : payload) : Z :=
  if 70 <=? primary_score then Z.max (required_score secondary_support) 45
  else if 60 <=? primary_score then Z.max (required_score secondary_support) 45
  else Z.max (required_score secondary_support) FP_ABS_MIN_SCORE.

(** The response of [match_templates]; [template_results] holds the best
    result as the decision left it. *)
Record verification := {
  v_accepted : bool;
  v_decision_reason : option string;
  v_template_results : list payload;
  v_best_template_index : entry nat;
  v_secondary_support_score : entry Z;
  v_secondary_support_floor : entry Z;
}.

(** Rejection after a tentative acceptance: the response and the best
    result (shared with [template_results]) both change. *)
Definition reject_best (why : string) (results : list payload) (bi : nat)
    (best_result : payload) (ss sf : entry Z) : verification :=
  {| v_accepted := false;
     v_decision_reason := Some why;
     v_template_results :=
       <[bi := set_accepted false (set_reason (Some why) best_result)]> results;
     v_best_template_index := Present bi;
     v_secondary_support_score := ss;
     v_secondary_support_floor := sf |}.

Definition decide_verification (results : list payload) : res verification :=
  match select_best 0 results None with
  | None =>
      Ok {| v_accepted := false;
            v_decision_reason := Some "no_templates_evaluados";
            v_template_results := results;
            v_best_template_index := Absent;
            v_secondary_support_score := Absent;
            v_secondary_support_floor := Absent |}
  | Some (bi, best_result) =>
      let evaluated := non_empty_templates results in
      let template_count := Z.of_nat (length evaluated) in
      let secondary_support :=
        if 2 <=? template_count
        then find_secondary bi evaluated (-1) None else None in
      let primary_margin := score best_result - required_score best_result in
      if accepted best_result then
        if 2 <=? template_count then
          match secondary_support with
          | Some (_, support) =>
              let primary_score := score best_result in
              valid ← secondary_valid primary_score support;
              let ss := Present (score support) in
              let sf := Present (support_floor primary_score support) in
              let min_primary_margin :=
                if get_default (p_is_precomputed best_result) false
                then 3 else 5 in
              if negb valid || (primary_margin <? min_primary_margin) then
                Ok (reject_best "secondary_template_disagrees" results bi
                      best_result ss sf)
              else
                Ok {| v_accepted := true;
                      v_decision_reason := Some "match_found";
                      v_template_results := results;
                      v_best_template_index := Present bi;
                      v_secondary_support_score := ss;
                      v_secondary_support_floor := sf |}
          | None =>
              Ok (reject_best "secondary_template_required" results bi
                    best_result Absent Absent)
          end
        else
          m ← round_times (required_score best_result)
                FP_SINGLE_TEMPLATE_MARGIN_RATIO;
          let dynamic_margin := Z.max FP_SINGLE_TEMPLATE_MARGIN_MIN m in
          let required_plus_margin :=
            required_score best_result + dynamic_margin in
          if score best_result <? required_plus_margin then
            Ok (reject_best "single_template_margin" results bi best_result
                  Absent Absent)
          else
            Ok {| v_accepted := true;
                  v_decision_reason := Some "match_found";
                  v_template_results := results;
                  v_best_template_index := Present bi;
                  v_secondary_support_score := Absent;
                  v_secondary_support_floor := Absent |}
      else
        Ok {| v_accepted := false;
              v_decision_reason :=
                match reason best_result with
                | Some why => Some why
                | None => None
                end;
              v_template_results := results;
              v_best_template_index := Present bi;
              v_secondary_support_score := Absent;
              v_secondary_support_floor := Absent |}
  end.

(** [match_templates] after the probe has been processed: [total] is the
    number of templates in the request, [completed] the futures in the
    order [as_completed] yields them. *)
Definition match_templates (probe_features : features) (total : nat)
    (cancellable : nat -> bool) (completed : list (nat * outcome))
    : res verification :=
  let early why :=
    Ok {| v_accepted := false; v_decision_reason := why;
          v_template_results := [];
          v_best_template_index := Absent;
          v_secondary_support_score := Absent;
          v_secondary_support_floor := Absent |} in
  if (total =? 0)%nat then Raise (HTTPException 400)
  else if negb (f_success probe_features) then
    early (get_default (f_error probe_features)
             (Some "probe_processing_error"))
  else if negb (FP_MIN_KEYPOINTS_WARN <=? f_keypoints probe_features) then
    early (Some "probe_low_quality")
  else
    let st := gather (f_keypoints probe_features) total cancellable completed
                (gather_start total) in
    match decide_verification
            (ordered_results (f_keypoints probe_features) total st) with
    | Ok v => Ok v
    | Raise _ => Raise (HTTPException 500)
    end.

End Verification.

(** ** The per-template worker and the whole request *)

Section Requests.
Context {cfg : Config} {cv : OpenCV} {libs : Libs} {img : Imaging}.

(** [np.frombuffer(bytes, float32).reshape(-1, 128)]. *)
Definition reshape_128 (elements : list PyFloat.float) : res ndarray :=
  if (length elements mod 128 =? 0)%nat
  then Ok {| shape := [(length elements / 128)%nat; 128%nat]; flat := elements |}
  else Raise ValueError.

(** [_process_single_template]: the probe arrives as the bytes of its
    descriptors.  An exception inside the [try] becomes a payload; the
    reshape before it does not. *)
Definition _process_single_template (idx : nat) (template_data : string)
    (probe_descriptors : option ndarray) (probe_keypoints : Z)
    (threshold_override : option Z) : res payload :=
  probe_des ←
    match probe_descriptors with
    | Some d =>
        match flat d with
        | [] => Ok None
        | _ => a ← reshape_128 (flat d); Ok (Some a)
        end
    | None => Ok None
    end;
  let probe_features :=
    {| f_label := Absent;
       f_success :=
         match probe_des with
         | Some d => match ndarray_len d with
                     | Ok n => 0 <? n
                     | Raise _ => false
                     end
         | None => false
         end;
       f_keypoints := probe_keypoints; f_descriptors := probe_des;
       f_quality_flag := FP_MIN_KEYPOINTS <=? probe_keypoints;
       f_quality_warn := FP_MIN_KEYPOINTS_WARN <=? probe_keypoints;
       f_error := Absent; f_is_precomputed := Absent; f_metadata := Absent |} in
  let error_payload why :=
    Ok (placeholder_payload probe_keypoints why idx) in
  match template_data with
  | EmptyString => error_payload "empty_template"
  | _ =>
      let attempt : res payload :=
        if is_precomputed_template template_data then
          let template_features :=
            load_precomputed_template template_data
              ("template_" +:+ pretty idx) in
          if negb (f_success template_features) then
            Ok (set_template_index (Z.of_nat idx)
                  (set_reason
                     (get_default (f_error template_features)
                        (Some "precomputed_load_failed"))
                     (_base_match_payload probe_keypoints
                        (f_keypoints template_features))))
          else
            result ← match_feature_sets probe_features template_features
                       threshold_override false;
            Ok (worker_result idx template_features result)
        else
          template_features ←
            prepare_features template_data ("template_" +:+ pretty idx)
              FP_FORCE_BASIC;
          result ← match_feature_sets probe_features template_features
                     threshold_override false;
          Ok (worker_result idx template_features result) in
      match attempt with
      | Ok result => Ok result
      | Raise e => error_payload ("processing_error: " +:+ exn_message e)
      end
  end.

Definition worker_outcome (idx : nat) (template_data : string)
    (probe_features : features) (threshold_override : option Z) : outcome :=
  match _process_single_template idx template_data
          (f_descriptors probe_features) (f_keypoints probe_features)
          threshold_override with
  | Ok result => Returned result
  | Raise e => Crashed (exn_message e)
  end.

(** The request: [order] is the order in which the pool finishes the
    workers, a list of template positions. *)
Definition match_templates_request (probe_image_b64 : string)
    (templates_b64 : list string) (threshold_override : option Z)
    (order : list nat) (cancellable : nat -> bool) : res verification :=
  if bool_decide (templates_b64 = []) then Raise (HTTPException 400)
  else
    match prepare_features probe_image_b64 "probe" FP_FORCE_BASIC with
    | Raise _ => Raise (HTTPException 500)
    | Ok probe_features =>
        match_templates probe_features (length templates_b64) cancellable
          (omap (fun idx =>
                   template_data ← templates_b64 !! idx;
                   Some (idx, worker_outcome idx template_data probe_features
                                threshold_override))
                order)
    end.

End Requests.

(** ** Embeddings

    [descriptors_to_vector] is arithmetic on numbers: it is written once
    over the operations it uses, and read in float32 (what numpy computes,
    adding rows in order) or in the real numbers (the computation without
    rounding). *)

Class Arith (F : Type) := {
  a_zero : F;
  a_add : F -> F -> F;
  a_mul : F -> F -> F;
  a_div : F -> F -> F;
  a_sqrt : F -> F;
  a_of_nat : nat -> F;
  a_positive : F -> bool;
}.

Section Embedding.
Context {F : Type} {arith : Arith F}.

(** [rows.mean(axis=0)] for [n] rows of [c] columns. *)
Definition mean_axis0 (n c : nat) (rows : list (list F)) : list F :=
  map (fun total => a_div total (a_of_nat n))
      (foldl (zip_with a_add) (repeat a_zero c) rows).

(** [np.linalg.norm(vec)]. *)
Definition norm (vec : list F) : F :=
  a_sqrt (foldl a_add a_zero (map (fun x => a_mul x x) vec)).

Definition normalized_mean (n c : nat) (rows : list (list F)) : list F :=
  let vec := mean_axis0 n c rows in
  let nrm := norm vec in
  if a_positive nrm then map (fun x => a_div x nrm) vec else vec.

End Embedding.

#[global] Instance float32_arith : Arith PyFloat.float := {|
  a_zero := S754_zero false;
  a_add := SFadd F32.prec F32.emax;
  a_mul := SFmul F32.prec F32.emax;
  a_div := SFdiv F32.prec F32.emax;
  a_sqrt := SFsqrt F32.prec F32.emax;
  a_of_nat := fun n => F32.of_Z (Z.of_nat n);
  a_positive := fun x => SFltb (S754_zero false) x;
|}.

Definition descriptors_to_vector (descriptors : option ndarray) : option ndarray :=
  match descriptors with
  | Some d =>
      match shape d with
      | [n; c] =>
          if (n =? 0)%nat then None
          else Some {| shape := [c];
                       flat := normalized_mean n c (chunks n c (flat d)) |}
      | _ => None
      end
  | None => None
  end.

(** ** The employee index *)

(** The values of the dicts in EMPLOYEE_TEMPLATES. *)
Inductive pyval :=
  | PInt (z : Z)
  | PFeatures (f : features)
  | PFeaturesList (l : list features).

(** The module globals of the index. *)
Record index_state := {
  EMPLOYEE_VECTORS : option ndarray;
  EMPLOYEE_TEMPLATES : list (gmap string pyval);
  EMPLOYEE_IDS : list Z;
  EMPLOYEE_INDEX_READY : bool;
  FAISS_INDEX : option ndarray;
}.

Definition empty_index : index_state :=
  {| EMPLOYEE_VECTORS := None; EMPLOYEE_TEMPLATES := []; EMPLOYEE_IDS := [];
     EMPLOYEE_INDEX_READY := false; FAISS_INDEX := None |}.

(** What the import found installed. *)
Class Platform := {
  PSYCOPG2_AVAILABLE : bool;
  FAISS_AVAILABLE : bool;
  FINGERPRINT_ENHANCER_AVAILABLE : bool;
}.

(** A row of the query of [rebuild_employee_index]. *)
Record employee_row := {
  id_empleado : Z;
  num_templates : option Z;
  huella_gzip_1 : option string;
  huella_gzip_2 : option string;
  huella_gzip_3 : option string;
  huella_gzip_4 : option string;
  huella_1 : option string;
  huella_2 : option string;
  huella_3 : option string;
  huella_4 : option string;
}.

(** The row of the query of [add_employee_to_index]. *)
Record sync_row := {
  sync_id_empleado : Z;
  huella_gzip : option string;
  huella : option string;
}.

(** The store, as the two queries see it; a failure to connect or to query
    is the exception. *)
Record database := {
  active_employees : res (list employee_row);
  active_employee : Z -> res (option sync_row);
}.

Definition is_space (c : ascii) : bool :=
  let n := nat_of_ascii c in
  ((9 <=? n) && (n <=? 13) || (28 <=? n) && (n <=? 32) ||
   (n =? 133) || (n =? 160))%nat.

(** [s.strip() == ""]. *)
Fixpoint is_blank (s : string) : bool :=
  match s with
  | EmptyString => true
  | String c rest => is_space c && is_blank rest
  end.

(** [np.vstack]: arrays of one dimension are rows; the shapes after the
    first dimension must agree. *)
Definition atleast_2d (a : ndarray) : ndarray :=
  match shape a with
  | [] => {| shape := [1%nat; 1%nat]; flat := flat a |}
  | [n] => {| shape := [1%nat; n]; flat := flat a |}
  | _ => a
  end.

Fixpoint vstack_from (rows : nat) (trailing : list nat)
    (elements : list PyFloat.float) (arrays : list ndarray) : res ndarray :=
  match arrays with
  | [] => Ok {| shape := rows :: trailing; flat := elements |}
  | a :: rest =>
      match shape (atleast_2d a) with
      | n :: tr =>
          if bool_decide (tr = trailing)
          then vstack_from (rows + n) trailing (elements ++ flat a) rest
          else Raise ValueError
      | [] => Raise ValueError
      end
  end.

Definition vstack (arrays : list ndarray) : res ndarray :=
  match arrays with
  | [] => Raise ValueError
  | a :: _ =>
      match shape (atleast_2d a) with
      | _ :: trailing => vstack_from 0 trailing [] arrays
      | [] => Raise ValueError
      end
  end.

(** [np.stack(vectors, axis=0)]: all shapes must be equal. *)
Definition stack (vectors : list ndarray) : res ndarray :=
  match vectors with
  | [] => Raise ValueError
  | v :: _ =>
      if forallb (fun w => bool_decide (shape w = shape v)) vectors
      then Ok {| shape := length vectors :: shape v;
                 flat := List.concat (map flat vectors) |}
      else Raise ValueError
  end.

(** The nearest-neighbour searches, FAISS and numpy: the positions of the
    [k] nearest rows; FAISS pads with -1. *)
Class Search := {
  faiss_search : ndarray -> ndarray -> nat -> list Z;
  numpy_argsort_distances : ndarray -> ndarray -> list nat;
}.

Section Index.
Context {cfg : Config} {cv : OpenCV} {libs : Libs} {img : Imaging}
        {platform : Platform} {search : Search}.

Definition or_empty (v : option string) : string := default EmptyString v.

(** Features extracted in memory from a stored PNG. *)
Definition png_features (label : string) (keypoints : list keypoint)
    (descriptors : ndarray) : features :=
  let kp_count := Z.of_nat (length keypoints) in
  {| f_label := Present label; f_success := true; f_keypoints := kp_count;
     f_descriptors := Some descriptors;
     f_quality_flag := FP_MIN_KEYPOINTS <=? kp_count;
     f_quality_warn := FP_MIN_KEYPOINTS_WARN <=? kp_count;
     f_error := Present None; f_is_precomputed := Present false;
     f_metadata := Absent |}.

(** [des.shape[0] == 0]. *)
Definition no_rows (des : ndarray) : res bool :=
  match shape des with
  | n :: _ => Ok (n =? 0)%nat
  | [] => Raise IndexError
  end.

(** One template slot of a row: the features to keep, if any.  An
    exception here is not caught by the slot. *)
Definition load_slot (emp_id : Z) (template_idx : nat)
    (huella_gzip_value huella_png_value : string) : res (option features) :=
  let label := "emp_" +:+ pretty emp_id +:+ "_t" +:+ pretty (S template_idx) in
  if is_blank huella_gzip_value && is_blank huella_png_value then Ok None
  else
    let loaded : option features :=
      if negb (bool_decide (huella_gzip_value = EmptyString)) &&
         (10 <=? len huella_gzip_value) then
        if startswith "H4sI" huella_gzip_value then
          let t_features := load_precomputed_template huella_gzip_value label in
          if f_success t_features then Some t_features else None
        else None
      else if negb (bool_decide (huella_png_value = EmptyString)) &&
              (10 <=? len huella_png_value) &&
              startswith "iVBOR" huella_png_value then
        match detectAndCompute
                (if FINGERPRINT_ENHANCER_AVAILABLE
                 then Professional FP_FORCE_BASIC else Improved)
                huella_png_value with
        | Detected (Some (kp :: kps)) (Some descriptors) =>
            Some (png_features label (kp :: kps) descriptors)
        | _ => None
        end
      else None in
    match loaded with
    | None => Ok None
    | Some t_features =>
        match f_descriptors t_features with
        | None => Ok None
        | Some des =>
            empty ← no_rows des;
            if (empty : bool) then Ok None else Ok (Some t_features)
        end
    end.

Definition load_slots (row : employee_row) : res (list features) :=
  let emp_id := id_empleado row in
  s1 ← load_slot emp_id 0 (or_empty (huella_gzip_1 row)) (or_empty (huella_1 row));
  s2 ← load_slot emp_id 1 (or_empty (huella_gzip_2 row)) (or_empty (huella_2 row));
  s3 ← load_slot emp_id 2 (or_empty (huella_gzip_3 row)) (or_empty (huella_3 row));
  s4 ← load_slot emp_id 3 (or_empty (huella_gzip_4 row)) (or_empty (huella_4 row));
  Ok (omap (fun slot => slot) [s1; s2; s3; s4]).

(** The record of an employee as the rebuild stores it. *)
Definition rebuilt_entry (emp_id : Z) (employee_template_features : list features)
    : gmap string pyval :=
  {[ "employee_id" := PInt emp_id;
     "template_features_list" := PFeaturesList employee_template_features;
     "num_templates" := PInt (Z.of_nat (length employee_template_features)) ]}.

(** The loop over the rows: the three lists grow together. *)
Fixpoint load_rows (rows : list employee_row)
    (templates : list (gmap string pyval)) (vectors : list ndarray)
    (employee_ids : list Z)
    : res (list (gmap string pyval) * list ndarray * list Z) :=
  match rows with
  | [] => Ok (templates, vectors, employee_ids)
  | row :: rest =>
      employee_template_features ← load_slots row;
      match employee_template_features with
      | [] => load_rows rest templates vectors employee_ids
      | _ =>
          let vec :=
            match vstack (omap f_descriptors employee_template_features) with
            | Ok all_descriptors => descriptors_to_vector (Some all_descriptors)
            | Raise _ => None
            end in
          match vec with
          | None => load_rows rest templates vectors employee_ids
          | Some v =>
              load_rows rest
                (templates ++
                   [rebuilt_entry (id_empleado row) employee_template_features])
                (vectors ++ [v])
                (employee_ids ++ [id_empleado row])
          end
      end
  end.

(** The body of the [try] of [rebuild_employee_index]. *)
Definition rebuild_body (db : database) : res (index_state * bool) :=
  rows ← active_employees db;
  loaded ← load_rows rows [] [] [];
  let '(templates, vectors, employee_ids) := loaded in
  match vectors with
  | [] => Ok (empty_index, false)
  | _ =>
      employee_vectors ← stack vectors;
      Ok ({| EMPLOYEE_VECTORS := Some employee_vectors;
             EMPLOYEE_TEMPLATES := templates;
             EMPLOYEE_IDS := employee_ids;
             EMPLOYEE_INDEX_READY := true;
             FAISS_INDEX :=
               if FAISS_AVAILABLE then Some employee_vectors else None |},
          true)
  end.

(** [rebuild_employee_index]: the new globals and the returned flag.
    Without the database driver only the ready flag is cleared; an exception
    in the body clears everything. *)
Definition rebuild_employee_index (db : database) (st : index_state)
    : index_state * bool :=
  if negb PSYCOPG2_AVAILABLE then
    ({| EMPLOYEE_VECTORS := EMPLOYEE_VECTORS st;
        EMPLOYEE_TEMPLATES := EMPLOYEE_TEMPLATES st;
        EMPLOYEE_IDS := EMPLOYEE_IDS st;
        EMPLOYEE_INDEX_READY := false;
        FAISS_INDEX := FAISS_INDEX st |}, false)
  else
    match rebuild_body db with
    | Ok result => result
    | Raise _ => (empty_index, false)
    end.

Definition ensure_employee_index_ready (db : database) (st : index_state)
    : index_state * bool :=
  if negb (EMPLOYEE_INDEX_READY st) then rebuild_employee_index db st
  else (st, EMPLOYEE_INDEX_READY st).

(** The record of an employee as the incremental add stores it. *)
Definition synced_entry (employee_id : Z) (t_features : features)
    : gmap string pyval :=
  {[ "employee_id" := PInt employee_id;
     "template_features" := PFeatures t_features ]}.

(** [np.vstack([EMPLOYEE_VECTORS, vec.reshape(1, -1)])]. *)
Definition append_row (vectors : option ndarray) (vec : ndarray) : res ndarray :=
  let row := {| shape := [1%nat; length (flat vec)]; flat := flat vec |} in
  match vectors with
  | None => Ok row
  | Some m => vstack [m; row]
  end.

(** The body of the [try] of [add_employee_to_index]: [None] is a return
    of False that leaves the globals alone; the globals are updated before
    the FAISS index is, so a failure there returns False on new globals. *)
Definition add_body (db : database) (employee_id : Z) (st : index_state)
    : res (option (index_state * bool)) :=
  row ← active_employee db employee_id;
  match row with
  | None => Ok None
  | Some row =>
      let huella_gzip_value := or_empty (huella_gzip row) in
      let huella_png_value := or_empty (huella row) in
      let label := "emp_" +:+ pretty employee_id in
      let loaded : option features :=
        if negb (bool_decide (huella_gzip_value = EmptyString)) &&
           (10 <=? len huella_gzip_value) &&
           startswith "H4sI" huella_gzip_value then
          let t_features := load_precomputed_template huella_gzip_value label in
          if f_success t_features then Some t_features else None
        else if negb (bool_decide (huella_png_value = EmptyString)) &&
                (10 <=? len huella_png_value) &&
                startswith "iVBOR" huella_png_value then
          match detectAndCompute (Professional FP_FORCE_BASIC)
                  huella_png_value with
          | Detected (Some (kp :: kps)) (Some descriptors) =>
              Some (png_features label (kp :: kps) descriptors)
          | _ => None
          end
        else None in
      match loaded with
      | None => Ok None
      | Some t_features =>
          match f_descriptors t_features with
          | None => Ok None
          | Some des =>
              empty ← no_rows des;
              if (empty : bool) then Ok None
              else
                match descriptors_to_vector (Some des) with
                | None => Ok None
                | Some vec =>
                    employee_vectors ← append_row (EMPLOYEE_VECTORS st) vec;
                    let updated faiss :=
                      {| EMPLOYEE_VECTORS := Some employee_vectors;
                         EMPLOYEE_TEMPLATES :=
                           EMPLOYEE_TEMPLATES st ++
                           [synced_entry employee_id t_features];
                         EMPLOYEE_IDS := EMPLOYEE_IDS st ++ [employee_id];
                         EMPLOYEE_INDEX_READY := EMPLOYEE_INDEX_READY st;
                         FAISS_INDEX := faiss |} in
                    match FAISS_INDEX st with
                    | Some m =>
                        if FAISS_AVAILABLE then
                          match append_row (Some m) vec with
                          | Ok m' => Ok (Some (updated (Some m'), true))
                          | Raise _ => Ok (Some (updated (Some m), false))
                          end
                        else Ok (Some (updated (Some m), true))
                    | None => Ok (Some (updated None, true))
                    end
                end
          end
      end
  end.

Definition add_employee_to_index (db : database) (employee_id : Z)
    (st : index_state) : index_state * bool :=
  if negb PSYCOPG2_AVAILABLE then (st, false)
  else if bool_decide (employee_id ∈ EMPLOYEE_IDS st) then (st, true)
  else
    match add_body db employee_id st with
    | Ok (Some result) => result
    | Ok None => (st, false)
    | Raise _ => (st, false)
    end.

End Index.

(** ** Identification ([identify_employee]) *)

(** The response; [id_candidates] are the candidate results as the gates
    left them. *)
Record identification := {
  matched : bool;
  id_employee_id : option Z;
  decision_reason : option string;
  best_score : entry Z;
  templates_in_index : entry Z;
  candidates_evaluated : entry Z;
  id_candidates : list payload;
}.

(** [s >= x] for an int and a float: Python compares the exact values. *)
Definition int_ge_float (s : Z) (x : PyFloat.float) : bool :=
  match x with
  | S754_zero _ => 0 <=? s
  | S754_finite sign m e =>
      let v := if sign then Z.neg m else Z.pos m in
      match e with
      | Zneg p => v <=? s * 2 ^ Z.pos p
      | _ => v * 2 ^ e <=? s
      end
  | S754_infinity sign => sign
  | S754_nan => false
  end.

Section Identification.
Context {cfg : Config} {cv : OpenCV} {libs : Libs} {img : Imaging}
        {platform : Platform} {search : Search}.

Definition find_top_k_candidates (st : index_state) (probe_vec : ndarray)
    (k : Z) : res (list Z) :=
  match EMPLOYEE_VECTORS st with
  | None => Ok []
  | Some vectors =>
      rows ← ndarray_len vectors;
      if rows =? 0 then Ok []
      else
        let k := Z.min k rows in
        match FAISS_INDEX st with
        | Some index =>
            if FAISS_AVAILABLE then
              if k <? 1 then Raise ValueError
              else Ok (filter (fun i => 0 <= i)
                         (faiss_search index probe_vec (Z.to_nat k)))
            else
              Ok (map Z.of_nat
                    (take (Z.to_nat (if k <? 0 then rows + k else k))
                       (numpy_argsort_distances vectors probe_vec)))
        | None =>
            Ok (map Z.of_nat
                  (take (Z.to_nat (if k <? 0 then rows + k else k))
                     (numpy_argsort_distances vectors probe_vec)))
        end
  end.

Definition get_item (key : string) (d : gmap string pyval) : res pyval :=
  match d !! key with
  | Some v => Ok v
  | None => Raise (KeyError key)
  end.

(** [max(results, key=score)]: the first result of highest score. *)
Fixpoint max_by_score (best : payload) (results : list payload) : payload :=
  match results with
  | [] => best
  | r :: rest =>
      max_by_score (if score best <? score r then r else best) rest
  end.

(** The template dict that identification hands to the Matcher. *)
Definition stored_template (emp_id : Z) (template_idx : nat)
    (tmpl_features : features) : features :=
  {| f_label :=
       Present ("emp_" +:+ pretty emp_id +:+ "_t" +:+ pretty (S template_idx));
     f_success := f_success tmpl_features;
     f_keypoints := f_keypoints tmpl_features;
     f_descriptors := f_descriptors tmpl_features;
     f_quality_flag := f_quality_flag tmpl_features;
     f_quality_warn := f_quality_warn tmpl_features;
     f_error := Absent; f_is_precomputed := Present true;
     f_metadata := Absent |}.

Fixpoint match_all_templates (probe_features : features) (emp_id : Z)
    (template_idx : nat) (template_features_list : list features)
    (threshold_override : option Z) : res (list payload) :=
  match template_features_list with
  | [] => Ok []
  | tmpl_features :: rest =>
      result ← match_feature_sets probe_features
                 (stored_template emp_id template_idx tmpl_features)
                 threshold_override true;
      results ← match_all_templates probe_features emp_id (S template_idx)
                  rest threshold_override;
      Ok (set_template_index (Z.of_nat (S template_idx))
            (set_is_precomputed true result) :: results)
  end.

(** One shortlisted employee: the best of its template results, with the
    keys the orchestrator adds. *)
Definition evaluate_candidate (st : index_state) (probe_features : features)
    (threshold_override : option Z) (idx : Z) : res payload :=
  tmpl_entry ←
    match (if idx <? 0
           then rev (EMPLOYEE_TEMPLATES st) !! Z.to_nat (- idx - 1)
           else EMPLOYEE_TEMPLATES st !! Z.to_nat idx) with
    | Some d => Ok d
    | None => Raise IndexError
    end;
  emp ← get_item "employee_id" tmpl_entry;
  lst ← get_item "template_features_list" tmpl_entry;
  num ← get_item "num_templates" tmpl_entry;
  match emp, lst, num with
  | PInt emp_id, PFeaturesList template_features_list, PInt num_templates =>
      template_results ← match_all_templates probe_features emp_id 0
                           template_features_list threshold_override;
      match template_results with
      | [] => Raise ValueError
      | first :: others =>
          Ok (set_employee emp_id num_templates (map score template_results)
                (max_by_score first others))
      end
  | _, _, _ => Raise TypeError
  end.

Fixpoint evaluate_candidates (st : index_state) (probe_features : features)
    (threshold_override : option Z) (candidate_indices : list Z)
    : res (list payload) :=
  match candidate_indices with
  | [] => Ok []
  | idx :: rest =>
      r ← evaluate_candidate st probe_features threshold_override idx;
      rs ← evaluate_candidates st probe_features threshold_override rest;
      Ok (r :: rs)
  end.

(** *** The gates after a tentative acceptance *)

Definition second_best_score (best_emp_id : entry Z) (candidate_results : list payload) : Z :=
  foldl (fun second_best r =>
           if bool_decide (employee_id r <> best_emp_id) &&
              (second_best <? score r)
           then score r else second_best)
        0 candidate_results.

Definition min_margin (num_employees : Z) : Z :=
  if num_employees <=? 4 then 10
  else if num_employees <=? 10 then 12
  else 15.

Definition reject (why : string) (p : payload) : payload :=
  set_reason (Some why) (set_accepted false p).

Definition apply_gates (num_employees : Z) (candidate_results : list payload)
    (best_result : payload) : res payload :=
  if accepted best_result then
    let best_score := score best_result in
    let best_emp_id := employee_id best_result in
    let second_best := second_best_score best_emp_id candidate_results in
    let margin_of_victory := best_score - second_best in
    let min_margin := min_margin num_employees in
    let after_margin :=
      if (1 <? Z.of_nat (length candidate_results)) &&
         (margin_of_victory <? min_margin)
      then reject ("ambiguous_match_margin_" +:+ pretty margin_of_victory
                     +:+ "<" +:+ pretty min_margin) best_result
      else best_result in
    let min_absolute_score :=
      if 0 <? FP_ABS_MIN_SCORE then FP_ABS_MIN_SCORE else 45 in
    let after_floor :=
      if best_score <? min_absolute_score
      then reject ("score_too_low_" +:+ pretty best_score +:+ "<"
                     +:+ pretty min_absolute_score) after_margin
      else after_margin in
    let all_template_scores :=
      get_default (all_template_scores best_result) [] in
    if 3 <=? Z.of_nat (length all_template_scores) then
      b ← PyFloat.of_int best_score;
      let threshold_score := PyFloat.mul b (PyFloat.literal 6 1) in
      let good_templates :=
        Z.of_nat (length (filter (fun s => int_ge_float s threshold_score = true)
                            all_template_scores)) in
      if good_templates <? 2
      then Ok (reject ("inconsistent_templates_" +:+ pretty good_templates
                         +:+ "/" +:+ pretty (length all_template_scores))
                 after_floor)
      else Ok after_floor
    else Ok after_floor
  else Ok best_result.

Definition not_matched (why : option string) : identification :=
  {| matched := false; id_employee_id := None; decision_reason := why;
     best_score := Absent; templates_in_index := Absent;
     candidates_evaluated := Absent; id_candidates := [] |}.

(** The request after the index has been found ready. *)
Definition identify_in_index (st : index_state) (probe_image_b64 : string)
    (max_candidates : option Z) (threshold_override : option Z)
    : res identification :=
  match EMPLOYEE_VECTORS st with
  | None => Raise (HTTPException 500)
  | Some vectors =>
      rows ← ndarray_len vectors;
      if rows =? 0 then Raise (HTTPException 500)
      else
        probe_features ← prepare_features probe_image_b64 "probe_identify" false;
        if negb (f_success probe_features) then
          Ok (not_matched (get_default (f_error probe_features)
                             (Some "probe_processing_error")))
        else if f_keypoints probe_features <? FP_MIN_KEYPOINTS_WARN then
          Ok (not_matched (Some "probe_low_quality"))
        else
          match descriptors_to_vector (f_descriptors probe_features) with
          | None => Ok (not_matched (Some "probe_no_descriptors"))
          | Some probe_vec =>
              let k := match max_candidates with
                       | Some 0 | None => 5
                       | Some k => k
                       end in
              candidate_indices ← find_top_k_candidates st probe_vec k;
              match candidate_indices with
              | [] => Ok (not_matched (Some "no_candidates_found"))
              | _ =>
                  candidate_results ←
                    evaluate_candidates st probe_features threshold_override
                      candidate_indices;
                  match select_best 0 candidate_results None with
                  | None => Ok (not_matched (Some "no_valid_results"))
                  | Some (bi, best_result) =>
                      final ← apply_gates (Z.of_nat (length (EMPLOYEE_IDS st)))
                                candidate_results best_result;
                      Ok {| matched := accepted final;
                            id_employee_id :=
                              if accepted final
                              then match employee_id best_result with
                                   | Present e => Some e
                                   | Absent => None
                                   end
                              else None;
                            decision_reason :=
                              if accepted final then Some "match_found"
                              else reason final;
                            best_score := Present (score final);
                            templates_in_index :=
                              Present (Z.of_nat (length (EMPLOYEE_IDS st)));
                            candidates_evaluated :=
                              Present (Z.of_nat (length candidate_results));
                            id_candidates := <[bi := final]> candidate_results |}
                  end
              end
          end
  end.

Definition identify_employee (db : database) (probe_image_b64 : string)
    (max_candidates : option Z) (threshold_override : option Z)
    (st : index_state) : index_state * res identification :=
  let '(st', ready) := ensure_employee_index_ready db st in
  if negb ready then (st', Raise (HTTPException 500))
  else (st', identify_in_index st' probe_image_b64 max_candidates
               threshold_override).

End Identification.

(** ** The imaging chain, step by step

    The steps that [prepare_features] and [/extract_template] run on an
    image.  What OpenCV, numpy and fingerprint_enhancer compute is a
    parameter; what the service does around them is written out. *)

Class Vision := {
  image : Type;
  (** [cv2.imdecode(np.frombuffer(bytes, np.uint8), cv2.IMREAD_GRAYSCALE)]:
      [None] when it returns None or raises. *)
  imdecode : string -> option image;
  (** The body of the professional branch: the Gabor enhancer and the
      conversions after it; any of them may raise. *)
  gabor : image -> res image;
  (** [enhance_fingerprint_basic] on an image: it catches its exceptions
      and returns None. *)
  enhance_fingerprint_basic : image -> option image;
  (** [apply_morphological_operations]: on an exception, the image itself. *)
  apply_morphological_operations : image -> image;
  (** [img.shape[:2]]: height and width. *)
  image_shape : image -> nat * nat;
  (** The bounding rectangle [(x, y, rw, rh)] of the largest contour of the
      thresholded image; [None] when there is no contour. *)
  largest_contour_rect : image -> res (option (Z * Z * Z * Z));
  (** [img[y0:y1, x0:x1]] for bounds inside the image. *)
  crop : image -> Z -> Z -> Z -> Z -> image;
  (** [get_sift().detectAndCompute(roi, None)]. *)
  sift : image -> res (option (list keypoint) * option ndarray);
}.

(** *** Decoding ([_decode_image_from_b64]) *)

(** [s.split(',', 1)[1]] when [s] holds a comma: what follows the first. *)
Fixpoint after_first_comma (s : string) : option string :=
  match s with
  | EmptyString => None
  | String c rest =>
      if Ascii.eqb c ","%char then Some rest else after_first_comma rest
  end.

(** [s.strip()]. *)
Fixpoint lstrip (s : string) : string :=
  match s with
  | EmptyString => EmptyString
  | String c rest => if is_space c then lstrip rest else s
  end.

Fixpoint rstrip (s : string) : string :=
  match s with
  | EmptyString => EmptyString
  | String c rest =>
      match rstrip rest with
      | EmptyString => if is_space c then EmptyString else String c EmptyString
      | kept => String c kept
      end
  end.

Definition strip (s : string) : string := rstrip (lstrip s).

(** [s.replace(c, '')] for a character [c]. *)
Fixpoint remove_char (c : ascii) (s : string) : string :=
  match s with
  | EmptyString => EmptyString
  | String d rest =>
      if Ascii.eqb d c then remove_char c rest
      else String d (remove_char c rest)
  end.

(** ['=' * n]. *)
Fixpoint pads (n : nat) : string :=
  match n with
  | O => EmptyString
  | S n' => String "="%char (pads n')
  end.

(** The string handed to [base64.b64decode]: the data-URI prefix is cut,
    blanks and line breaks are removed, and the padding is completed. *)
Definition clean_b64 (b64_string : string) : string :=
  let b64_string := default b64_string (after_first_comma b64_string) in
  let b64_string :=
    remove_char " "%char
      (remove_char (ascii_of_nat 13)
         (remove_char (ascii_of_nat 10) (strip b64_string))) in
  let padding := (4 - String.length b64_string mod 4)%nat in
  if (padding =? 4)%nat then b64_string
  else (b64_string ++ pads padding)%string.

(** *** The region of interest ([extract_fingerprint_roi]) *)

(** [s < x] for an int and a float: Python compares the exact values. *)
Definition int_lt_float (s : Z) (x : PyFloat.float) : bool :=
  match x with
  | S754_zero _ => s <? 0
  | S754_finite sign m e =>
      let v := if sign then Z.neg m else Z.pos m in
      match e with
      | Zneg p => s * 2 ^ Z.pos p <? v
      | _ => s <? v * 2 ^ e
      end
  | S754_infinity sign => negb sign
  | S754_nan => false
  end.

(** [int(0.08 * z)]. *)
Definition pad_of (z : Z) : res Z :=
  x ← PyFloat.of_int z; PyFloat.trunc (PyFloat.mul (PyFloat.literal 8 2) x).

(** A bound of a slice on an axis of [n] elements, as numpy reads it. *)
Definition slice_index (n i : Z) : Z :=
  if i <? 0 then Z.max 0 (i + n) else Z.min i n.

(** What the function returns: the image it was given, or the rows
    [y0..y1) and columns [x0..x1) of it. *)
Inductive region :=
  | Whole
  | Slice (y0 y1 x0 x1 : Z).

Definition roi_of_rect (h w x y rw rh : Z) : res region :=
  area ← PyFloat.of_int (w * h);
  if int_lt_float (rw * rh) (PyFloat.mul area (PyFloat.literal 2 2))
  then Ok Whole
  else
    pad_x ← pad_of rw;
    pad_y ← pad_of rh;
    let x0 := Z.max 0 (x - pad_x) in
    let y0 := Z.max 0 (y - pad_y) in
    let x1 := Z.min w (x + rw + pad_x) in
    let y1 := Z.min h (y + rh + pad_y) in
    let '(y0, y1) := (slice_index h y0, slice_index h y1) in
    let '(x0, x1) := (slice_index w x0, slice_index w x1) in
    let rows := Z.max 0 (y1 - y0) in
    let columns := Z.max 0 (x1 - x0) in
    if (rows * columns =? 0) || (rows <? 40) || (columns <? 40)
    then Ok Whole
    else Ok (Slice y0 y1 x0 x1).

(** The outcome of [/extract_template]. *)
Record extraction := {
  template_json : string;
  keypoints_count : Z;
  et_roi_shape : option (Z * Z);
}.

(** The outcome of [/test_template]. *)
Record template_test := {
  template_length : Z;
  starts_with_h4si : bool;
  is_precomputed_detected : bool;
  deserialization_success : bool;
  tt_keypoints_count : Z;
  tt_error : option string;
  tt_metadata : option metadata;
}.

Section Chain.
Context {cfg : Config} {libs : Libs} {vision : Vision}.

Definition _decode_image_from_b64 (b64_string : string) : option image :=
  img_bytes ← Base64.b64decode (clean_b64 b64_string);
  imdecode img_bytes.

(** [enhance_fingerprint_professional]: the global
    FINGERPRINT_ENHANCER_AVAILABLE goes in and comes out. *)
Definition enhance_fingerprint_professional (available : bool)
    (img : option image) : bool * option image :=
  match img with
  | None => (available, None)
  | Some img =>
      if available && negb FP_FORCE_BASIC then
        match gabor img with
        | Ok enhanced => (available, Some enhanced)
        | Raise _ => (false, enhance_fingerprint_basic img)
        end
      else (available, enhance_fingerprint_basic img)
  end.

Definition extract_fingerprint_roi (img : image) : region :=
  let '(h, w) := image_shape img in
  match
    rect ← largest_contour_rect img;
    match rect with
    | None => Ok Whole
    | Some (x, y, rw, rh) => roi_of_rect (Z.of_nat h) (Z.of_nat w) x y rw rh
    end
  with
  | Ok roi => roi
  | Raise _ => Whole
  end.

Definition roi_image (img : image) (roi : region) : image :=
  match roi with
  | Whole => img
  | Slice y0 y1 x0 x1 => crop img y0 y1 x0 x1
  end.

(** [roi.shape[:2]]. *)
Definition roi_shape (img : image) (roi : region) : Z * Z :=
  match roi with
  | Whole => let '(h, w) := image_shape img in (Z.of_nat h, Z.of_nat w)
  | Slice y0 y1 x0 x1 => (y1 - y0, x1 - x0)
  end.

(** [/extract_template]: HTTP 400 for an image that gives no template,
    HTTP 500 for a failure of the service. *)
Definition extract_template (mtime : Z) (image_b64 : string)
    (available : bool) : bool * res extraction :=
  match _decode_image_from_b64 image_b64 with
  | None => (available, Raise (HTTPException 400))
  | Some img =>
      let '(available, enhanced) :=
        enhance_fingerprint_professional available (Some img) in
      match enhanced with
      | None => (available, Raise (HTTPException 400))
      | Some enhanced =>
          let cleaned := apply_morphological_operations enhanced in
          let roi := extract_fingerprint_roi cleaned in
          let shape := roi_shape cleaned roi in
          (available,
           match sift (roi_image cleaned roi) with
           | Raise _ => Raise (HTTPException 500)
           | Ok (Some (kp :: kps), Some descriptors) =>
               let kp_count := Z.of_nat (length (kp :: kps)) in
               if kp_count <? 10 then Raise (HTTPException 400)
               else
                 match serialize_keypoints_descriptors mtime
                         (Some (kp :: kps)) (Some descriptors)
                         "professional" (Some shape) with
                 | None => Raise (HTTPException 500)
                 | Some encoded =>
                     Ok {| template_json := encoded;
                           keypoints_count := kp_count;
                           et_roi_shape := Some shape |}
                 end
           | Ok _ => Raise (HTTPException 400)
           end)
      end
  end.

(** [/test_template]. *)
Definition test_template (template_data : string) : template_test :=
  let detected := is_precomputed_template template_data in
  let template_features := load_precomputed_template template_data "test" in
  {| template_length := len template_data;
     starts_with_h4si := startswith "H4sI" template_data;
     is_precomputed_detected := detected;
     deserialization_success := detected && f_success template_features;
     tt_keypoints_count := if detected then f_keypoints template_features else 0;
     tt_error :=
       if detected then get_default (f_error template_features) None
       else Some "not_detected_as_precomputed";
     tt_metadata :=
       if detected
       then match f_metadata template_features with
            | Present md => Some md
            | Absent => None
            end
       else None |}.

End Chain.

(** ** A reference implementation of the library interface

    A lossless wire format for JSON values (a prefix code) and a container
    that only adds the gzip header: enough to run the codec and to show that
    [LibsLaws] can be met. *)

Module RefLibs.

Local Open Scope string_scope.
#[local] Arguments String.append !_ _ / : simpl nomatch.

Definition enc_bool (b : bool) : string := if b then "t" else "f".

Fixpoint enc_pos (p : positive) : string :=
  match p with
  | xH => "."
  | xO p' => String "0" (enc_pos p')
  | xI p' => String "1" (enc_pos p')
  end.

Definition enc_Z (z : Z) : string :=
  match z with
  | Z0 => "z"
  | Zpos p => String "+" (enc_pos p)
  | Zneg p => String "-" (enc_pos p)
  end.

Definition enc_str (s : string) : string :=
  enc_Z (Z.of_nat (String.length s)) ++ s.

Definition enc_float (x : PyFloat.float) : string :=
  match x with
  | S754_zero b => String "Z" (enc_bool b)
  | S754_infinity b => String "I" (enc_bool b)
  | S754_nan => "N"
  | S754_finite b m e => String "F" (enc_bool b ++ enc_pos m ++ enc_Z e)
  end.

Fixpoint enc (j : json) : string :=
  match j with
  | JNull => "n"
  | JBool b => String "b" (enc_bool b)
  | JInt z => String "i" (enc_Z z)
  | JFloat x => String "d" (enc_float x)
  | JStr s => String "s" (enc_str s)
  | JArr items =>
      String "[" (enc_Z (Z.of_nat (length items)) ++
                  foldr (fun x acc => enc x ++ acc) "" items)
  | JObj members =>
      String "{" (enc_Z (Z.of_nat (length members)) ++
                  foldr (fun kv acc => enc_str (fst kv) ++ enc (snd kv) ++ acc)
                        "" members)
  end.

Definition dec_bool (s : string) : option (bool * string) :=
  match s with
  | String "t" rest => Some (true, rest)
  | String "f" rest => Some (false, rest)
  | _ => None
  end.

Fixpoint dec_pos (s : string) : option (positive * string) :=
  match s with
  | String "." rest => Some (xH, rest)
  | String "0" rest => '(p, r) ← dec_pos rest; Some (xO p, r)
  | String "1" rest => '(p, r) ← dec_pos rest; Some (xI p, r)
  | _ => None
  end.

Definition dec_Z (s : string) : option (Z * string) :=
  match s with
  | String "z" rest => Some (Z0, rest)
  | String "+" rest => '(p, r) ← dec_pos rest; Some (Zpos p, r)
  | String "-" rest => '(p, r) ← dec_pos rest; Some (Zneg p, r)
  | _ => None
  end.

Fixpoint split_at (n : nat) (s : string) : option (string * string) :=
  match n with
  | O => Some ("", s)
  | S n' =>
      match s with
      | String c rest => '(a, b) ← split_at n' rest; Some (String c a, b)
      | EmptyString => None
      end
  end.

Definition dec_str (s : string) : option (string * string) :=
  '(n, r) ← dec_Z s; split_at (Z.to_nat n) r.

Definition dec_float (s : string) : option (PyFloat.float * string) :=
  match s with
  | String "Z" rest => '(b, r) ← dec_bool rest; Some (S754_zero b, r)
  | String "I" rest => '(b, r) ← dec_bool rest; Some (S754_infinity b, r)
  | String "N" rest => Some (S754_nan, rest)
  | String "F" rest =>
      '(b, r) ← dec_bool rest;
      '(m, r) ← dec_pos r;
      '(e, r) ← dec_Z r;
      Some (S754_finite b m e, r)
  | _ => None
  end.

Fixpoint dec_items {A} (d : string -> option (A * string)) (n : nat)
    (s : string) : option (list A * string) :=
  match n with
  | O => Some ([], s)
  | S n' =>
      '(x, r) ← d s;
      '(xs, r) ← dec_items d n' r;
      Some (x :: xs, r)
  end.

Fixpoint dec (fuel : nat) (s : string) : option (json * string) :=
  match fuel with
  | O => None
  | S fuel' =>
      match s with
      | String "n" rest => Some (JNull, rest)
      | String "b" rest => '(b, r) ← dec_bool rest; Some (JBool b, r)
      | String "i" rest => '(z, r) ← dec_Z rest; Some (JInt z, r)
      | String "d" rest => '(x, r) ← dec_float rest; Some (JFloat x, r)
      | String "s" rest => '(x, r) ← dec_str rest; Some (JStr x, r)
      | String "[" rest =>
          '(n, r) ← dec_Z rest;
          '(items, r) ← dec_items (dec fuel') (Z.to_nat n) r;
          Some (JArr items, r)
      | String "{" rest =>
          '(n, r) ← dec_Z rest;
          '(members, r) ←
            dec_items (fun s => '(k, r) ← dec_str s;
                                '(v, r) ← dec fuel' r;
                                Some ((k, v), r))
                      (Z.to_nat n) r;
          Some (JObj members, r)
      | _ => None
      end
  end.

Fixpoint depth (j : json) : nat :=
  match j with
  | JArr items => S (foldr (fun x acc => Nat.max (depth x) acc) 0%nat items)
  | JObj members =>
      S (foldr (fun kv acc => Nat.max (depth (snd kv)) acc) 0%nat members)
  | _ => 1%nat
  end.

Definition dumps (j : json) : string := enc j.

Definition loads (s : string) : option json :=
  match dec (S (String.length s)) s with
  | Some (j, EmptyString) => Some j
  | _ => None
  end.

Lemma app_assoc_s (a b c : string) : (a ++ b) ++ c = a ++ (b ++ c).
Proof. induction a as [|x a IH]; cbn; [reflexivity|]. rewrite IH. reflexivity. Qed.

Lemma dec_bool_enc (b : bool) (rest : string) :
  dec_bool (enc_bool b ++ rest) = Some (b, rest).
Proof. destruct b; reflexivity. Qed.

Lemma dec_pos_enc (p : positive) (rest : string) :
  dec_pos (enc_pos p ++ rest) = Some (p, rest).
Proof.
  induction p as [p IH|p IH|]; cbn; [rewrite IH..|]; reflexivity.
Qed.

Lemma dec_Z_enc (z : Z) (rest : string) :
  dec_Z (enc_Z z ++ rest) = Some (z, rest).
Proof. destruct z; cbn; rewrite ?dec_pos_enc; reflexivity. Qed.

Lemma split_at_app (s rest : string) :
  split_at (String.length s) (s ++ rest) = Some (s, rest).
Proof.
  induction s as [|c s IH]; cbn; [reflexivity|]. rewrite IH. reflexivity.
Qed.

Lemma dec_str_enc (s rest : string) :
  dec_str (enc_str s ++ rest) = Some (s, rest).
Proof.
  unfold dec_str, enc_str. rewrite app_assoc_s, dec_Z_enc. cbn.
  rewrite Nat2Z.id. apply split_at_app.
Qed.

Lemma dec_float_enc (x : PyFloat.float) (rest : string) :
  dec_float (enc_float x ++ rest) = Some (x, rest).
Proof.
  destruct x as [b|b| |b m e]; cbn; rewrite ?dec_bool_enc; try reflexivity.
  rewrite !app_assoc_s, dec_bool_enc. cbn.
  rewrite dec_pos_enc. cbn. rewrite dec_Z_enc. reflexivity.
Qed.

Lemma json_ind_nested (P : json -> Prop) :
  P JNull ->
  (forall b, P (JBool b)) ->
  (forall z, P (JInt z)) ->
  (forall x, P (JFloat x)) ->
  (forall s, P (JStr s)) ->
  (forall items, Forall P items -> P (JArr items)) ->
  (forall members, Forall (fun kv => P (snd kv)) members -> P (JObj members)) ->
  forall j, P j.
Proof.
  intros Hnull Hbool Hint Hfloat Hstr Harr Hobj.
  fix IH 1. intros [ |b|z|x|s|items|members].
  - exact Hnull.
  - apply Hbool.
  - apply Hint.
  - apply Hfloat.
  - apply Hstr.
  - apply Harr. induction items as [|x items IHitems]; constructor.
    + apply IH.
    + exact IHitems.
  - apply Hobj. induction members as [|[k v] members IHm]; constructor.
    + apply IH.
    + exact IHm.
Qed.

Lemma dec_enc (j : json) :
  forall fuel rest, (depth j <= fuel)%nat ->
    dec fuel (enc j ++ rest) = Some (j, rest).
Proof.
  induction j as [ |b|z|x|s|items IH|members IH] using json_ind_nested;
    intros [|fuel] rest Hfuel; cbn [depth] in Hfuel; try lia; cbn [enc dec].
  - reflexivity.
  - cbn. rewrite dec_bool_enc. reflexivity.
  - cbn. rewrite dec_Z_enc. reflexivity.
  - cbn. rewrite dec_float_enc. reflexivity.
  - cbn. rewrite dec_str_enc. reflexivity.
  - cbn. rewrite app_assoc_s, dec_Z_enc. cbn. rewrite Nat2Z.id.
    assert (Hitems :
      dec_items (dec fuel) (length items)
        (foldr (fun x acc => enc x ++ acc) "" items ++ rest)
      = Some (items, rest)).
    { apply le_S_n in Hfuel. revert Hfuel.
      induction IH as [|x items Hx _ IHitems]; intros Hfuel; cbn; [reflexivity|].
      cbn in Hfuel. rewrite app_assoc_s, Hx by lia. cbn.
      rewrite IHitems by lia. reflexivity. }
    rewrite Hitems. reflexivity.
  - cbn. rewrite app_assoc_s, dec_Z_enc. cbn. rewrite Nat2Z.id.
    assert (Hmembers :
      dec_items (fun s => '(k, r) ← dec_str s;
                          '(v, r) ← dec fuel r;
                          Some ((k, v), r))
        (length members)
        (foldr (fun kv acc => enc_str (fst kv) ++ enc (snd kv) ++ acc) "" members
         ++ rest)
      = Some (members, rest)).
    { apply le_S_n in Hfuel. revert Hfuel.
      induction IH as [|[k v] members Hv _ IHm]; intros Hfuel; cbn; [reflexivity|].
      cbn in Hfuel, Hv. rewrite !app_assoc_s, dec_str_enc. cbn.
      rewrite Hv by lia. cbn. rewrite IHm by lia. reflexivity. }
    rewrite Hmembers. reflexivity.
Qed.

Lemma length_app_s (a b : string) :
  String.length (a ++ b) = (String.length a + String.length b)%nat.
Proof. induction a as [|c a IH]; cbn; [reflexivity|]. rewrite IH. reflexivity. Qed.

Lemma depth_le_length (j : json) : (depth j <= String.length (enc j))%nat.
Proof.
  induction j as [ |b|z|x|s|items IH|members IH] using json_ind_nested;
    cbn [depth enc String.length]; try lia.
  - rewrite length_app_s.
    assert (Hitems :
      (foldr (fun x acc => Nat.max (depth x) acc) 0 items
       <= String.length (foldr (fun x acc => enc x ++ acc) "" items))%nat).
    { induction IH as [|x items Hx _ IHitems]; cbn; [lia|].
      rewrite length_app_s. lia. }
    lia.
  - rewrite length_app_s.
    assert (Hmembers :
      (foldr (fun kv acc => Nat.max (depth (snd kv)) acc) 0 members
       <= String.length
            (foldr (fun kv acc => enc_str (fst kv) ++ enc (snd kv) ++ acc)
                   "" members))%nat).
    { induction IH as [|[k v] members Hv _ IHm]; cbn; [lia|].
      cbn in Hv. rewrite !length_app_s. lia. }
    lia.
Qed.

Lemma app_empty_r (s : string) : s ++ "" = s.
Proof. induction s as [|c s IH]; cbn; [reflexivity|]. rewrite IH. reflexivity. Qed.

Theorem loads_dumps (j : json) : loads (dumps j) = Some j.
Proof.
  unfold loads, dumps.
  pose proof (dec_enc j (S (String.length (enc j))) "") as H.
  rewrite app_empty_r in H. rewrite H; [reflexivity|].
  pose proof (depth_le_length j). lia.
Qed.

Definition compress (mtime : Z) (s : string) : string :=
  String gzip_id1 (String gzip_id2 (String gzip_deflate s)).

Definition decompress (b : string) : option string :=
  match b with
  | EmptyString => Some EmptyString
  | String a (String b (String c rest)) =>
      if Ascii.eqb a gzip_id1 && Ascii.eqb b gzip_id2 && Ascii.eqb c gzip_deflate
      then Some rest else None
  | _ => None
  end.

(** This implementation reads no number out of a string. *)
Definition libs : Libs :=
  {| json_dumps := dumps; json_loads := loads;
     gzip_compress := compress; gzip_decompress := decompress;
     float_of_str s := None; int_of_str s := None; np_maxdims := 64 |}.

Lemma libs_laws : @LibsLaws libs.
Proof.
  split.
  - intros v _. apply loads_dumps.
  - intros mtime s. reflexivity.
  - intros mtime s. exists s. reflexivity.
  - intros b s Hb. destruct b as [|a [|b [|c rest]]]; cbn in Hb;
      try discriminate Hb; [left; reflexivity|].
    right.
    destruct (Ascii.eqb_spec a gzip_id1) as [->|]; [|discriminate Hb].
    destruct (Ascii.eqb_spec b gzip_id2) as [->|]; [|discriminate Hb].
    eexists. reflexivity.
  - cbn. lia.
Qed.

End RefLibs.

(** ** Sample data

    Stand-ins for OpenCV, the nearest-neighbour search and the store, used
    to run the model on concrete inputs.  The sample matcher reads the
    number [g] of good matches off the first component of the template's
    first descriptor: the first [g] probe descriptors get neighbours at
    distances 1 and 10, the others at distances 10 and 10.  The sample
    detector finds 200 keypoints in every image and writes the length of the
    image string into that component, so that a stored PNG of [g]
    characters scores [g] against any probe. *)

Module Sample.

Definition descriptors_of (n c : nat) (g : Z) : ndarray :=
  {| shape := [n; c];
     flat := F32.of_Z g :: repeat (S754_zero false) (n * c - 1) |}.

Definition descriptors (n : nat) (g : Z) : ndarray := descriptors_of n 128 g.

Definition cv : OpenCV :=
  {| knnMatch probe template :=
       n ← ndarray_len probe;
       g ← match flat template with
           | x :: _ => PyFloat.trunc x
           | [] => Ok 0
           end;
       Ok (repeat [PyFloat.of_Z 1; PyFloat.of_Z 10] (Z.to_nat g) ++
           repeat [PyFloat.of_Z 10; PyFloat.of_Z 10] (Z.to_nat (n - g))) |}.

Definition extracted (n : nat) (g : Z) (lbl : string) (precomputed : entry bool) : features :=
  {| f_label := Present lbl; f_success := true;
     f_keypoints := Z.of_nat n; f_descriptors := Some (descriptors n g);
     f_quality_flag := 200 <=? Z.of_nat n;
     f_quality_warn := 160 <=? Z.of_nat n;
     f_error := Present None; f_is_precomputed := precomputed;
     f_metadata := Absent |}.

Definition probe : features := extracted 300 0 "probe" Absent.
Definition template : features := extracted 400 300 "template" (Present true).

Definition corner : keypoint :=
  {| kp_x := F32.of_Z 12; kp_y := F32.of_Z 34;
     kp_size := F32.of_Z 2; kp_angle := F32.of_Z 90;
     kp_response := F32.of_f64 (PyFloat.literal 5 1); kp_octave := 255;
     kp_class_id := -1 |}.

Definition img : Imaging :=
  {| detectAndCompute _ image :=
       match image with
       | EmptyString => DecodeFailed
       | _ => Detected (Some (repeat corner 200))
                       (Some (descriptors_of 200 2 (len image)))
       end |}.

Definition platform : Platform :=
  {| PSYCOPG2_AVAILABLE := true; FAISS_AVAILABLE := false;
     FINGERPRINT_ENHANCER_AVAILABLE := true |}.

(** Both searches return the first positions. *)
Definition search : Search :=
  {| faiss_search index probe k := map Z.of_nat (seq 0 k);
     numpy_argsort_distances vectors probe :=
       match shape vectors with
       | n :: _ => seq 0 n
       | [] => []
       end |}.

(** A stored PNG of [g] characters. *)
Definition png (g : nat) : string :=
  "iVBOR" +:+ string_of_list_ascii (repeat "A"%char (g - 5)).

Definition row (id : Z) (pngs : list nat) : employee_row :=
  {| id_empleado := id; num_templates := Some (Z.of_nat (length pngs));
     huella_gzip_1 := None; huella_gzip_2 := None;
     huella_gzip_3 := None; huella_gzip_4 := None;
     huella_1 := png <$> pngs !! 0%nat; huella_2 := png <$> pngs !! 1%nat;
     huella_3 := png <$> pngs !! 2%nat; huella_4 := png <$> pngs !! 3%nat |}.

(** Three employees with one capture each, and a fourth one that only the
    single-employee query returns. *)
Definition db : database :=
  {| active_employees := Ok [row 1 [50%nat]; row 2 [52%nat]; row 3 [54%nat]];
     active_employee id :=
       if id =? 4
       then Ok (Some {| sync_id_empleado := 4; huella_gzip := None;
                        huella := Some (png 90) |})
       else Ok None |}.

Definition unreachable_db : database :=
  {| active_employees := Raise DatabaseError;
     active_employee _ := Raise DatabaseError |}.

End Sample.

(** ** Checking a property on a range by evaluation *)

Fixpoint all_from (f : Z -> bool) (k : Z) (n : nat) : bool :=
  match n with
  | O => true
  | S n' => f k && all_from f (k + 1) n'
  end.

Lemma all_from_spec (f : Z -> bool) (n : nat) :
  forall k, all_from f k n = true ->
  forall j, k <= j < k + Z.of_nat n -> f j = true.
Proof.
  induction n as [|n IH]; intros k H j Hj; [lia|].
  cbn [all_from] in H. apply andb_true_iff in H as [H0 H1].
  destruct (Z.eq_dec j k) as [->|Hne]; [exact H0|].
  apply (IH (k + 1)); [exact H1|lia].
Qed.

Definition res_Z_eqb (a b : res Z) : bool :=
  match a, b with
  | Ok x, Ok y => x =? y
  | _, _ => false
  end.

Lemma res_Z_eqb_eq (a b : res Z) : res_Z_eqb a b = true -> a = b.
Proof.
  destruct a, b; cbn; try discriminate.
  intros H. apply Z.eqb_eq in H. congruence.
Qed.

(** * Properties of the float model *)

Lemma digits2_pos_size (p : positive) : digits2_pos p = Pos.size p.
Proof. induction p as [p IH|p IH|]; cbn; rewrite ?IH; reflexivity. Qed.

Lemma Zdigits2_nonneg (m : Z) : 0 <= Zdigits2 m.
Proof. destruct m; cbn; lia. Qed.

(** A nonnegative number is below two to the number of its digits. *)
Lemma Zdigits2_upper (m : Z) : 0 <= m -> m < 2 ^ Zdigits2 m.
Proof.
  intros Hm. destruct m as [|p|p]; [cbn; lia| |lia].
  cbn [Zdigits2]. rewrite digits2_pos_size.
  pose proof (Pos.size_gt p) as H.
  apply Pos2Z.pos_lt_pos in H. rewrite Pos2Z.inj_pow in H. exact H.
Qed.

(** A nonnegative number below [2 ^ k] has at most [k] digits. *)
Lemma Zdigits2_le (m k : Z) : 0 <= m < 2 ^ k -> 0 <= k -> Zdigits2 m <= k.
Proof.
  intros [Hm Hlt] Hk. destruct m as [|p|p]; [cbn; lia| |lia].
  cbn [Zdigits2]. rewrite digits2_pos_size.
  pose proof (Pos.size_le p) as H.
  apply Pos2Z.pos_le_pos in H. rewrite Pos2Z.inj_pow in H.
  change (Z.pos p~0) with (2 * Z.pos p) in H.
  destruct (Z.le_gt_cases (Z.pos (Pos.size p)) k) as [Hle|Hgt]; [exact Hle|].
  exfalso.
  assert (2 ^ (k + 1) <= 2 ^ Z.pos (Pos.size p)) by (apply Z.pow_le_mono_r; lia).
  rewrite Z.pow_add_r in * by lia. lia.
Qed.

Lemma shr_1_m (mrs : shr_record) :
  0 <= shr_m mrs -> shr_m (shr_1 mrs) = shr_m mrs / 2.
Proof.
  destruct mrs as [m r s]. cbn [shr_m]. intros Hm.
  rewrite <- Z.div2_div.
  destruct m as [|[p|p|]|p]; try reflexivity; lia.
Qed.

Lemma iter_pos_shr_1_m (p : positive) :
  forall mrs, 0 <= shr_m mrs ->
    shr_m (@SpecFloat.iter_pos shr_record shr_1 p mrs) = shr_m mrs / 2 ^ Z.pos p.
Proof.
  induction p as [p IH|p IH|]; intros mrs Hm; cbn [SpecFloat.iter_pos].
  - assert (H1 : 0 <= shr_m (shr_1 mrs)).
    { rewrite shr_1_m by exact Hm. apply Z.div_pos; lia. }
    assert (H2 : 0 <= shr_m (@SpecFloat.iter_pos shr_record shr_1 p (shr_1 mrs))).
    { rewrite IH by exact H1. apply Z.div_pos; [exact H1|]. apply Z.pow_pos_nonneg; lia. }
    rewrite IH by exact H2. rewrite IH by exact H1. rewrite shr_1_m by exact Hm.
    change (Z.pos p~1) with (2 * Z.pos p + 1).
    replace (2 * Z.pos p + 1) with (1 + Z.pos p + Z.pos p) by lia.
    rewrite !Z.pow_add_r by lia. rewrite Z.pow_1_r.
    rewrite !Z.div_div; try lia; try (apply Z.pow_pos_nonneg; lia);
      try (apply Z.mul_pos_pos; try lia; apply Z.pow_pos_nonneg; lia).
    f_equal. lia.
  - assert (H2 : 0 <= shr_m (@SpecFloat.iter_pos shr_record shr_1 p mrs)).
    { rewrite IH by exact Hm. apply Z.div_pos; [exact Hm|]. apply Z.pow_pos_nonneg; lia. }
    rewrite IH by exact H2. rewrite IH by exact Hm.
    change (Z.pos p~0) with (2 * Z.pos p).
    replace (2 * Z.pos p) with (Z.pos p + Z.pos p) by lia.
    rewrite !Z.pow_add_r by lia.
    rewrite !Z.div_div; try lia; apply Z.pow_pos_nonneg; lia.
  - rewrite shr_1_m by exact Hm. rewrite Z.pow_1_r. reflexivity.
Qed.

Lemma shr_record_of_loc_m (m : Z) (l : location) : shr_m (shr_record_of_loc m l) = m.
Proof. destruct l as [|[]]; reflexivity. Qed.

(** The exponent and the mantissa after [shr_fexp]. *)
Lemma shr_fexp_spec (prec emax m e : Z) (l : location) (K : Z) :
  0 <= m -> m < 2 ^ (K - e) -> e <= K ->
  let '(mrs, e') := shr_fexp prec emax m e l in
  e' = Z.max e (fexp prec emax (Zdigits2 m + e)) /\
  0 <= shr_m mrs /\ (e' <= K -> shr_m mrs < 2 ^ (K - e')) /\
  (K < e' -> shr_m mrs = 0).
Proof.
  intros Hm Hlt HeK. unfold shr_fexp, shr.
  set (n := fexp prec emax (Zdigits2 m + e) - e).
  destruct n as [|p|p] eqn:Hn.
  - rewrite shr_record_of_loc_m. split; [lia|]. split; [exact Hm|].
    split; [intros _; exact Hlt|lia].
  - rewrite iter_pos_shr_1_m by (rewrite shr_record_of_loc_m; exact Hm).
    rewrite shr_record_of_loc_m.
    assert (Hp : 0 < 2 ^ Z.pos p) by (apply Z.pow_pos_nonneg; lia).
    split; [lia|]. split; [apply Z.div_pos; lia|]. split.
    + intros He'. apply Z.div_lt_upper_bound; [exact Hp|].
      rewrite <- Z.pow_add_r by lia.
      replace (Z.pos p + (K - (e + Z.pos p))) with (K - e) by lia. exact Hlt.
    + intros He'. apply Z.div_small. split; [exact Hm|].
      apply Z.lt_le_trans with (2 ^ (K - e)); [exact Hlt|].
      apply Z.pow_le_mono_r; lia.
  - rewrite shr_record_of_loc_m. split; [lia|]. split; [exact Hm|].
    split; [intros _; exact Hlt|lia].
Qed.

Lemma round_nearest_even_bounds (m : Z) (l : location) :
  0 <= m -> m <= round_nearest_even m l <= m + 1.
Proof.
  intros Hm. destruct l as [|[]]; cbn; try lia.
  destruct (Z.even m); lia.
Qed.

(** Rounding a number of magnitude below [2 ^ 1023] does not overflow. *)
Lemma binary_round_aux_finite (sx : bool) (mx ex : Z) (lx : location) :
  0 <= mx -> ex <= 970 -> mx < 2 ^ (1023 - ex) ->
  PyFloat.is_finite (binary_round_aux 53 1024 sx mx ex lx) = true.
Proof.
  intros Hm Hex Hlt. unfold binary_round_aux.
  pose proof (shr_fexp_spec 53 1024 mx ex lx 1023 Hm Hlt ltac:(lia)) as H1.
  destruct (shr_fexp 53 1024 mx ex lx) as [mrs' e'].
  destruct H1 as (He' & Hm' & Hlt' & Hzero').
  assert (Hd : Zdigits2 mx + ex <= 1023).
  { destruct (Z.eq_dec mx 0) as [->|Hne]; [cbn; lia|].
    assert (Zdigits2 mx <= 1023 - ex); [|lia].
    apply Zdigits2_le; lia. }
  assert (He'le : e' <= 970).
  { rewrite He'. unfold fexp, emin. lia. }
  pose proof (round_nearest_even_bounds (shr_m mrs') (loc_of_shr_record mrs') Hm')
    as Hr.
  set (mr := round_nearest_even (shr_m mrs') (loc_of_shr_record mrs')) in *.
  specialize (Hlt' ltac:(lia)).
  assert (Hmr : mr < 2 ^ (1024 - e')).
  { replace (1024 - e') with (1 + (1023 - e')) by lia.
    rewrite Z.pow_add_r by lia. lia. }
  pose proof (shr_fexp_spec 53 1024 mr e' loc_Exact 1024 ltac:(lia) Hmr ltac:(lia))
    as H2.
  destruct (shr_fexp 53 1024 mr e' loc_Exact) as [mrs'' e''].
  destruct H2 as (He'' & Hm'' & _ & _).
  assert (Hdr : Zdigits2 mr + e' <= 1024).
  { assert (Zdigits2 mr <= 1024 - e'); [|lia]. apply Zdigits2_le; lia. }
  assert (He''le : e'' <= 971).
  { rewrite He''. unfold fexp, emin. lia. }
  destruct (shr_m mrs'') as [|p|p]; [reflexivity| |lia].
  destruct (Z.leb_spec e'' (1024 - 53)); [reflexivity|lia].
Qed.




Lemma SFdiv_ints_finite (sa sb : bool) (ma mb : positive) :
  Z.pos ma < 2 ^ 1023 ->
  PyFloat.is_finite
    (SFdiv PyFloat.prec PyFloat.emax (S754_finite sa ma 0) (S754_finite sb mb 0))
  = true.
Proof.
  intros Ha. unfold SFdiv, SFdiv_core_binary.
  set (e' := Z.min _ (0 - 0)).
  assert (He' : e' <= 0) by (subst e'; lia).
  assert (Hbound : forall m q r,
            0 <= m -> m < 2 ^ (1023 - e') ->
            m = Z.pos mb * q + r -> 0 <= r < Z.pos mb ->
            0 <= q /\ q < 2 ^ (1023 - e')).
  { intros m q r Hm Hlt Hq Hr. split; nia. }
  destruct (0 - 0 - e') as [|s|s] eqn:Hs; [| |lia].
  - pose proof (Z_div_mod (Z.pos ma) (Z.pos mb) ltac:(lia)) as Hdiv.
    destruct (Z.div_eucl (Z.pos ma) (Z.pos mb)) as [q r].
    destruct Hdiv as [Hq Hr].
    assert (He0 : e' = 0) by lia.
    destruct (Hbound (Z.pos ma) q r) as [Hq0 Hqlt]; try lia.
    { rewrite He0. exact Ha. }
    apply binary_round_aux_finite; lia.
  - pose proof (Z_div_mod (Z.shiftl (Z.pos ma) (Z.pos s)) (Z.pos mb) ltac:(lia))
      as Hdiv.
    destruct (Z.div_eucl (Z.shiftl (Z.pos ma) (Z.pos s)) (Z.pos mb)) as [q r].
    destruct Hdiv as [Hq Hr].
    assert (Hpow : 0 < 2 ^ Z.pos s) by (apply Z.pow_pos_nonneg; lia).
    destruct (Hbound (Z.shiftl (Z.pos ma) (Z.pos s)) q r) as [Hq0 Hqlt];
      try assumption.
    { rewrite Z.shiftl_mul_pow2 by lia. lia. }
    { rewrite Z.shiftl_mul_pow2 by lia.
      replace (1023 - e') with (1023 + Z.pos s) by lia.
      rewrite Z.pow_add_r by lia.
      apply Z.mul_lt_mono_pos_r; assumption. }
    apply binary_round_aux_finite; lia.
Qed.

(** [a / b] on ints returns for every numerator below [2 ^ 1023]. *)
Lemma int_truediv_ok (a b : Z) :
  b <> 0 -> Z.abs a < 2 ^ 1023 -> exists q, PyFloat.int_truediv a b = Ok q.
Proof.
  intros Hb Ha. unfold PyFloat.int_truediv.
  destruct b as [|pb|pb]; [congruence| |];
    (destruct a as [|pa|pa]; [eexists; reflexivity| |]);
    cbn [Z.abs Z.to_pos] in *;
    rewrite SFdiv_ints_finite by exact Ha; eexists; reflexivity.
Qed.

(** ** Conversions between binary32 and binary64 *)

Lemma digits2_pos_iter_xO (m d : positive) :
  digits2_pos (Pos.iter xO m d) = (digits2_pos m + d)%positive.
Proof.
  induction d as [|d IH] using Pos.peano_ind.
  - cbn. lia.
  - rewrite Pos.iter_succ. cbn [digits2_pos]. rewrite IH. lia.
Qed.

Lemma iter_pos_nat {A} (f : A -> A) (p : positive) (x : A) :
  SpecFloat.iter_pos f p x = Nat.iter (Pos.to_nat p) f x.
Proof.
  revert x. induction p as [p IH|p IH|]; intros x; cbn [SpecFloat.iter_pos].
  - rewrite !IH. rewrite Pos2Nat.inj_xI.
    replace (S (2 * Pos.to_nat p)) with (Pos.to_nat p + (Pos.to_nat p + 1))%nat by lia.
    rewrite !Nat.iter_add. reflexivity.
  - rewrite !IH. rewrite Pos2Nat.inj_xO.
    replace (2 * Pos.to_nat p)%nat with (Pos.to_nat p + Pos.to_nat p)%nat by lia.
    rewrite Nat.iter_add. reflexivity.
  - reflexivity.
Qed.

(** Shifting out the zeros that were shifted in is exact. *)
Lemma shr_shifted (m : positive) (n : nat) :
  Nat.iter n shr_1
    {| shr_m := Z.pos (Nat.iter n xO m); shr_r := false; shr_s := false |}
  = {| shr_m := Z.pos m; shr_r := false; shr_s := false |}.
Proof.
  induction n as [|n IH]; [reflexivity|].
  rewrite Nat.iter_succ_r. cbn [Nat.iter shr_1 orb]. exact IH.
Qed.

Lemma shr_fexp_exact (prec emax m e : Z) (l : location) :
  fexp prec emax (Zdigits2 m + e) - e <= 0 ->
  shr_fexp prec emax m e l = (shr_record_of_loc m l, e).
Proof.
  intros H. unfold shr_fexp, shr.
  destruct (fexp prec emax (Zdigits2 m + e) - e); try reflexivity; lia.
Qed.

Lemma shr_fexp_shifted (prec emax : Z) (m p : positive) (e : Z) :
  fexp prec emax (Z.pos (digits2_pos m) + Z.pos p + e) - e = Z.pos p ->
  shr_fexp prec emax (Z.pos (Pos.iter xO m p)) e loc_Exact
  = ({| shr_m := Z.pos m; shr_r := false; shr_s := false |}, e + Z.pos p).
Proof.
  intros H. unfold shr_fexp, shr. cbn [Zdigits2].
  rewrite digits2_pos_iter_xO, Pos2Z.inj_add, H.
  cbn [shr_record_of_loc]. rewrite iter_pos_nat, Pos2Nat.inj_iter.
  f_equal. apply shr_shifted.
Qed.

(** A number that is normalised already rounds to itself. *)
Lemma binary_round_aux_exact (prec emax : Z) (s : bool) (m : positive) (e : Z) :
  bounded prec emax m e = true ->
  binary_round_aux prec emax s (Z.pos m) e loc_Exact = S754_finite s m e.
Proof.
  unfold bounded, canonical_mantissa. intros H.
  apply andb_true_iff in H as [Hc He]. apply Z.eqb_eq in Hc.
  unfold binary_round_aux.
  rewrite shr_fexp_exact by (cbn [Zdigits2]; lia).
  cbn [shr_record_of_loc shr_m loc_of_shr_record round_nearest_even].
  rewrite shr_fexp_exact by (cbn [Zdigits2]; lia).
  cbn [shr_record_of_loc shr_m]. rewrite He. reflexivity.
Qed.

(** The binary64 form of a binary32 number: the mantissa is padded to 53
    bits. *)
Lemma to_f64_finite (s : bool) (m : positive) (e : Z) :
  bounded F32.prec F32.emax m e = true ->
  exists p,
    Z.pos p = 53 - Z.pos (digits2_pos m) /\
    F32.to_f64 (S754_finite s m e)
    = S754_finite s (Pos.iter xO m p) (e - Z.pos p) /\
    bounded PyFloat.prec PyFloat.emax (Pos.iter xO m p) (e - Z.pos p) = true.
Proof.
  unfold bounded, canonical_mantissa, fexp, emin, F32.prec, F32.emax,
    PyFloat.prec, PyFloat.emax.
  intros H. apply andb_true_iff in H as [Hc He].
  apply Z.eqb_eq in Hc. apply Z.leb_le in He.
  set (d := Z.pos (digits2_pos m)) in *.
  destruct (53 - d) as [|p|p] eqn:Hp; try lia.
  exists p. split; [reflexivity|].
  assert (Hb : (Z.max (Z.pos (digits2_pos (Pos.iter xO m p)) + (e - Z.pos p) - 53)
                      (3 - 1024 - 53) =? e - Z.pos p) &&
               (e - Z.pos p <=? 1024 - 53) = true).
  { rewrite digits2_pos_iter_xO, Pos2Z.inj_add. fold d.
    apply andb_true_iff. split; [apply Z.eqb_eq|apply Z.leb_le]; lia. }
  split; [|exact Hb].
  unfold F32.to_f64, binary_round, shl_align, fexp, emin, PyFloat.prec, PyFloat.emax.
  fold d.
  replace (Z.max (d + e - 53) (3 - 1024 - 53) - e) with (Z.neg p) by lia.
  replace (Z.max (d + e - 53) (3 - 1024 - 53)) with (e - Z.pos p) by lia.
  apply binary_round_aux_exact. exact Hb.
Qed.

(** binary32 -> binary64 -> binary32 is the identity. *)
Lemma of_f64_to_f64 (x : PyFloat.float) :
  F32.is_f32 x = true -> F32.of_f64 (F32.to_f64 x) = x.
Proof.
  destruct x as [s|s| |s m e]; try reflexivity.
  unfold F32.is_f32. cbn [valid_binary]. intros Hx.
  destruct (to_f64_finite s m e Hx) as (p & Hp & -> & _).
  unfold bounded, canonical_mantissa, fexp, emin, F32.prec, F32.emax in Hx.
  apply andb_true_iff in Hx as [Hc He].
  apply Z.eqb_eq in Hc. apply Z.leb_le in He.
  unfold F32.of_f64, binary_round, shl_align, fexp, emin, F32.prec, F32.emax.
  rewrite digits2_pos_iter_xO, Pos2Z.inj_add.
  set (d := Z.pos (digits2_pos m)) in *.
  replace (Z.max (d + Z.pos p + (e - Z.pos p) - 24) (3 - 128 - 24) - (e - Z.pos p))
    with (Z.pos p) by lia.
  unfold binary_round_aux.
  rewrite shr_fexp_shifted
    by (unfold fexp, emin; fold d; lia).
  cbn [shr_m loc_of_shr_record round_nearest_even].
  replace (e - Z.pos p + Z.pos p) with e by lia.
  rewrite shr_fexp_exact
    by (cbn [Zdigits2]; unfold fexp, emin; fold d; lia).
  cbn [shr_record_of_loc shr_m].
  destruct (Z.leb_spec e (128 - 24)); [reflexivity|lia].
Qed.

(** The binary64 form of a binary32 number is a binary64 number. *)
Lemma to_f64_valid (x : PyFloat.float) :
  F32.is_f32 x = true ->
  valid_binary PyFloat.prec PyFloat.emax (F32.to_f64 x) = true.
Proof.
  destruct x as [s|s| |s m e]; try reflexivity.
  unfold F32.is_f32. cbn [valid_binary]. intros Hx.
  destruct (to_f64_finite s m e Hx) as (p & Hp & -> & Hb). exact Hb.
Qed.

(** * Properties of the Matcher *)

(** Case analysis on a run of the Matcher that is known to return:
    the scrutinee at the head of the run is split, and the branches that
    raise are closed. *)
Ltac step_run H :=
  match type of H with
  | (if ?c then _ else _) = _ => destruct c eqn:?
  | match ?c with _ => _ end = _ => destruct c eqn:?
  | (mbind _ ?c) = _ => destruct c eqn:?; cbn [mbind res_bind rbind] in H |- *
  | Raise _ = Ok _ => discriminate H
  end.

Section MatcherFacts.
Context {cv : OpenCV}.
Local Existing Instance default_config.

Lemma precomputed_floor_default :
  int_times FP_ABS_MIN_SCORE (PyFloat.literal 85 2) = Ok 38.
Proof. vm_compute. reflexivity. Qed.



(** *** Threshold and required score in exact arithmetic *)


Definition claimed_margin (threshold : Z) : Z :=
  Z.max FP_MARGIN_BASE (PyFloat.half_even threshold 10).



(** The float products agree with exact arithmetic on every count that a
    capture can produce; the range is checked by evaluation. *)
Definition range_bound : Z := 4000.

Lemma checked_on_range (f : Z -> bool) :
  all_from f 0 (Z.to_nat (range_bound + 1)) = true ->
  forall k, 0 <= k <= range_bound -> f k = true.
Proof.
  intros H k Hk. apply (all_from_spec f _ 0 H).
  rewrite Z2Nat.id; unfold range_bound in *; lia.
Qed.

Lemma int_times_min_percent (k : Z) :
  0 <= k <= range_bound ->
  int_times k FP_MIN_PERCENT = Ok (55 * k / 1000).
Proof.
  intros Hk. apply res_Z_eqb_eq.
  revert k Hk.
  apply (checked_on_range
           (fun k => res_Z_eqb (int_times k FP_MIN_PERCENT) (Ok (55 * k / 1000)))).
  vm_compute. reflexivity.
Qed.

Lemma round_times_margin_percent (t : Z) :
  0 <= t <= range_bound ->
  round_times t FP_MARGIN_PERCENT = Ok (PyFloat.half_even t 10).
Proof.
  intros Ht. apply res_Z_eqb_eq.
  revert t Ht.
  apply (checked_on_range
           (fun t => res_Z_eqb (round_times t FP_MARGIN_PERCENT)
                       (Ok (PyFloat.half_even t 10)))).
  vm_compute. reflexivity.
Qed.

Lemma compute_threshold_exact (k : Z) (override : option Z) :
  0 <= k <= range_bound ->
  compute_threshold k override =
  Ok (match override with
      | Some o => Z.max 1 o
      | None => Z.max FP_MIN_BASE (55 * k / 1000)
      end).
Proof.
  intros Hk. unfold compute_threshold. destruct override as [o|]; [reflexivity|].
  rewrite (int_times_min_percent k Hk). cbn [mbind res_bind rbind].
  f_equal. change FP_MIN_BASE with 45. lia.
Qed.

Lemma compute_margin_exact (t : Z) :
  0 <= t <= range_bound ->
  compute_margin t = Ok (claimed_margin t).
Proof.
  intros Ht. unfold compute_margin.
  rewrite (round_times_margin_percent t Ht). reflexivity.
Qed.


End MatcherFacts.




(** * Properties of multi-template verification *)

Section GatherFacts.
Context {cfg : Config}.

(** What the loop stores for a finished future. *)
Definition stored (probe_kp : Z) (idx : nat) (o : outcome) : payload :=
  match o with
  | Returned result => result
  | Crashed message =>
      placeholder_payload probe_kp ("future_error: " +:+ message) idx
  end.

(** The early-exit flag and the set of cancelled futures change only at a
    finished result that is accepted with confidence at least
    FP_CONF_HIGH + 15, and only when three or more templates are evaluated. *)
Lemma gather_exit_cause (probe_kp : Z) (total : nat) (cancellable : nat -> bool)
    (completed : list (nat * outcome)) :
  forall st,
    let st' := gather probe_kp total cancellable completed st in
    (high_confidence_match_found st' = high_confidence_match_found st /\
     cancelled_futures st' = cancelled_futures st) \/
    ((3 <= total)%nat /\
     exists idx result,
       (idx, Returned result) ∈ completed /\
       is_high_confidence result = true).
Proof.
  induction completed as [|[idx o] rest IH]; intros st; cbn [gather].
  - left. split; reflexivity.
  - destruct o as [result|message].
    + destruct (is_high_confidence result) eqn:Hhigh; cbn [andb].
      * destruct (Nat.leb_spec 3 total) as [Hge|Hlt].
        -- right. split; [exact Hge|].
           exists idx, result. split; [apply list_elem_of_here|exact Hhigh].
        -- destruct (IH {| template_results_dict :=
                             <[idx:=result]> (template_results_dict st);
                           pending_futures := pending_futures st ∖ {[idx]};
                           high_confidence_match_found :=
                             high_confidence_match_found st;
                           cancelled_futures := cancelled_futures st |})
             as [Hsame|(Hge & i & r & Hin & Hr)].
           ++ left. exact Hsame.
           ++ lia.
      * destruct (IH {| template_results_dict :=
                          <[idx:=result]> (template_results_dict st);
                        pending_futures := pending_futures st ∖ {[idx]};
                        high_confidence_match_found :=
                          high_confidence_match_found st;
                        cancelled_futures := cancelled_futures st |})
          as [Hsame|(Hge & i & r & Hin & Hr)].
        -- left. exact Hsame.
        -- right. split; [exact Hge|]. exists i, r.
           split; [apply list_elem_of_further; exact Hin|exact Hr].
    + destruct (IH {| template_results_dict :=
                        <[idx:=placeholder_payload probe_kp
                                 ("future_error: " +:+ message) idx]>
                          (template_results_dict st);
                      pending_futures := pending_futures st ∖ {[idx]};
                      high_confidence_match_found :=
                        high_confidence_match_found st;
                      cancelled_futures := cancelled_futures st |})
        as [Hsame|(Hge & i & r & Hin & Hr)].
      * left. exact Hsame.
      * right. split; [exact Hge|]. exists i, r.
        split; [apply list_elem_of_further; exact Hin|exact Hr].
Qed.

(** With fewer than three templates the loop never leaves early: every
    finished future is stored. *)
Lemma gather_small_stores (probe_kp : Z) (total : nat) (cancellable : nat -> bool)
    (completed : list (nat * outcome)) :
  (total < 3)%nat ->
  forall st,
    template_results_dict (gather probe_kp total cancellable completed st) =
    foldl (fun dict io => <[io.1 := stored probe_kp io.1 io.2]> dict)
          (template_results_dict st) completed.
Proof.
  intros Hlt. induction completed as [|[idx o] rest IH]; intros st;
    cbn [gather foldl]; [reflexivity|].
  destruct o as [result|message]; cbn [stored fst snd].
  - destruct (Nat.leb_spec 3 total) as [Hge|_]; [lia|].
    rewrite andb_false_r. rewrite IH. reflexivity.
  - rewrite IH. reflexivity.
Qed.

Lemma foldl_store_lookup (probe_kp : Z) (completed : list (nat * outcome)) :
  forall (dict : gmap nat payload) idx o,
    NoDup completed.*1 ->
    (idx, o) ∈ completed ->
    foldl (fun dict io => <[io.1 := stored probe_kp io.1 io.2]> dict)
          dict completed !! idx = Some (stored probe_kp idx o).
Proof.
  induction completed as [|[i o'] rest IH]; intros dict idx o Hnd Hin.
  - apply elem_of_nil in Hin. destruct Hin.
  - cbn [fmap list_fmap fst] in Hnd. apply NoDup_cons in Hnd as [Hfresh Hnd].
    apply elem_of_cons in Hin as [Heq|Hin]; cbn [foldl fst snd].
    + injection Heq as -> ->.
      assert (Hkeep : forall (l : list (nat * outcome)) (d : gmap nat payload) v,
                 i ∉ l.*1 -> d !! i = Some v ->
                 foldl (fun dict io => <[io.1 := stored probe_kp io.1 io.2]> dict)
                       d l !! i = Some v).
      { clear. induction l as [|[j oj] l IHl]; intros d v Hni Hd; [exact Hd|].
        cbn [foldl fst snd]. cbn [fmap list_fmap fst] in Hni.
        apply not_elem_of_cons in Hni as [Hne Hni].
        apply IHl; [exact Hni|]. rewrite lookup_insert_ne by congruence.
        exact Hd. }
      apply Hkeep; [exact Hfresh|]. apply lookup_insert_eq.
    + apply IH; assumption.
Qed.

(** C9. Early exit: pending workers are cancelled (and the early-exit flag
    is raised) only when a finished result is accepted with confidence at
    least FP_CONF_HIGH + 15 and at least three templates are being
    evaluated.  With exactly two templates nothing is cancelled, the flag
    stays down, and the response carries, for both templates, what their
    workers produced. *)
Theorem early_exit_needs_three_templates
    (probe_kp : Z) (total : nat) (cancellable : nat -> bool)
    (completed : list (nat * outcome)) :
  NoDup completed.*1 ->
  let st := gather probe_kp total cancellable completed (gather_start total) in
  ((high_confidence_match_found st = true \/ cancelled_futures st <> ∅) ->
   (3 <= total)%nat /\
   exists idx result,
     (idx, Returned result) ∈ completed /\
     accepted result = true /\
     PyFloat.leb (PyFloat.add FP_CONF_HIGH (PyFloat.of_Z 15))
       (confidence result) = true) /\
  (total = 2%nat ->
   high_confidence_match_found st = false /\
   cancelled_futures st = ∅ /\
   forall idx o,
     (idx, o) ∈ completed -> (idx < total)%nat ->
     ordered_results probe_kp total st !! idx = Some (stored probe_kp idx o)).
Proof.
  intros Hnd st. split.
  - intros Hexit.
    destruct (gather_exit_cause probe_kp total cancellable completed
                (gather_start total)) as [[Hflag Hcan]|(Hge & idx & r & Hin & Hr)].
    + fold st in Hflag, Hcan. cbn in Hflag, Hcan.
      destruct Hexit as [Hexit|Hexit]; congruence.
    + split; [exact Hge|]. exists idx, r. split; [exact Hin|].
      unfold is_high_confidence in Hr. apply andb_true_iff in Hr. exact Hr.
  - intros ->.
    destruct (gather_exit_cause probe_kp 2 cancellable completed
                (gather_start 2)) as [[Hflag Hcan]|(Hge & _)]; [|lia].
    fold st in Hflag, Hcan. cbn in Hflag, Hcan.
    split; [exact Hflag|]. split; [exact Hcan|].
    intros idx o Hin Hidx. unfold ordered_results.
    rewrite list_lookup_fmap, lookup_seq_lt by exact Hidx.
    cbn [fmap option_fmap option_map Nat.add]. subst st.
    rewrite gather_small_stores by lia.
    rewrite (foldl_store_lookup probe_kp completed _ idx o Hnd Hin).
    reflexivity.
Qed.

End GatherFacts.

(** Two finished workers, the second template first: a result accepted
    with confidence 100 and a rejected one. *)
Definition sample_strong_result : payload :=
  set_template_index 1
    (set_accepted true
       (set_reason (Some "match")
          {| accepted := false; score := 80; threshold_used := 45;
             required_score := 49; confidence := PyFloat.of_Z 100;
             confidence_required := PyFloat.of_Z 65;
             min_keypoints := 300; probe_keypoints := 300;
             template_keypoints := 400; probe_quality_ok := true;
             template_quality_ok := true; quality_warnings := [];
             good_matches := 80; ratio := PyFloat.literal 70 2;
             reason := None; p_is_precomputed := Present true;
             template_index := Absent; employee_id := Absent;
             num_templates_tested := Absent;
             all_template_scores := Absent |})).

Definition sample_weak_result : payload :=
  set_template_index 0
    (set_reason (Some "score_below_abs_min")
       {| accepted := false; score := 12; threshold_used := 45;
          required_score := 49; confidence := PyFloat.round2 (PyFloat.literal 2667 2);
          confidence_required := PyFloat.of_Z 65;
          min_keypoints := 300; probe_keypoints := 300;
          template_keypoints := 400; probe_quality_ok := true;
          template_quality_ok := true; quality_warnings := [];
          good_matches := 12; ratio := PyFloat.literal 70 2;
          reason := None; p_is_precomputed := Present true;
          template_index := Absent; employee_id := Absent;
          num_templates_tested := Absent;
          all_template_scores := Absent |}).

Definition sample_completed : list (nat * outcome) :=
  [(1%nat, Returned sample_strong_result); (0%nat, Returned sample_weak_result)].

Lemma early_exit_needs_three_templates_witness :
  let st := @gather default_config 300 2 (fun _ => true) sample_completed
              (gather_start 2) in
  high_confidence_match_found st = false /\
  cancelled_futures st = ∅ /\
  @ordered_results default_config 300 2 st !! 0%nat = Some sample_weak_result /\
  @ordered_results default_config 300 2 st !! 1%nat = Some sample_strong_result.
Proof.
  assert (Hnd : NoDup sample_completed.*1).
  { apply (bool_decide_unpack _). vm_compute. exact I. }
  destruct (@early_exit_needs_three_templates default_config 300 2
              (fun _ => true) sample_completed Hnd) as [_ Htwo].
  destruct (Htwo eq_refl) as (Hflag & Hcancel & Hstored).
  split; [exact Hflag|]. split; [exact Hcancel|]. split.
  - apply (Hstored 0%nat (Returned sample_weak_result)); [|lia].
    apply list_elem_of_further, list_elem_of_here.
  - apply (Hstored 1%nat (Returned sample_strong_result)); [|lia].
    apply list_elem_of_here.
Defined.

(** The same strong result among three templates does end the loop: the
    flag is raised and the two pending workers are cancelled. *)
Example early_exit_with_three_templates :
  let st := @gather default_config 300 3 (fun _ => true) sample_completed
              (gather_start 3) in
  high_confidence_match_found st = true /\
  cancelled_futures st = {[0%nat; 2%nat]} /\
  reason <$> (@ordered_results default_config 300 3 st !! 0%nat)
    = Some (Some "cancelled_early_exit").
Proof.
  cbn zeta. split; [vm_compute; reflexivity|]. split.
  - apply (bool_decide_unpack _). vm_compute. exact I.
  - vm_compute. reflexivity.
Qed.

(** ** The secondary-support rule *)

Section SecondarySupport.
Local Existing Instance default_config.

(** (a) The margin of the primary over its required score. *)
Definition primary_margin_ok (best_result : payload) : bool :=
  (if get_default (p_is_precomputed best_result) false then 3 else 5)
  <=? score best_result - required_score best_result.

(** (b) The tier gate as the specification words it: a share of the
    threshold is compared with the score as it is. *)
Definition claimed_secondary_gate (primary_score : Z) (support : payload) : bool :=
  if 70 <=? primary_score then
    (45 <=? score support) &&
    (85 * threshold_used support <=? 100 * score support)
  else if 60 <=? primary_score then
    (45 <=? score support) &&
    ((80 * threshold_used support <=? 100 * score support) ||
     (get_default (p_is_precomputed support) false &&
      (required_score support - 2 <=? score support)))
  else accepted support.

(** (b) The tier gate with the share of the threshold truncated to an
    integer, as [int(threshold * 0.85)] does. *)
Definition floored_secondary_gate (primary_score : Z) (support : payload) : bool :=
  if 70 <=? primary_score then
    (45 <=? score support) &&
    (85 * threshold_used support / 100 <=? score support)
  else if 60 <=? primary_score then
    (45 <=? score support) &&
    ((80 * threshold_used support / 100 <=? score support) ||
     (get_default (p_is_precomputed support) false &&
      (required_score support - 2 <=? score support)))
  else accepted support.

Lemma int_times_85_percent (t : Z) :
  0 <= t <= range_bound ->
  int_times t (PyFloat.literal 85 2) = Ok (85 * t / 100).
Proof.
  intros Ht. apply res_Z_eqb_eq.
  revert t Ht.
  apply (checked_on_range
           (fun t => res_Z_eqb (int_times t (PyFloat.literal 85 2))
                       (Ok (85 * t / 100)))).
  vm_compute. reflexivity.
Qed.

Lemma int_times_80_percent (t : Z) :
  0 <= t <= range_bound ->
  int_times t (PyFloat.literal 80 2) = Ok (80 * t / 100).
Proof.
  intros Ht. apply res_Z_eqb_eq.
  revert t Ht.
  apply (checked_on_range
           (fun t => res_Z_eqb (int_times t (PyFloat.literal 80 2))
                       (Ok (80 * t / 100)))).
  vm_compute. reflexivity.
Qed.

(** The code's validity test implies the floored gate, and coincides with
    it in the two upper tiers. *)
Lemma secondary_valid_floored (primary_score : Z) (support : payload) :
  0 <= threshold_used support <= range_bound ->
  exists valid,
    secondary_valid primary_score support = Ok valid /\
    (valid = true -> floored_secondary_gate primary_score support = true) /\
    (60 <= primary_score ->
     valid = floored_secondary_gate primary_score support).
Proof.
  intros Ht. unfold secondary_valid, floored_secondary_gate.
  rewrite (int_times_85_percent _ Ht), (int_times_80_percent _ Ht).
  cbn [mbind res_bind rbind]. change FP_ABS_MIN_SCORE with 45.
  assert (Hsame : forall a b : bool,
             a = b ->
             exists valid, Ok a = Ok valid /\
               (valid = true -> b = true) /\
               (60 <= primary_score -> valid = b)).
  { intros a b ->. exists b. split; [reflexivity|]. split; [tauto|reflexivity]. }
  destruct (Z.leb_spec 70 primary_score) as [H70|H70].
  - apply Hsame. apply eq_iff_eq_true.
    rewrite !andb_true_iff, !Z.leb_le. lia.
  - destruct (Z.leb_spec 60 primary_score) as [H60|H60].
    + destruct (get_default (p_is_precomputed support) false);
        apply Hsame; apply eq_iff_eq_true;
        rewrite ?orb_false_r, ?andb_true_l;
        rewrite ?orb_true_iff, ?andb_true_iff, ?Z.leb_le; lia.
    + eexists. split; [reflexivity|]. split; [|lia].
      intros Hv. apply andb_true_iff in Hv as [Hv _]. exact Hv.
Qed.

(** What [find_secondary] returns comes from the candidates, is not the
    best result, and no other candidate scores higher. *)
Lemma find_secondary_spec (bi : nat) (candidates : list (nat * payload)) :
  forall bss acc i support,
    find_secondary bi candidates bss acc = Some (i, support) ->
    (forall j c, acc = Some (j, c) -> score c = bss) ->
    (acc = Some (i, support) \/ (i, support) ∈ candidates /\ i <> bi) /\
    bss <= score support /\
    (forall j c, (j, c) ∈ candidates -> j <> bi -> score c <= score support).
Proof.
  induction candidates as [|[k cand] rest IH]; intros bss acc i support H Hacc;
    cbn [find_secondary] in H.
  - subst acc. split; [left; reflexivity|]. split.
    + rewrite (Hacc i support eq_refl). lia.
    + intros j c Hin. apply elem_of_nil in Hin. destruct Hin.
  - destruct (Nat.eqb_spec k bi) as [->|Hne].
    + destruct (IH _ _ _ _ H Hacc) as (Hsrc & Hbss & Hmax).
      split; [|split; [exact Hbss|]].
      * destruct Hsrc as [Hsrc|[Hin Hi]]; [left; exact Hsrc|].
        right. split; [apply list_elem_of_further; exact Hin|exact Hi].
      * intros j c Hin Hj. apply elem_of_cons in Hin as [Heq|Hin].
        -- injection Heq as -> ->. congruence.
        -- apply (Hmax j c Hin Hj).
    + destruct (Z.ltb_spec bss (score cand)) as [Hlt|Hge].
      * destruct (IH _ _ _ _ H) as (Hsrc & Hbss & Hmax).
        { intros j c Heq. injection Heq as -> ->. reflexivity. }
        split; [|split; [lia|]].
        -- right. destruct Hsrc as [Hsrc|[Hin Hi]].
           ++ injection Hsrc as -> ->. split; [apply list_elem_of_here|exact Hne].
           ++ split; [apply list_elem_of_further; exact Hin|exact Hi].
        -- intros j c Hin Hj. apply elem_of_cons in Hin as [Heq|Hin].
           ++ injection Heq as -> ->. exact Hbss.
           ++ apply (Hmax j c Hin Hj).
      * destruct (IH _ _ _ _ H Hacc) as (Hsrc & Hbss & Hmax).
        split; [|split; [exact Hbss|]].
        -- destruct Hsrc as [Hsrc|[Hin Hi]]; [left; exact Hsrc|].
           right. split; [apply list_elem_of_further; exact Hin|exact Hi].
        -- intros j c Hin Hj. apply elem_of_cons in Hin as [Heq|Hin].
           ++ injection Heq as -> ->. lia.
           ++ apply (Hmax j c Hin Hj).
Qed.

(** C6 (amended). With at least two templates counted as evaluated and a
    tentatively accepted best result, the secondary is the highest-scoring
    evaluated template other than the best; the acceptance is kept only if
    (a) the primary's margin over its required score is at least 3
    (precomputed primary) or 5, and (b) the secondary passes its tier gate,
    where a share of the threshold means its integer part: primary >= 70,
    score >= 45 and >= floor(85% of its threshold); primary 60..69, score
    >= 45 and (>= floor(80% of its threshold), or within 2 of its required
    score when precomputed); primary < 60, the secondary is itself accepted.
    Any failure gives accepted = false with reason
    secondary_template_disagrees; when no secondary is found the reason is
    secondary_template_required. *)
Theorem secondary_support_rule
    (results : list payload) (bi : nat) (best_result : payload) :
  select_best 0 results None = Some (bi, best_result) ->
  accepted best_result = true ->
  2 <= Z.of_nat (length (non_empty_templates results)) ->
  (forall i r, (i, r) ∈ non_empty_templates results ->
               0 <= threshold_used r <= range_bound) ->
  exists v,
    decide_verification results = Ok v /\
    match find_secondary bi (non_empty_templates results) (-1) None with
    | Some (i, support) =>
        (i <> bi /\
         (i, support) ∈ non_empty_templates results /\
         forall j c, (j, c) ∈ non_empty_templates results -> j <> bi ->
                     score c <= score support) /\
        (v_accepted v = true ->
         primary_margin_ok best_result = true /\
         floored_secondary_gate (score best_result) support = true) /\
        (primary_margin_ok best_result &&
         floored_secondary_gate (score best_result) support = false ->
         v_accepted v = false /\
         v_decision_reason v = Some "secondary_template_disagrees")
    | None =>
        v_accepted v = false /\
        v_decision_reason v = Some "secondary_template_required"
    end.
Proof.
  intros Hbest Hacc Hcount Hrange.
  unfold decide_verification. rewrite Hbest, Hacc.
  destruct (Z.leb_spec 2 (Z.of_nat (length (non_empty_templates results))))
    as [_|Hlt]; [|lia].
  destruct (find_secondary bi (non_empty_templates results) (-1) None)
    as [[i support]|] eqn:Hfind.
  - destruct (find_secondary_spec _ _ _ _ _ _ Hfind) as (Hsrc & _ & Hmax).
    { intros j c Hnone. discriminate Hnone. }
    destruct Hsrc as [Hsrc|[Hin Hi]]; [discriminate Hsrc|].
    destruct (secondary_valid_floored (score best_result) support
                (Hrange i support Hin)) as (valid & Hvalid & Himp & _).
    rewrite Hvalid. cbn [mbind res_bind rbind].
    assert (Hmargin :
              (score best_result - required_score best_result <?
               (if get_default (p_is_precomputed best_result) false
                then 3 else 5)) = negb (primary_margin_ok best_result)).
    { unfold primary_margin_ok. rewrite Z.leb_antisym. rewrite negb_involutive.
      reflexivity. }
    rewrite Hmargin.
    destruct valid; cbn [negb orb].
    + specialize (Himp eq_refl). rewrite Himp.
      destruct (primary_margin_ok best_result); cbn [negb andb];
        eexists; (split; [reflexivity|]); cbn;
        (split; [split; [exact Hi|split; [exact Hin|exact Hmax]]|]);
        split; try discriminate; auto.
    + eexists. split; [reflexivity|]. cbn.
      split; [split; [exact Hi|split; [exact Hin|exact Hmax]]|].
      split; [discriminate|]. intros _. split; reflexivity.
  - eexists. split; [reflexivity|]. cbn. split; reflexivity.
Qed.

End SecondarySupport.

(** *** A verification against two stored templates

    The probe scores 80 against the first template and 45 against the
    second, with the threshold overridden to 54. *)

Definition sample_run (idx : nat) (template : features) : payload :=
  match @match_feature_sets default_config Sample.cv Sample.probe template
          (Some 54) false with
  | Ok result => worker_result idx template result
  | Raise _ => @placeholder_payload default_config 300 "processing_error" idx
  end.

Definition sample_primary : payload :=
  Eval vm_compute in
    sample_run 0 (Sample.extracted 400 80 "template_0" (Present true)).

Definition sample_secondary : payload :=
  Eval vm_compute in
    sample_run 1 (Sample.extracted 400 45 "template_1" (Present true)).

(** C6, as stated, fails: the secondary scores 45, below 85% of its
    threshold 54 (45.9), and the acceptance is kept, because the code
    compares with int(54 * 0.85) = 45. *)
Lemma truncated_share_keeps_acceptance :
  exists v,
    @decide_verification default_config [sample_primary; sample_secondary] = Ok v /\
    v_accepted v = true /\
    score sample_primary = 80 /\
    score sample_secondary = 45 /\
    threshold_used sample_secondary = 54 /\
    claimed_secondary_gate (score sample_primary) sample_secondary = false.
Proof.
  eexists. split; [vm_compute; reflexivity|].
  repeat split; vm_compute; reflexivity.
Qed.

Lemma secondary_support_rule_witness :
  exists v,
    @decide_verification default_config [sample_primary; sample_secondary] = Ok v /\
    (v_accepted v = true ->
     primary_margin_ok sample_primary = true /\
     floored_secondary_gate (score sample_primary) sample_secondary = true).
Proof.
  destruct (secondary_support_rule [sample_primary; sample_secondary] 0
              sample_primary) as (v & Hrun & Hrule).
  - vm_compute. reflexivity.
  - reflexivity.
  - vm_compute. discriminate.
  - intros i r Hin.
    assert (Hr : r = sample_primary \/ r = sample_secondary).
    { unfold non_empty_templates in Hin.
      apply list_elem_of_filter in Hin as [_ Hin]. cbn [imap compose] in Hin.
      apply elem_of_cons in Hin as [Hin|Hin]; [left; congruence|].
      apply elem_of_cons in Hin as [Hin|Hin]; [right; congruence|].
      apply elem_of_nil in Hin. destruct Hin. }
    destruct Hr as [-> | ->]; vm_compute; split; discriminate.
  - exists v. split; [exact Hrun|].
    change (find_secondary 0
              (non_empty_templates [sample_primary; sample_secondary]) (-1) None)
      with (Some (1%nat, sample_secondary)) in Hrule.
    destruct Hrule as (_ & Hkept & _). exact Hkept.
Defined.

(** When the second of two templates is not evaluated (here it is empty),
    only one template counts: the single-template margin decides, and the
    reason secondary_template_required is not issued. *)
Example unevaluated_second_template :
  exists v,
    @decide_verification default_config
      [sample_primary;
       @placeholder_payload default_config 300 "empty_template" 1] = Ok v /\
    v_accepted v = true /\
    v_decision_reason v = Some "match_found".
Proof.
  eexists. split; [vm_compute; reflexivity|]. split; reflexivity.
Qed.

(** * Properties of the employee index *)

Section IndexFacts.
Context {cfg : Config} {cv : OpenCV} {libs : Libs} {img : Imaging}
        {platform : Platform} {search : Search}.

(** C1 (amended). When the store cannot be read during a full rebuild, the
    rebuild reports failure and the index is cleared: no records, no
    embedding matrix, no ids, no accelerator, and the ready flag is down.
    The same holds for any exception inside the rebuild. *)
Theorem rebuild_failure_clears_index (db : database) (st : index_state) (e : exn) :
  PSYCOPG2_AVAILABLE = true ->
  active_employees db = Raise e ->
  rebuild_employee_index db st = (empty_index, false).
Proof.
  intros Hdriver Hdb. unfold rebuild_employee_index, rebuild_body.
  rewrite Hdriver, Hdb. reflexivity.
Qed.

(** A record stored by the incremental add has no "template_features_list":
    identification raises KeyError as soon as it evaluates that record. *)
Lemma synced_entry_not_evaluable (st : index_state) (probe_features : features)
    (threshold_override : option Z) (idx : nat) (employee_id : Z)
    (t_features : features) :
  EMPLOYEE_TEMPLATES st !! idx = Some (synced_entry employee_id t_features) ->
  evaluate_candidate st probe_features threshold_override (Z.of_nat idx)
  = Raise (KeyError "template_features_list").
Proof.
  intros Hentry. unfold evaluate_candidate.
  destruct (Z.ltb_spec (Z.of_nat idx) 0) as [Hneg|_]; [lia|].
  rewrite Nat2Z.id, Hentry. reflexivity.
Qed.

(** Every successful incremental add of a new employee appends a record
    that identification cannot evaluate. *)
Lemma sync_appends_unevaluable_record (db : database) (employee_id : Z)
    (st st' : index_state) (probe_features : features)
    (threshold_override : option Z) :
  employee_id ∉ EMPLOYEE_IDS st ->
  add_employee_to_index db employee_id st = (st', true) ->
  EMPLOYEE_IDS st' = EMPLOYEE_IDS st ++ [employee_id] /\
  evaluate_candidate st' probe_features threshold_override
    (Z.of_nat (length (EMPLOYEE_TEMPLATES st)))
  = Raise (KeyError "template_features_list").
Proof.
  intros Hnew H. unfold add_employee_to_index in H.
  destruct (negb PSYCOPG2_AVAILABLE); [discriminate H|].
  rewrite bool_decide_eq_false_2 in H by exact Hnew.
  destruct (add_body db employee_id st) as [[result|]|e] eqn:Hbody;
    [subst result| |]; try discriminate H.
  unfold add_body in Hbody.
  repeat (step_run Hbody); try discriminate Hbody;
    injection Hbody as <-;
    (split; [reflexivity|]);
    eapply synced_entry_not_evaluable;
    cbn [EMPLOYEE_TEMPLATES]; apply list_lookup_middle; reflexivity.
Qed.

(** A record stored by the rebuild has the three keys. *)
Lemma rebuilt_entry_keys (emp_id : Z) (l : list features) :
  get_item "employee_id" (rebuilt_entry emp_id l) = Ok (PInt emp_id) /\
  get_item "template_features_list" (rebuilt_entry emp_id l) = Ok (PFeaturesList l) /\
  get_item "num_templates" (rebuilt_entry emp_id l) = Ok (PInt (Z.of_nat (length l))).
Proof. repeat split. Qed.

End IndexFacts.

(** The index built from the sample store: employees 1, 2 and 3. *)
Definition sample_index : index_state :=
  Eval vm_compute in
    fst (@rebuild_employee_index default_config RefLibs.libs Sample.img
           Sample.platform Sample.db empty_index).

(** C1, as stated, fails: after a rebuild that cannot reach the store, the
    index that was in place (three employees) is gone. *)
Lemma rebuild_failure_empties_index :
  EMPLOYEE_IDS sample_index = [1; 2; 3] /\
  EMPLOYEE_INDEX_READY sample_index = true /\
  exists st',
    @rebuild_employee_index default_config RefLibs.libs Sample.img
      Sample.platform Sample.unreachable_db sample_index = (st', false) /\
    EMPLOYEE_IDS st' = [] /\ EMPLOYEE_TEMPLATES st' = [] /\
    EMPLOYEE_VECTORS st' = None /\ FAISS_INDEX st' = None /\
    st' <> sample_index.
Proof.
  split; [reflexivity|]. split; [reflexivity|].
  exists empty_index. repeat split. discriminate.
Qed.

Lemma rebuild_failure_clears_index_witness :
  @rebuild_employee_index default_config RefLibs.libs Sample.img
    Sample.platform Sample.unreachable_db sample_index = (empty_index, false).
Proof.
  apply (@rebuild_failure_clears_index default_config RefLibs.libs Sample.img
           Sample.platform Sample.unreachable_db sample_index DatabaseError);
    reflexivity.
Defined.

(** The sample index after the incremental add of employee 4. *)
Definition synced_index : index_state * bool :=
  Eval vm_compute in
    @add_employee_to_index default_config RefLibs.libs Sample.img
      Sample.platform Sample.db 4 sample_index.

(** C2 fails at a concrete input: the index holds employees 1, 2, 3; the
    sync of employee 4 succeeds; the identification that follows, with a
    shortlist of all four, raises KeyError instead of answering. *)
Lemma identification_after_sync_fails :
  snd synced_index = true /\
  EMPLOYEE_IDS (fst synced_index) = [1; 2; 3; 4] /\
  @identify_employee default_config Sample.cv RefLibs.libs Sample.img
    Sample.platform Sample.search Sample.db (Sample.png 90) (Some 4) None
    (fst synced_index)
  = (fst synced_index, Raise (KeyError "template_features_list")).
Proof.
  split; [reflexivity|]. split; [reflexivity|].
  vm_compute. reflexivity.
Qed.

(** * Properties of identification *)

Section IdentificationFacts.
Context {cv : OpenCV}.
Local Existing Instance default_config.





Context {libs : Libs} {img : Imaging} {platform : Platform} {search : Search}.




(** The second-best score is the highest score among the results of other
    employees, or 0 when no such result has a positive score. *)
Lemma second_best_score_spec (best_emp_id : entry Z) (results : list payload) :
  (forall r, r ∈ results -> employee_id r <> best_emp_id ->
             score r <= second_best_score best_emp_id results) /\
  (second_best_score best_emp_id results = 0 \/
   exists r, r ∈ results /\ employee_id r <> best_emp_id /\
             score r = second_best_score best_emp_id results).
Proof.
  unfold second_best_score.
  assert (Hgen : forall acc,
    acc <= foldl (fun second_best r =>
             if bool_decide (employee_id r <> best_emp_id) &&
                (second_best <? score r)
             then score r else second_best) acc results /\
    (forall r, r ∈ results -> employee_id r <> best_emp_id ->
       score r <= foldl (fun second_best r =>
             if bool_decide (employee_id r <> best_emp_id) &&
                (second_best <? score r)
             then score r else second_best) acc results) /\
    (foldl (fun second_best r =>
             if bool_decide (employee_id r <> best_emp_id) &&
                (second_best <? score r)
             then score r else second_best) acc results = acc \/
     exists r, r ∈ results /\ employee_id r <> best_emp_id /\
       score r = foldl (fun second_best r =>
             if bool_decide (employee_id r <> best_emp_id) &&
                (second_best <? score r)
             then score r else second_best) acc results)).
  { induction results as [|x rest IH]; intros acc; cbn [foldl].
    - split; [lia|]. split; [|left; reflexivity].
      intros r Hin. apply elem_of_nil in Hin. destruct Hin.
    - destruct (IH (if bool_decide (employee_id x <> best_emp_id) &&
                       (acc <? score x) then score x else acc))
        as (Hle & Hmax & Hsrc).
      destruct (bool_decide_reflect (employee_id x <> best_emp_id)) as [Hx|Hx];
        cbn [andb] in *.
      + destruct (Z.ltb_spec acc (score x)) as [Hlt|Hge].
        * split; [lia|]. split.
          -- intros r Hin Hr. apply elem_of_cons in Hin as [->|Hin];
               [exact Hle|apply Hmax; assumption].
          -- right. destruct Hsrc as [Hsrc|(r & Hin & Hr & Hs)].
             ++ exists x. split; [apply list_elem_of_here|]. split; [exact Hx|].
                symmetry. exact Hsrc.
             ++ exists r. split; [apply list_elem_of_further; exact Hin|].
                split; assumption.
        * split; [exact Hle|]. split.
          -- intros r Hin Hr. apply elem_of_cons in Hin as [->|Hin];
               [lia|apply Hmax; assumption].
          -- destruct Hsrc as [Hsrc|(r & Hin & Hr & Hs)]; [left; exact Hsrc|].
             right. exists r. split; [apply list_elem_of_further; exact Hin|].
             split; assumption.
      + split; [exact Hle|]. split.
        * intros r Hin Hr. apply elem_of_cons in Hin as [->|Hin];
            [contradiction|apply Hmax; assumption].
        * destruct Hsrc as [Hsrc|(r & Hin & Hr & Hs)]; [left; exact Hsrc|].
          right. exists r. split; [apply list_elem_of_further; exact Hin|].
          split; assumption. }
  destruct (Hgen 0) as (_ & Hmax & Hsrc). split; assumption.
Qed.

(** The number of the winner's template scores that reach 60% of its best
    score, as Layer 5 counts them. *)
Definition reaching_templates (best_result : payload) : Z :=
  Z.of_nat
    (length
       (filter (fun s => int_ge_float s
                           (PyFloat.mul (PyFloat.of_Z (score best_result))
                              (PyFloat.literal 6 1)) = true)
          (get_default (all_template_scores best_result) []))).


End IdentificationFacts.

(** *** Three employees that score alike

    Every stored capture of 60 characters scores 60 against any probe. *)

Definition tied_store : database :=
  {| active_employees :=
       Ok [Sample.row 1 [60%nat]; Sample.row 2 [60%nat]; Sample.row 3 [60%nat]];
     active_employee _ := Ok None |}.

Definition tied_index : index_state :=
  Eval vm_compute in
    fst (@rebuild_employee_index default_config RefLibs.libs Sample.img
           Sample.platform tied_store empty_index).

Definition tied_probe : features :=
  Eval vm_compute in
    match @prepare_features default_config Sample.img (Sample.png 70)
            "probe_identify" false with
    | Ok probe_features => probe_features
    | Raise _ => failed_features "probe_identify" "decode_failed"
    end.

Definition tied_results : list payload :=
  Eval vm_compute in
    match @evaluate_candidates default_config Sample.cv tied_index tied_probe
            None [0; 1; 2] with
    | Ok candidate_results => candidate_results
    | Raise _ => []
    end.

Definition tied_best : payload :=
  Eval vm_compute in
    match tied_results with
    | best_result :: _ => best_result
    | [] => @placeholder_payload default_config 200 "no_valid_results" 0
    end.




(** * Properties of the template codec *)

Lemma chunks_length {A} (n k : nat) (l : list A) : length (chunks n k l) = n.
Proof.
  revert l. induction n as [|n IH]; intros l; cbn [chunks length];
    [reflexivity|]. rewrite IH. reflexivity.
Qed.

Lemma chunks_concat {A} (n k : nat) (l : list A) :
  length l = (n * k)%nat -> List.concat (chunks n k l) = l.
Proof.
  revert l. induction n as [|n IH]; intros l Hl; cbn [chunks List.concat].
  - destruct l; [reflexivity|discriminate Hl].
  - rewrite IH; [apply take_drop|]. rewrite length_drop. lia.
Qed.

Lemma chunks_Forall {A} (P : list A -> Prop) (n k : nat) (l : list A) :
  (forall i, P (take k (drop (i * k) l))) ->
  Forall P (chunks n k l).
Proof.
  revert l. induction n as [|n IH]; intros l H; cbn [chunks]; constructor.
  - apply (H 0%nat).
  - apply IH. intros i. rewrite drop_drop.
    replace (k + i * k)%nat with (S i * k)%nat by lia. apply H.
Qed.

Lemma chunks_rows {A} (P : A -> Prop) (n k : nat) (l : list A) :
  length l = (n * k)%nat -> Forall P l ->
  Forall (fun row => length row = k /\ Forall P row) (chunks n k l).
Proof.
  revert l. induction n as [|n IH]; intros l Hl HP; cbn [chunks]; constructor.
  - split; [rewrite length_take; lia|apply Forall_take; exact HP].
  - apply IH; [rewrite length_drop; lia|apply Forall_drop; exact HP].
Qed.

Lemma mapM_map_Some {A B} (f : A -> B) (g : B -> option A) (l : list A) :
  Forall (fun x => g (f x) = Some x) l -> mapM g (map f l) = Some l.
Proof.
  induction 1 as [|x l Hx _ IH]; [reflexivity|].
  cbn [map mapM]. rewrite Hx. cbn. rewrite IH. reflexivity.
Qed.

Section CodecFacts.
Context {libs : Libs} {laws : LibsLaws} {cfg : Config}.

Definition all_f32 (elements : list PyFloat.float) : Prop :=
  Forall (fun x => F32.is_f32 x = true) elements.

(** Reading back the nested list of an array gives its elements. *)
Lemma conform_tolist (sh : list nat) :
  forall elements,
    length elements = foldr Nat.mul 1%nat sh -> all_f32 elements ->
    conform sh (tolist sh elements) = Some elements.
Proof.
  induction sh as [|n sh' IH]; intros elements Hlen Hf32;
    cbn [foldr] in Hlen; cbn [tolist conform].
  - destruct elements as [|x [|y rest]]; try discriminate Hlen.
    inversion Hf32; subst. cbn [hd f32_of_json py_float fmap option_fmap option_map].
    rewrite of_f64_to_f64 by assumption. reflexivity.
  - rewrite length_map, chunks_length, Nat.eqb_refl.
    rewrite (mapM_map_Some (tolist sh') (conform sh')).
    + cbn. rewrite chunks_concat by exact Hlen. reflexivity.
    + eapply Forall_impl; [apply (chunks_rows _ _ _ _ Hlen Hf32)|].
      intros row [Hrow Hrow32]. apply IH; assumption.
Qed.

Lemma json_wf_tolist (sh : list nat) :
  forall elements, all_f32 elements -> json_wf (tolist sh elements) = true.
Proof.
  induction sh as [|n sh' IH]; intros elements Hf32; cbn [tolist json_wf].
  - destruct elements as [|x rest]; [reflexivity|].
    inversion Hf32; subst. cbn [hd]. apply to_f64_valid. assumption.
  - rewrite forallb_forall. intros j Hj. apply in_map_iff in Hj as (row & <- & Hrow).
    apply IH.
    assert (Hall : Forall all_f32 (chunks n (foldr Nat.mul 1%nat sh') elements)).
    { apply chunks_Forall. intros i. apply Forall_take, Forall_drop. exact Hf32. }
    rewrite Forall_forall in Hall. apply Hall. apply list_elem_of_In. exact Hrow.
Qed.

Lemma shape_of_matrix (n c : nat) (elements : list PyFloat.float) :
  (1 <= n)%nat -> shape_of (tolist [n; c] elements) = [n; c].
Proof.
  intros Hn. destruct n as [|n]; [lia|].
  cbn [tolist chunks map shape_of length foldr].
  rewrite !length_map, !chunks_length.
  destruct c; reflexivity.
Qed.

Lemma np_array_tolist (n c : nat) (elements : list PyFloat.float) :
  (1 <= n)%nat -> length elements = (n * c)%nat -> all_f32 elements ->
  np_array (tolist [n; c] elements)
  = Some {| shape := [n; c]; flat := elements |}.
Proof.
  intros Hn Hlen Hf32. unfold np_array.
  rewrite shape_of_matrix by exact Hn.
  pose proof np_maxdims_matrix as Hdims.
  destruct (Nat.leb_spec (length [n; c]) np_maxdims) as [_|Hgt];
    [|cbn [length] in Hgt; lia].
  rewrite conform_tolist; [reflexivity| |exact Hf32].
  cbn [foldr]. lia.
Qed.

Lemma keypoint_round_trip (kp : keypoint) :
  keypoint_valid kp = true ->
  keypoint_of_json (json_of_keypoint kp) = Some kp.
Proof.
  destruct kp as [x y size angle response octave class_id].
  unfold keypoint_valid. cbn [kp_x kp_y kp_size kp_angle kp_response kp_octave kp_class_id].
  rewrite !andb_true_iff. intros [[[[[[Hx Hy] Hsize] Hangle] Hresponse] Hoctave] Hclass].
  unfold keypoint_of_json, json_of_keypoint.
  cbn [kp_x kp_y kp_size kp_angle kp_response kp_octave kp_class_id].
  cbn. rewrite Hoctave, Hclass. cbn.
  rewrite !of_f64_to_f64 by assumption. reflexivity.
Qed.

Lemma json_wf_keypoint (kp : keypoint) :
  keypoint_valid kp = true -> json_wf (json_of_keypoint kp) = true.
Proof.
  destruct kp as [x y size angle response octave class_id].
  unfold keypoint_valid. cbn [kp_x kp_y kp_size kp_angle kp_response kp_octave kp_class_id].
  rewrite !andb_true_iff. intros [[[[[[Hx Hy] Hsize] Hangle] Hresponse] Hoctave] Hclass].
  unfold json_of_keypoint.
  cbn [kp_x kp_y kp_size kp_angle kp_response kp_octave kp_class_id].
  cbn [json_wf map fst snd forallb].
  rewrite !to_f64_valid by assumption.
  apply andb_true_intro. split; [vm_compute; reflexivity|reflexivity].
Qed.

Definition all_valid (keypoints : list keypoint) : Prop :=
  Forall (fun kp => keypoint_valid kp = true) keypoints.

Lemma json_wf_template_data (keypoints : list keypoint) (descriptors : ndarray)
    (enhancement_method : string) (roi_shape : option (Z * Z)) :
  all_valid keypoints -> all_f32 (flat descriptors) ->
  json_wf (template_data keypoints descriptors enhancement_method roi_shape) = true.
Proof.
  intros Hkp Hdes. unfold template_data.
  cbn [json_wf map fst snd forallb].
  rewrite json_wf_tolist by exact Hdes.
  assert (Hkpts : forallb json_wf (map json_of_keypoint keypoints) = true).
  { rewrite forallb_forall. intros j Hj. apply in_map_iff in Hj as (kp & <- & Hin).
    apply json_wf_keypoint. unfold all_valid in Hkp. rewrite Forall_forall in Hkp.
    apply Hkp. apply list_elem_of_In. exact Hin. }
  rewrite Hkpts.
  apply andb_true_intro. split; [vm_compute; reflexivity|].
  destruct roi_shape as [[h w]|]; reflexivity.
Qed.


Lemma startswith_spec (pre s : string) :
  startswith pre s = true -> exists rest, s = (pre ++ rest)%string.
Proof.
  revert s. induction pre as [|a pre IH]; intros s H.
  - exists s. reflexivity.
  - destruct s as [|b s]; [discriminate H|]. cbn [startswith] in H.
    apply andb_true_iff in H as [Hab Hrest].
    apply Ascii.eqb_eq in Hab as ->.
    destruct (IH s Hrest) as [rest ->]. exists rest. reflexivity.
Qed.

(** The encoding of a gzip stream begins with H4sI. *)
Lemma b64encode_gzip (mtime : Z) (s : string) :
  startswith "H4sI" (Base64.b64encode (gzip_compress mtime s)) = true.
Proof.
  destruct (gzip_compress_header mtime s) as [rest ->]. reflexivity.
Qed.

(** What decodes from a string that begins with iVBO begins with the byte
    137, the first byte of a PNG file. *)
Lemma b64decode_png (rest decoded : string) :
  Base64.b64decode ("iVBO" ++ rest) = Some decoded ->
  exists tail, decoded = String (ascii_of_nat 137) tail.
Proof.
  unfold Base64.b64decode. destruct (Base64.all_ascii _); [|discriminate].
  change (Base64.a2b_base64 ("iVBO" ++ rest) Base64.Q0)
    with (String (ascii_of_nat 137) <$>
            (String "P"%char <$>
               (String "N"%char <$> Base64.a2b_base64 rest Base64.Q0))).
  destruct (Base64.a2b_base64 rest Base64.Q0) as [t|]; [|discriminate].
  cbn. intros H. injection H as <-. eexists. reflexivity.
Qed.

Lemma valid_template_json_encoded (mtime : Z) (keypoints : list keypoint)
    (descriptors : ndarray) (enhancement_method : string)
    (roi_shape : option (Z * Z)) :
  all_valid keypoints -> all_f32 (flat descriptors) ->
  valid_template_json
    (Base64.b64encode
       (gzip_compress mtime
          (json_dumps (template_data keypoints descriptors enhancement_method
                         roi_shape))))
  = Some (template_data keypoints descriptors enhancement_method roi_shape, true).
Proof.
  intros Hkp Hdes. unfold valid_template_json.
  rewrite Base64.b64decode_b64encode. cbn [mbind option_bind].
  rewrite gzip_decompress_compress. cbn [mbind option_bind].
  rewrite json_loads_dumps by (apply json_wf_template_data; assumption).
  reflexivity.
Qed.

(** C3. Codec round trip, for json and gzip libraries that keep their
    contracts: for keypoints made of C floats and C ints and a descriptor
    matrix of n >= 1 rows of float32 (in particular a feature set of at
    least 10 keypoints), decoding the template encoding returns the same
    keypoints, field by field, and a descriptor matrix of the same shape
    with the same elements bit for bit, provided the encoding has the 100
    characters below which the decoder refuses any input. *)
Theorem decode_encode_round_trip (mtime : Z) (keypoints : list keypoint)
    (descriptors : ndarray) (n c : nat) (enhancement_method : string)
    (roi_shape : option (Z * Z)) (encoded : string) :
  all_valid keypoints ->
  shape descriptors = [n; c] -> (1 <= n)%nat ->
  length (flat descriptors) = (n * c)%nat ->
  all_f32 (flat descriptors) ->
  serialize_keypoints_descriptors mtime (Some keypoints) (Some descriptors)
    enhancement_method roi_shape = Some encoded ->
  100 <= len encoded ->
  exists md,
    deserialize_keypoints_descriptors encoded
    = Some (keypoints, descriptors, md) /\
    md_method md = JStr enhancement_method /\
    md_kp_count md = JInt (Z.of_nat (length keypoints)).
Proof.
  intros Hkp Hshape Hn Hlen Hdes Henc Hlong.
  unfold serialize_keypoints_descriptors in Henc.
  destruct keypoints as [|kp kps]; [discriminate Henc|].
  injection Henc as <-. remember (kp :: kps) as keypoints eqn:Hkeypoints.
  unfold deserialize_keypoints_descriptors.
  destruct (Z.ltb_spec (len (Base64.b64encode
              (gzip_compress mtime
                 (json_dumps (template_data keypoints descriptors
                                enhancement_method roi_shape))))) 100)
    as [Hshort|_]; [lia|].
  rewrite Base64.b64decode_b64encode. cbn [mbind option_bind].
  rewrite gzip_decompress_compress. cbn [mbind option_bind].
  rewrite json_loads_dumps by (apply json_wf_template_data; assumption).
  cbn [mbind option_bind].
  destruct descriptors as [sh elements]. cbn [shape flat] in *. subst sh.
  unfold template_data at 1 2 3. cbn [shape flat].
  change (contains_key "kpts" (JObj ?m)) with (Some true).
  cbn -[tolist np_array mapM json_of_keypoint keypoint_of_json].
  rewrite (mapM_map_Some json_of_keypoint keypoint_of_json)
    by (eapply Forall_impl; [exact Hkp|]; intros x Hx; apply keypoint_round_trip; exact Hx).
  cbn -[tolist np_array].
  rewrite np_array_tolist by assumption.
  cbn. eexists. split; [reflexivity|]. split; reflexivity.
Qed.

(** C8. Magic-prefix classification, for json and gzip libraries that keep
    their contracts: every string of at least 100 characters produced by the
    template encoder is classified as a precomputed template; no input
    shorter than 100 characters is; and no string that begins with iVBOR,
    as the base64 form of a PNG does, is. *)
Theorem template_classification :
  (forall mtime keypoints descriptors enhancement_method roi_shape encoded,
      all_valid keypoints -> all_f32 (flat descriptors) ->
      serialize_keypoints_descriptors mtime (Some keypoints) (Some descriptors)
        enhancement_method roi_shape = Some encoded ->
      100 <= len encoded ->
      is_precomputed_template encoded = true) /\
  (forall template_data,
      len template_data < 100 -> is_precomputed_template template_data = false) /\
  (forall template_data,
      startswith "iVBOR" template_data = true ->
      is_precomputed_template template_data = false).
Proof.
  split; [|split].
  - intros mtime keypoints descriptors enhancement_method roi_shape encoded
      Hkp Hdes Henc Hlong.
    unfold serialize_keypoints_descriptors in Henc.
    destruct keypoints as [|kp kps]; [discriminate Henc|].
    injection Henc as <-. unfold is_precomputed_template.
    destruct (Z.ltb_spec (len (Base64.b64encode
                (gzip_compress mtime
                   (json_dumps (template_data (kp :: kps) descriptors
                                  enhancement_method roi_shape))))) 100)
      as [Hshort|_]; [lia|].
    rewrite b64encode_gzip.
    rewrite valid_template_json_encoded by assumption.
    reflexivity.
  - intros s Hshort. unfold is_precomputed_template.
    destruct (Z.ltb_spec (len s) 100) as [_|Hlong]; [reflexivity|lia].
  - intros s Hpng. apply startswith_spec in Hpng as [rest ->].
    unfold is_precomputed_template.
    destruct (len ("iVBOR" ++ rest) <? 100); [reflexivity|].
    change (startswith "H4sI" ("iVBOR" ++ rest)) with false. cbn match.
    destruct (10000 <? len ("iVBOR" ++ rest)); [|reflexivity].
    unfold valid_template_json.
    destruct (Base64.b64decode ("iVBOR" ++ rest)) as [decoded|] eqn:Hdecoded;
      [|reflexivity].
    cbn [mbind option_bind].
    destruct (gzip_decompress decoded) as [decompressed|] eqn:Hgzip;
      [|reflexivity].
    exfalso.
    apply (b64decode_png ("R" ++ rest)) in Hdecoded as [tail ->].
    apply gzip_decompress_magic in Hgzip as [Hempty|[tail' Hmagic]];
      discriminate.
Qed.

End CodecFacts.

(** *** A template of ten keypoints *)

Definition sample_keypoints : list keypoint := repeat Sample.corner 10.

Definition sample_descriptors : ndarray := Sample.descriptors_of 10 2 7.

Definition sample_encoded : string :=
  Eval vm_compute in
    default EmptyString
      (@serialize_keypoints_descriptors RefLibs.libs 0 (Some sample_keypoints)
         (Some sample_descriptors) "professional" (Some (96, 96))).

Lemma decode_encode_round_trip_witness :
  exists md,
    @deserialize_keypoints_descriptors RefLibs.libs sample_encoded
    = Some (sample_keypoints, sample_descriptors, md).
Proof.
  destruct (@decode_encode_round_trip RefLibs.libs RefLibs.libs_laws 0
              sample_keypoints sample_descriptors 10 2 "professional"
              (Some (96, 96)) sample_encoded) as (md & Hmd & _).
  - repeat constructor.
  - reflexivity.
  - lia.
  - reflexivity.
  - repeat constructor.
  - vm_compute. reflexivity.
  - vm_compute. discriminate.
  - exists md. exact Hmd.
Defined.

Lemma template_classification_witness :
  @is_precomputed_template RefLibs.libs sample_encoded = true /\
  @is_precomputed_template RefLibs.libs "H4sI" = false /\
  @is_precomputed_template RefLibs.libs (Sample.png 120) = false.
Proof.
  destruct (@template_classification RefLibs.libs RefLibs.libs_laws)
    as (Hencoded & Hshort & Hpng).
  split; [|split].
  - apply (Hencoded 0 sample_keypoints sample_descriptors "professional"
             (Some (96, 96))).
    + repeat constructor.
    + repeat constructor.
    + vm_compute. reflexivity.
    + vm_compute. discriminate.
  - apply Hshort. vm_compute. reflexivity.
  - apply Hpng. vm_compute. reflexivity.
Defined.

(** * Properties of the embedding *)


Section EmbeddingFacts.
Local Open Scope R_scope.


Lemma foldl_squares_nonneg (vec : list R) :
  forall acc, 0 <= acc -> 0 <= foldl Rplus acc (map (fun x => x * x) vec).
Proof.
  induction vec as [|x vec IH]; intros acc Hacc; cbn [map foldl].
  - exact Hacc.
  - apply IH. pose proof (Rle_0_sqr x) as Hx. unfold Rsqr in Hx. lra.
Qed.


End EmbeddingFacts.

(** What [descriptors_to_vector] returns is [normalized_mean] of the rows,
    in float32. *)
Lemma descriptors_to_vector_spec (d v : ndarray) :
  descriptors_to_vector (Some d) = Some v ->
  exists n c,
    shape d = [n; c] /\ n <> 0%nat /\ shape v = [c] /\
    flat v = @normalized_mean PyFloat.float float32_arith n c
               (chunks n c (flat d)).
Proof.
  unfold descriptors_to_vector.
  destruct (shape d) as [|n [|c [|x rest]]]; try discriminate.
  destruct (Nat.eqb_spec n 0) as [->|Hn]; [discriminate|].
  intros H. injection H as <-. exists n, c. repeat split. exact Hn.
Qed.

(** *** A store of featureless captures

    Every image yields ten keypoints whose descriptors are all zero. *)




(** In the sample index every embedding has norm 1 in float32 as well. *)
Example sample_embeddings_unit :
  match EMPLOYEE_VECTORS sample_index with
  | Some vectors =>
      map (@norm PyFloat.float float32_arith) (chunks 3 2 (flat vectors))
  | None => []
  end = repeat (F32.of_Z 1) 3.
Proof. vm_compute. reflexivity. Qed.

(** * Further properties of the Matcher *)

Section MatcherGates.
Context {cfg : Config} {cv : OpenCV}.

(** The lenient floor for precomputed templates is at least 38, whatever
    the configuration. *)
Lemma score_gates_accepts (strict ip : bool) (s t r : Z) :
  score_gates strict ip s t r = Ok None ->
  if strict || negb ip
  then FP_ABS_MIN_SCORE <= s /\ t <= s /\ r <= s
  else 41 <= s /\ t - 4 <= s.
Proof.
  unfold score_gates. destruct strict; cbn [orb].
  - repeat match goal with
           | |- context [?a <? ?b] => destruct (Z.ltb_spec a b)
           end; try discriminate. intros _. lia.
  - destruct ip; cbn [negb].
    + destruct (int_times FP_ABS_MIN_SCORE (PyFloat.literal 85 2)) as [a|e];
        cbn [mbind res_bind rbind]; [|discriminate].
      repeat match goal with
             | |- context [?a <? ?b] => destruct (Z.ltb_spec a b)
             end; try discriminate. intros _. lia.
    + cbn [mbind res_bind rbind].
      repeat match goal with
             | |- context [?a <? ?b] => destruct (Z.ltb_spec a b)
             end; try discriminate. intros _. lia.
Qed.

Lemma compute_threshold_positive (k : Z) (override : option Z) (t : Z) :
  compute_threshold k override = Ok t -> 1 <= t.
Proof.
  unfold compute_threshold. destruct override as [o|].
  - intros H. injection H as <-. lia.
  - destruct (int_times k FP_MIN_PERCENT); cbn [mbind res_bind rbind];
      [|discriminate]. intros H. injection H as <-. lia.
Qed.

Lemma compute_margin_base (t m : Z) :
  compute_margin t = Ok m -> FP_MARGIN_BASE <= m.
Proof.
  unfold compute_margin.
  destruct (round_times t FP_MARGIN_PERCENT); cbn [mbind res_bind rbind];
    [|discriminate]. intros H. injection H as <-. lia.
Qed.

(** X1. An accepted result of the Matcher has passed every gate: both
    feature sets were extracted successfully, the probe has at least
    FP_MIN_KEYPOINTS_WARN keypoints, the reason is match, the score is the
    number of good matches, the threshold is at least 1 and the required
    score exceeds it by at least FP_MARGIN_BASE.  In strict mode, or against
    a template that is not precomputed, the score reaches FP_ABS_MIN_SCORE
    and the required score; in lenient mode against a precomputed template
    it reaches 41 and the threshold less 4. *)
Theorem acceptance_passes_every_gate
    (probe template : features) (override : option Z) (strict : bool)
    (p : payload) :
  match_feature_sets probe template override strict = Ok p ->
  accepted p = true ->
  f_success probe = true /\ f_success template = true /\
  FP_MIN_KEYPOINTS_WARN <= f_keypoints probe /\
  reason p = Some "match" /\
  good_matches p = score p /\
  1 <= threshold_used p /\
  threshold_used p + FP_MARGIN_BASE <= required_score p /\
  if strict || negb (get_default (f_is_precomputed template) false)
  then FP_ABS_MIN_SCORE <= score p /\ required_score p <= score p
  else 41 <= score p /\ threshold_used p - 4 <= score p.
Proof.
  unfold match_feature_sets. intros H Hacc.
  repeat (step_run H;
          try (injection H as <-; cbn in Hacc; discriminate Hacc)).
  injection H as <-.
  cbn [accepted score reason good_matches threshold_used required_score
       set_accepted set_reason].
  repeat match goal with
         | Hb : negb _ = false |- _ => apply negb_false_iff in Hb
         end.
  match goal with
  | Hq : probe_quality_ok _ = true |- _ =>
      cbn [probe_quality_ok _base_match_payload] in Hq; apply Z.leb_le in Hq
  end.
  match goal with
  | Ht : compute_threshold _ _ = Ok _ |- _ =>
      apply compute_threshold_positive in Ht
  end.
  match goal with
  | Hm : compute_margin _ = Ok _ |- _ => apply compute_margin_base in Hm
  end.
  match goal with
  | Hg : score_gates _ _ _ _ _ = Ok None |- _ =>
      apply score_gates_accepts in Hg
  end.
  repeat split; try assumption; try lia.
  destruct (strict || negb (get_default (f_is_precomputed template) false));
    lia.
Qed.

End MatcherGates.

Lemma acceptance_passes_every_gate_witness :
  exists p,
    @match_feature_sets default_config Sample.cv Sample.probe Sample.template
      None false = Ok p /\
    reason p = Some "match" /\ 41 <= score p.
Proof.
  destruct (@match_feature_sets default_config Sample.cv Sample.probe
              Sample.template None false) as [p|e] eqn:Hrun;
    [|vm_compute in Hrun; discriminate Hrun].
  exists p. split; [reflexivity|].
  destruct (@acceptance_passes_every_gate default_config Sample.cv
              Sample.probe Sample.template None false p Hrun)
    as (_ & _ & _ & Hreason & _ & _ & _ & Hscore).
  - vm_compute in Hrun. injection Hrun as <-. reflexivity.
  - split; [exact Hreason|]. cbn in Hscore. lia.
Defined.

Section MatcherReturns.
Context {cv : OpenCV}.
Local Existing Instance default_config.

Lemma score_gates_returns (strict ip : bool) (s t r : Z) :
  exists gate, score_gates strict ip s t r = Ok gate.
Proof.
  unfold score_gates. rewrite precomputed_floor_default.
  destruct strict, ip; cbn [mbind res_bind rbind];
    repeat match goal with
           | |- context [?a <? ?b] => destruct (a <? b)
           end; eexists; reflexivity.
Qed.

Lemma count_good_matches_bounds (matches : list (list PyFloat.float)) :
  0 <= count_good_matches matches <= Z.of_nat (length matches).
Proof.
  unfold count_good_matches. split; [lia|].
  apply inj_le. apply length_filter.
Qed.

(** X2. Under the default configuration the Matcher answers and does
    not raise: when the keypoint counts and the threshold override, if any,
    are at most 4000, and the descriptors, when both are present, are arrays
    of at least one dimension that knnMatch accepts, match_feature_sets
    returns a payload. *)
Theorem match_feature_sets_returns
    (probe template : features) (override : option Z) (strict : bool) :
  0 <= f_keypoints probe <= range_bound ->
  0 <= f_keypoints template <= range_bound ->
  (forall o, override = Some o -> o <= range_bound) ->
  (forall dp dt,
      f_descriptors probe = Some dp -> f_descriptors template = Some dt ->
      shape dp <> [] /\ shape dt <> [] /\
      exists matches,
        knnMatch dp dt = Ok matches /\
        Z.of_nat (length matches) < 2 ^ 1023) ->
  exists p, match_feature_sets probe template override strict = Ok p.
Proof.
  intros Hp Ht Ho Hcv. unfold match_feature_sets.
  destruct (f_success probe); cbn [negb]; [|eexists; reflexivity].
  destruct (f_success template); cbn [negb]; [|eexists; reflexivity].
  destruct (f_descriptors probe) as [dp|]; [|eexists; reflexivity].
  destruct (f_descriptors template) as [dt|]; [|eexists; reflexivity].
  destruct (Hcv dp dt eq_refl eq_refl) as (Hdp & Hdt & matches & Hknn & Hlen).
  unfold ndarray_len.
  destruct (shape dp) as [|n tail]; [congruence|].
  destruct (shape dt) as [|n' tail']; [congruence|].
  cbn [mbind res_bind rbind].
  destruct ((Z.of_nat n <? 10) || (Z.of_nat n' <? 10)); [eexists; reflexivity|].
  rewrite Hknn. cbn [mbind res_bind rbind min_keypoints _base_match_payload].
  assert (Hk : 0 <= Z.min (f_keypoints probe) (f_keypoints template)
               <= range_bound) by lia.
  rewrite (compute_threshold_exact _ override Hk).
  cbn [mbind res_bind rbind].
  set (threshold := match override with
                    | Some o => Z.max 1 o
                    | None => _
                    end).
  assert (Hthr : 1 <= threshold <= range_bound).
  { subst threshold. destruct override as [o|].
    - specialize (Ho o eq_refl). unfold range_bound in *. lia.
    - change FP_MIN_BASE with 45.
      assert (55 * Z.min (f_keypoints probe) (f_keypoints template) / 1000
              <= Z.min (f_keypoints probe) (f_keypoints template)).
      { apply Z.div_le_upper_bound; lia. }
      unfold range_bound in *. lia. }
  rewrite (compute_margin_exact threshold) by lia.
  cbn [mbind res_bind rbind].
  destruct (Z.ltb_spec 0 threshold) as [_|Hle]; [|lia].
  pose proof (count_good_matches_bounds matches) as Hscore.
  destruct (int_truediv_ok (count_good_matches matches) threshold)
    as [q Hq]; [lia|lia|].
  rewrite Hq. cbn [mbind res_bind rbind].
  destruct (negb _); [eexists; reflexivity|].
  destruct (score_gates_returns strict
              (get_default (f_is_precomputed template) false)
              (count_good_matches matches) threshold
              (threshold + claimed_margin threshold)) as [gate Hgate].
  rewrite Hgate. cbn [mbind res_bind rbind].
  destruct gate; [eexists; reflexivity|].
  destruct (PyFloat.ltb _ _); eexists; reflexivity.
Qed.

End MatcherReturns.

(** * Further properties of multi-template verification *)

(** [r], at position [i], does not beat [best], at position [bi]: an
    accepted result beats a rejected one, then the higher score wins, then
    the earlier position. *)
Definition not_better (bi : nat) (best : payload) (i : nat) (r : payload) : Prop :=
  (accepted r = true -> accepted best = true) /\
  (accepted r = accepted best ->
   score r < score best \/ (score r = score best /\ (bi <= i)%nat)).

Lemma select_best_invariant (rest : list payload) :
  forall (prefix : list payload) (acc : option (nat * payload)) bi best,
    select_best (length prefix) rest acc = Some (bi, best) ->
    (acc = None -> prefix = []) ->
    (forall b a, acc = Some (b, a) ->
       prefix !! b = Some a /\
       forall j r, prefix !! j = Some r -> not_better b a j r) ->
    (prefix ++ rest) !! bi = Some best /\
    forall j r, (prefix ++ rest) !! j = Some r -> not_better bi best j r.
Proof.
  induction rest as [|x rest IH]; intros prefix acc bi best H Hnone Hsome;
    cbn [select_best] in H.
  - rewrite app_nil_r. subst acc. apply Hsome. reflexivity.
  - replace (prefix ++ x :: rest) with ((prefix ++ [x]) ++ rest)
      by (rewrite <- app_assoc; reflexivity).
    set (acc' := match acc with
                 | Some (b, a) =>
                     if replaces_best x a then Some (length prefix, x)
                     else Some (b, a)
                 | None => Some (length prefix, x)
                 end) in *.
    apply (IH (prefix ++ [x]) acc' bi best); subst acc'.
    + rewrite length_app. cbn [length].
      replace (length prefix + 1)%nat with (S (length prefix)) by lia.
      exact H.
    + destruct acc as [[b a]|]; [destruct (replaces_best x a)|]; discriminate.
    + intros b' a' Hacc'.
      destruct acc as [[b a]|].
      * destruct (Hsome b a eq_refl) as [Hb Hdom].
        assert (Hlt : (b < length prefix)%nat)
          by (apply lookup_lt_is_Some; eexists; exact Hb).
        unfold replaces_best in Hacc'.
        destruct (accepted x) eqn:Hx, (accepted a) eqn:Ha;
          cbn [andb negb] in Hacc';
          destruct (Z.ltb_spec (score a) (score x)) as [Hs|Hs];
          injection Hacc' as <- <-;
          (split;
           [first [apply list_lookup_middle; reflexivity
                  |rewrite lookup_app_l by exact Hlt; exact Hb]|]);
          intros j r Hj;
          (apply lookup_app_Some in Hj as [Hj|[Hge Hj]];
           [pose proof (lookup_lt_Some _ _ _ Hj) as Hjlt;
            destruct (Hdom j r Hj) as [Hd1 Hd2]
           |apply list_lookup_singleton_Some in Hj as [Hj0 <-]]);
          unfold not_better; rewrite ?Hx, ?Ha in *;
          (split; [intros; try reflexivity; try tauto; try congruence|]);
          intros Heq; try discriminate Heq; try lia;
          try (specialize (Hd2 Heq); lia);
          try (destruct (accepted r); [specialize (Hd1 eq_refl)|];
               congruence).
      * rewrite (Hnone eq_refl) in *. injection Hacc' as <- <-.
        cbn [app length]. split; [reflexivity|].
        intros j r Hj. destruct j as [|j]; [|discriminate Hj].
        injection Hj as <-. split; [tauto|]. intros _. right. split; lia.
Qed.

(** X3. The best result of a list is its first maximum: select_best
    returns nothing on the empty list only; otherwise it returns a position
    of the list and the result stored there, and no result of the list beats
    it, where an accepted result beats a rejected one, then the higher score
    wins, then the earlier position. *)
Theorem select_best_is_first_maximum (results : list payload) :
  match select_best 0 results None with
  | None => results = []
  | Some (bi, best) =>
      results !! bi = Some best /\
      forall i r, results !! i = Some r -> not_better bi best i r
  end.
Proof.
  destruct (select_best 0 results None) as [[bi best]|] eqn:H.
  - apply (select_best_invariant results [] None bi best H).
    + reflexivity.
    + intros b a Hacc. discriminate Hacc.
  - destruct results as [|x rest]; [reflexivity|]. exfalso.
    cbn [select_best] in H.
    assert (Hsome : forall l i acc,
              select_best i l (Some acc) <> None).
    { clear. induction l as [|y l IHl]; intros i [b a]; cbn [select_best].
      - discriminate.
      - destruct (replaces_best y a); apply IHl. }
    apply (Hsome _ _ _ H).
Qed.

Section VerificationFacts.
Context {cfg : Config}.

Lemma select_best_lookup (results : list payload) (bi : nat) (best : payload) :
  select_best 0 results None = Some (bi, best) -> results !! bi = Some best.
Proof.
  intros H.
  apply (select_best_invariant results [] None bi best H).
  - reflexivity.
  - intros b a Hacc. discriminate Hacc.
Qed.

Lemma select_best_none (results : list payload) :
  select_best 0 results None = None -> results = [].
Proof.
  destruct results as [|x rest]; [reflexivity|]. intros H. exfalso.
  cbn [select_best] in H.
  assert (Hsome : forall l i acc, select_best i l (Some acc) <> None).
  { clear. induction l as [|y l IHl]; intros i [b a]; cbn [select_best].
    - discriminate.
    - destruct (replaces_best y a); apply IHl. }
  apply (Hsome _ _ _ H).
Qed.

(** X4. The response of the verification agrees with its list of
    results.  The list keeps its length; an accepted response has the reason
    match_found and the results as the workers returned them; the entry at
    the best index is the selected result, its accepted flag is the one of
    the response (it was accepted by its worker when the response accepts)
    and, on a rejection, its reason is the decision reason; every other
    entry is unchanged; without a best index the list is empty and the
    response rejects. *)
Theorem verification_response_consistent (results : list payload)
    (v : verification) :
  decide_verification results = Ok v ->
  length (v_template_results v) = length results /\
  (v_accepted v = true ->
   v_decision_reason v = Some "match_found" /\ v_template_results v = results) /\
  match v_best_template_index v with
  | Present bi =>
      exists original best,
        select_best 0 results None = Some (bi, original) /\
        v_template_results v !! bi = Some best /\
        accepted best = v_accepted v /\
        (v_accepted v = true -> accepted original = true) /\
        (v_accepted v = false -> reason best = v_decision_reason v) /\
        forall i, i <> bi -> v_template_results v !! i = results !! i
  | Absent => results = [] /\ v_accepted v = false
  end.
Proof.
  unfold decide_verification. intros H.
  destruct (select_best 0 results None) as [[bi original]|] eqn:Hsel.
  - pose proof (select_best_lookup results bi original Hsel) as Hbi.
    assert (Hlt : (bi < length results)%nat)
      by (apply lookup_lt_is_Some; eexists; exact Hbi).
    assert (Hrej : forall why ss sf,
              let v' := reject_best why results bi original ss sf in
              length (v_template_results v') = length results /\
              (v_accepted v' = true ->
               v_decision_reason v' = Some "match_found" /\
               v_template_results v' = results) /\
              exists original' best,
                Some (bi, original) = Some (bi, original') /\
                v_template_results v' !! bi = Some best /\
                accepted best = v_accepted v' /\
                (v_accepted v' = true -> accepted original' = true) /\
                (v_accepted v' = false -> reason best = v_decision_reason v') /\
                forall i, i <> bi -> v_template_results v' !! i = results !! i).
    { intros why ss sf. cbn [reject_best v_template_results v_accepted
                             v_decision_reason].
      split; [apply length_insert|]. split; [discriminate|].
      eexists _, _. split; [reflexivity|].
      split; [apply list_lookup_insert_eq; exact Hlt|].
      split; [reflexivity|]. split; [discriminate|].
      split; [reflexivity|].
      intros i Hi. apply list_lookup_insert_ne. congruence. }
    assert (Hkeep : forall why ss sf,
              accepted original = true ->
              let v' := {| v_accepted := true; v_decision_reason := why;
                           v_template_results := results;
                           v_best_template_index := Present bi;
                           v_secondary_support_score := ss;
                           v_secondary_support_floor := sf |} in
              why = Some "match_found" ->
              length (v_template_results v') = length results /\
              (v_accepted v' = true ->
               v_decision_reason v' = Some "match_found" /\
               v_template_results v' = results) /\
              exists original' best,
                Some (bi, original) = Some (bi, original') /\
                v_template_results v' !! bi = Some best /\
                accepted best = v_accepted v' /\
                (v_accepted v' = true -> accepted original' = true) /\
                (v_accepted v' = false -> reason best = v_decision_reason v') /\
                forall i, i <> bi -> v_template_results v' !! i = results !! i).
    { intros why ss sf Hacc v' ->. cbn.
      split; [reflexivity|]. split; [split; reflexivity|].
      exists original, original. split; [reflexivity|].
      split; [exact Hbi|]. split; [exact Hacc|].
      split; [intros _; exact Hacc|]. split; [discriminate|reflexivity]. }
    destruct (accepted original) eqn:Hacc.
    + repeat (step_run H); injection H as <-;
        first [apply Hrej | apply Hkeep; reflexivity].
    + injection H as <-. cbn.
      split; [reflexivity|]. split; [discriminate|].
      exists original, original. split; [reflexivity|].
      split; [exact Hbi|]. split; [exact Hacc|]. split; [discriminate|].
      split; [|reflexivity]. intros _. destruct (reason original); reflexivity.
  - injection H as <-. cbn. split; [reflexivity|]. split; [discriminate|].
    split; [apply select_best_none; exact Hsel|reflexivity].
Qed.

End VerificationFacts.

Section SingleTemplate.
Local Existing Instance default_config.

(** X5. With fewer than two evaluated templates (default configuration)
    an accepted best result is kept exactly when its score reaches the
    required score plus max(5, round(0.10 * required score)); otherwise the
    response rejects with the reason single_template_margin, which is also
    written into the best entry of the results. *)
Theorem single_template_needs_extra_margin
    (results : list payload) (bi : nat) (best_result : payload) :
  select_best 0 results None = Some (bi, best_result) ->
  accepted best_result = true ->
  (length (non_empty_templates results) < 2)%nat ->
  0 <= required_score best_result <= range_bound ->
  let required_plus_margin :=
    required_score best_result
    + Z.max 5 (PyFloat.half_even (required_score best_result) 10) in
  exists v,
    decide_verification results = Ok v /\
    v_accepted v = (required_plus_margin <=? score best_result) /\
    (v_accepted v = false ->
     v_decision_reason v = Some "single_template_margin" /\
     v_template_results v
     = <[bi := set_accepted false
                 (set_reason (Some "single_template_margin") best_result)]>
         results).
Proof.
  intros Hbest Hacc Hcount Hrange required_plus_margin.
  unfold decide_verification. rewrite Hbest, Hacc.
  destruct (Z.leb_spec 2 (Z.of_nat (length (non_empty_templates results))))
    as [Hge|_]; [lia|].
  change FP_SINGLE_TEMPLATE_MARGIN_RATIO with FP_MARGIN_PERCENT.
  rewrite (round_times_margin_percent _ Hrange).
  cbn [mbind res_bind rbind]. change FP_SINGLE_TEMPLATE_MARGIN_MIN with 5.
  fold required_plus_margin.
  rewrite Z.ltb_antisym.
  destruct (required_plus_margin <=? score best_result); cbn [negb].
  - eexists. split; [reflexivity|]. split; [reflexivity|]. discriminate.
  - eexists. split; [reflexivity|]. split; [reflexivity|].
    intros _. split; reflexivity.
Qed.

End SingleTemplate.

Section WorkerFacts.
Context {cfg : Config} {cv : OpenCV} {libs : Libs} {img : Imaging}.

(** What an accepted payload of the Matcher says about the run. *)
Lemma accepted_reason_quality (probe template : features)
    (override : option Z) (strict : bool) (p : payload) :
  match_feature_sets probe template override strict = Ok p ->
  accepted p = true ->
  reason p = Some "match" /\ FP_MIN_KEYPOINTS_WARN <= f_keypoints probe /\
  f_success probe = true /\ f_success template = true.
Proof.
  unfold match_feature_sets. intros H Hacc.
  repeat (step_run H;
          try (injection H as <-; cbn in Hacc; discriminate Hacc)).
  injection H as <-.
  repeat match goal with
         | Hb : negb _ = false |- _ => apply negb_false_iff in Hb
         end.
  match goal with
  | Hq : probe_quality_ok _ = true |- _ =>
      cbn [probe_quality_ok _base_match_payload] in Hq; apply Z.leb_le in Hq
  end.
  repeat split; assumption.
Qed.

(** The payload of a worker, whatever it is, carries the worker's index;
    an accepted one comes out of the Matcher. *)
Lemma worker_payload (idx : nat) (template_data : string)
    (probe_descriptors : option ndarray) (probe_keypoints : Z)
    (threshold_override : option Z) (p : payload) :
  _process_single_template idx template_data probe_descriptors probe_keypoints
    threshold_override = Ok p ->
  template_index p = Present (Z.of_nat idx) /\
  (accepted p = true ->
   template_data <> EmptyString /\
   reason p = Some "match" /\ FP_MIN_KEYPOINTS_WARN <= probe_keypoints).
Proof.
  unfold _process_single_template. intros H.
  destruct (match probe_descriptors with
            | Some d => _
            | None => _
            end) as [probe_des|e] eqn:Hprobe; cbn [mbind res_bind rbind] in H;
    [|discriminate H].
  destruct template_data as [|c rest].
  { injection H as <-. split; [reflexivity|]. cbn. discriminate. }
  set (probe_features := {| f_label := Absent; f_keypoints := probe_keypoints |})
    in H.
  destruct (is_precomputed_template (String c rest)).
  - destruct (negb (f_success (load_precomputed_template (String c rest) _)))
      eqn:Hload.
    + injection H as <-. split; [reflexivity|]. cbn. discriminate.
    + destruct (match_feature_sets probe_features _ threshold_override false)
        as [result|e] eqn:Hrun; cbn [mbind res_bind rbind] in H;
        injection H as <-.
      * split; [reflexivity|]. cbn [accepted worker_result set_is_precomputed
                                     set_template_index reason].
        intros Hacc.
        destruct (accepted_reason_quality _ _ _ _ _ Hrun Hacc)
          as (Hreason & Hwarn & _).
        split; [discriminate|]. split; assumption.
      * split; [reflexivity|]. cbn. discriminate.
  - destruct (prepare_features (String c rest) _ FP_FORCE_BASIC)
      as [template_features|e] eqn:Hprep; cbn [mbind res_bind rbind] in H.
    + destruct (match_feature_sets probe_features template_features
                  threshold_override false)
        as [result|e] eqn:Hrun; cbn [mbind res_bind rbind] in H;
        injection H as <-.
      * split; [reflexivity|]. cbn [accepted worker_result set_is_precomputed
                                     set_template_index reason].
        intros Hacc.
        destruct (accepted_reason_quality _ _ _ _ _ Hrun Hacc)
          as (Hreason & Hwarn & _).
        split; [discriminate|]. split; assumption.
      * split; [reflexivity|]. cbn. discriminate.
    + injection H as <-. split; [reflexivity|]. cbn. discriminate.
Qed.

(** X6. A worker always answers: when the probe descriptors, if any,
    hold a multiple of 128 numbers, _process_single_template returns a
    payload tagged with the index of its template, whatever the template
    is; an empty template gives the reason empty_template; an accepted
    payload has the reason match and a probe of at least
    FP_MIN_KEYPOINTS_WARN keypoints. *)
Theorem worker_always_answers (idx : nat) (template_data : string)
    (probe_descriptors : option ndarray) (probe_keypoints : Z)
    (threshold_override : option Z) :
  (forall d, probe_descriptors = Some d ->
             (length (flat d) mod 128 = 0)%nat) ->
  exists p,
    _process_single_template idx template_data probe_descriptors
      probe_keypoints threshold_override = Ok p /\
    template_index p = Present (Z.of_nat idx) /\
    (template_data = EmptyString ->
     accepted p = false /\ reason p = Some "empty_template") /\
    (accepted p = true ->
     reason p = Some "match" /\ FP_MIN_KEYPOINTS_WARN <= probe_keypoints).
Proof.
  intros Hshape.
  assert (Hreturns : exists p,
             _process_single_template idx template_data probe_descriptors
               probe_keypoints threshold_override = Ok p).
  { unfold _process_single_template.
    assert (Hprobe : exists probe_des,
               match probe_descriptors with
               | Some d =>
                   match flat d with
                   | [] => Ok None
                   | _ => a ← reshape_128 (flat d); Ok (Some a)
                   end
               | None => Ok None
               end = Ok probe_des).
    { destruct probe_descriptors as [d|]; [|eexists; reflexivity].
      specialize (Hshape d eq_refl).
      destruct (flat d) as [|x l] eqn:Hflat; [eexists; reflexivity|].
      unfold reshape_128. rewrite Hshape. cbn. eexists. reflexivity. }
    destruct Hprobe as [probe_des ->]. cbn [mbind res_bind rbind].
    destruct template_data as [|c rest]; [eexists; reflexivity|].
    match goal with
    | |- exists p, match ?attempt with _ => _ end = Ok p =>
        destruct attempt; eexists; reflexivity
    end. }
  destruct Hreturns as [p Hp]. exists p. split; [exact Hp|].
  destruct (worker_payload _ _ _ _ _ _ Hp) as [Htag Hacc].
  split; [exact Htag|]. split.
  - intros ->. unfold _process_single_template in Hp.
    destruct (match probe_descriptors with
              | Some d => _
              | None => _
              end); cbn [mbind res_bind rbind] in Hp; [|discriminate Hp].
    injection Hp as <-. split; reflexivity.
  - intros Hp'. destruct (Hacc Hp') as (_ & Hreason & Hwarn).
    split; assumption.
Qed.

End WorkerFacts.

Section RequestFacts.
Context {cfg : Config} {cv : OpenCV} {libs : Libs} {img : Imaging}.

(** Every stored result is what the loop stores for a finished future. *)
Lemma gather_dict_source (probe_kp : Z) (total : nat) (cancellable : nat -> bool)
    (completed : list (nat * outcome)) :
  forall st idx p,
    template_results_dict (gather probe_kp total cancellable completed st) !! idx
    = Some p ->
    template_results_dict st !! idx = Some p \/
    exists o, (idx, o) ∈ completed /\ p = stored probe_kp idx o.
Proof.
  induction completed as [|[i o] rest IH]; intros st idx p H; cbn [gather] in H.
  - left. exact H.
  - assert (Hstep : forall st',
              template_results_dict st'
              = <[i := stored probe_kp i o]> (template_results_dict st) ->
              template_results_dict st' !! idx = Some p ->
              template_results_dict st !! idx = Some p \/
              exists o', (idx, o') ∈ (i, o) :: rest /\ p = stored probe_kp idx o').
    { intros st' Hdict Hlook. rewrite Hdict in Hlook.
      destruct (decide (i = idx)) as [->|Hne].
      - rewrite lookup_insert_eq in Hlook. injection Hlook as <-.
        right. exists o. split; [apply list_elem_of_here|reflexivity].
      - rewrite lookup_insert_ne in Hlook by exact Hne. left. exact Hlook. }
    assert (Hrest : forall st',
              template_results_dict st'
              = <[i := stored probe_kp i o]> (template_results_dict st) ->
              template_results_dict
                (gather probe_kp total cancellable rest st') !! idx = Some p ->
              template_results_dict st !! idx = Some p \/
              exists o', (idx, o') ∈ (i, o) :: rest /\ p = stored probe_kp idx o').
    { intros st' Hdict Hlook. apply IH in Hlook as [Hlook|(o' & Hin & ->)].
      - apply (Hstep st' Hdict Hlook).
      - right. exists o'. split; [apply list_elem_of_further; exact Hin|reflexivity]. }
    destruct o as [result|message].
    + destruct (is_high_confidence result && (3 <=? total)%nat).
      * refine (Hstep _ _ H). reflexivity.
      * refine (Hrest _ _ H). reflexivity.
    + refine (Hrest _ _ H). reflexivity.
Qed.

(** An accepted verification rests on an accepted best result. *)
Lemma decide_accepts_best (results : list payload) (v : verification) :
  decide_verification results = Ok v -> v_accepted v = true ->
  exists bi best,
    select_best 0 results None = Some (bi, best) /\
    accepted best = true /\ v_best_template_index v = Present bi.
Proof.
  unfold decide_verification. intros H Hacc.
  destruct (select_best 0 results None) as [[bi best]|];
    [|injection H as <-; discriminate Hacc].
  exists bi, best. split; [reflexivity|].
  destruct (accepted best) eqn:Hbest.
  - split; [reflexivity|].
    repeat (step_run H); injection H as <-; reflexivity.
  - injection H as <-. discriminate Hacc.
Qed.

(** The decision keeps the index that every result carries. *)
Lemma decide_keeps_indices (results : list payload) (v : verification)
    (i : nat) (r : payload) :
  decide_verification results = Ok v ->
  v_template_results v !! i = Some r ->
  exists r0, results !! i = Some r0 /\ template_index r = template_index r0.
Proof.
  unfold decide_verification. intros H Hr.
  assert (Hrej : forall why bi best ss sf,
            results !! bi = Some best ->
            v_template_results (reject_best why results bi best ss sf) !! i
            = Some r ->
            exists r0, results !! i = Some r0 /\
                       template_index r = template_index r0).
  { intros why bi best ss sf Hbi Hlook. cbn [reject_best v_template_results] in Hlook.
    destruct (decide (bi = i)) as [->|Hne].
    - rewrite list_lookup_insert_eq in Hlook
        by (apply lookup_lt_is_Some; eexists; exact Hbi).
      injection Hlook as <-. exists best. split; [exact Hbi|reflexivity].
    - rewrite list_lookup_insert_ne in Hlook by exact Hne.
      exists r. split; [exact Hlook|reflexivity]. }
  destruct (select_best 0 results None) as [[bi best]|] eqn:Hsel.
  - pose proof (select_best_lookup results bi best Hsel) as Hbi.
    repeat (step_run H); injection H as <-;
      first [ apply (Hrej _ _ _ _ _ Hbi Hr)
            | exists r; split; [exact Hr|reflexivity] ].
  - injection H as <-. exists r. split; [exact Hr|reflexivity].
Qed.

Lemma ordered_results_length (probe_kp : Z) (total : nat) (st : gathering) :
  length (ordered_results probe_kp total st) = total.
Proof. unfold ordered_results. rewrite length_map, length_seq. reflexivity. Qed.

Lemma decide_keeps_length (results : list payload) (v : verification) :
  decide_verification results = Ok v ->
  length (v_template_results v) = length results.
Proof.
  unfold decide_verification. intros H.
  destruct (select_best 0 results None) as [[bi best]|];
    repeat (step_run H); injection H as <-;
    cbn [reject_best v_template_results]; rewrite ?length_insert; reflexivity.
Qed.

(** The futures of a request: worker [idx] works on template [idx]. *)
Definition futures (templates_b64 : list string) (probe_features : features)
    (threshold_override : option Z) (order : list nat)
    : list (nat * outcome) :=
  omap (fun idx =>
          template_data ← templates_b64 !! idx;
          Some (idx, worker_outcome idx template_data probe_features
                       threshold_override))
       order.

Lemma futures_source (templates_b64 : list string) (probe_features : features)
    (threshold_override : option Z) (order : list nat) (idx : nat) (o : outcome) :
  (idx, o) ∈ futures templates_b64 probe_features threshold_override order ->
  exists template_data,
    templates_b64 !! idx = Some template_data /\
    o = worker_outcome idx template_data probe_features threshold_override.
Proof.
  unfold futures. intros H. apply list_elem_of_omap in H as (i & _ & Hi).
  destruct (templates_b64 !! i) as [template_data|] eqn:Hlook;
    [|discriminate Hi].
  cbn in Hi. injection Hi as <- <-. exists template_data.
  split; [exact Hlook|reflexivity].
Qed.

(** What the request stores at a position carries that position. *)
Lemma stored_future_index (templates_b64 : list string)
    (probe_features : features) (threshold_override : option Z)
    (order : list nat) (idx : nat) (o : outcome) :
  (idx, o) ∈ futures templates_b64 probe_features threshold_override order ->
  template_index (stored (f_keypoints probe_features) idx o)
  = Present (Z.of_nat idx).
Proof.
  intros H. apply futures_source in H as (template_data & _ & ->).
  unfold worker_outcome.
  destruct (_process_single_template idx template_data _ _ _) as [p|e] eqn:Hp.
  - cbn [stored]. apply (worker_payload _ _ _ _ _ _ Hp).
  - reflexivity.
Qed.

(** X7. The results of a verification are in request order: whatever
    the order in which the pool finishes the workers, the response either
    has no results and rejects (the probe failed), or has one result per
    template of the request, the one at position i tagged template_index
    i. *)
Theorem response_results_in_request_order (probe_image_b64 : string)
    (templates_b64 : list string) (threshold_override : option Z)
    (order : list nat) (cancellable : nat -> bool) (v : verification) :
  match_templates_request probe_image_b64 templates_b64 threshold_override
    order cancellable = Ok v ->
  (v_template_results v = [] /\ v_accepted v = false) \/
  (length (v_template_results v) = length templates_b64 /\
   forall i r, v_template_results v !! i = Some r ->
               template_index r = Present (Z.of_nat i)).
Proof.
  unfold match_templates_request. intros H.
  destruct (bool_decide (templates_b64 = [])); [discriminate H|].
  destruct (prepare_features probe_image_b64 "probe" FP_FORCE_BASIC)
    as [probe_features|e]; [|discriminate H].
  fold (futures templates_b64 probe_features threshold_override order) in H.
  unfold match_templates in H.
  destruct (length templates_b64 =? 0)%nat; [discriminate H|].
  destruct (negb (f_success probe_features));
    [injection H as <-; left; split; reflexivity|].
  destruct (negb (FP_MIN_KEYPOINTS_WARN <=? f_keypoints probe_features));
    [injection H as <-; left; split; reflexivity|].
  destruct (decide_verification _) as [v'|e] eqn:Hdecide; [|discriminate H].
  injection H as <-. right. split.
  - rewrite (decide_keeps_length _ _ Hdecide). apply ordered_results_length.
  - intros i r Hr.
    destruct (decide_keeps_indices _ _ _ _ Hdecide Hr) as (r0 & Hr0 & ->).
    unfold ordered_results in Hr0. rewrite list_lookup_fmap in Hr0.
    destruct (seq 0 (length templates_b64) !! i) as [j|] eqn:Hseq;
      [|discriminate Hr0].
    apply lookup_seq in Hseq as [-> _]. cbn in Hr0. injection Hr0 as <-.
    destruct (template_results_dict _ !! i) as [p|] eqn:Hdict; [|reflexivity].
    cbn [default].
    apply gather_dict_source in Hdict as [Hempty|(o & Hin & ->)].
    + cbn in Hempty. rewrite lookup_empty in Hempty. discriminate Hempty.
    + apply (stored_future_index _ _ _ _ _ _ Hin).
Qed.

(** X8. A verification accepts only what a worker matched: when the
    response of /match_templates accepts, the probe was extracted
    successfully with at least FP_MIN_KEYPOINTS_WARN keypoints, the best
    index is a template of the request whose worker finished and returned an
    accepted payload with the reason match, and the decision reason is
    match_found. *)
Theorem verification_accepts_only_matched (probe_image_b64 : string)
    (templates_b64 : list string) (threshold_override : option Z)
    (order : list nat) (cancellable : nat -> bool) (v : verification) :
  match_templates_request probe_image_b64 templates_b64 threshold_override
    order cancellable = Ok v ->
  v_accepted v = true ->
  exists probe_features idx template_data p,
    prepare_features probe_image_b64 "probe" FP_FORCE_BASIC = Ok probe_features /\
    f_success probe_features = true /\
    FP_MIN_KEYPOINTS_WARN <= f_keypoints probe_features /\
    templates_b64 !! idx = Some template_data /\
    idx ∈ order /\
    _process_single_template idx template_data (f_descriptors probe_features)
      (f_keypoints probe_features) threshold_override = Ok p /\
    accepted p = true /\ reason p = Some "match" /\
    v_best_template_index v = Present idx /\
    v_decision_reason v = Some "match_found".
Proof.
  unfold match_templates_request. intros H Hacc.
  destruct (bool_decide (templates_b64 = [])); [discriminate H|].
  destruct (prepare_features probe_image_b64 "probe" FP_FORCE_BASIC)
    as [probe_features|e]; [|discriminate H].
  fold (futures templates_b64 probe_features threshold_override order) in H.
  unfold match_templates in H.
  destruct (length templates_b64 =? 0)%nat; [discriminate H|].
  destruct (f_success probe_features) eqn:Hsuccess; cbn [negb] in H;
    [|injection H as <-; discriminate Hacc].
  destruct (Z.leb_spec FP_MIN_KEYPOINTS_WARN (f_keypoints probe_features))
    as [Hwarn|_]; cbn [negb] in H; [|injection H as <-; discriminate Hacc].
  destruct (decide_verification _) as [v'|e] eqn:Hdecide; [|discriminate H].
  injection H as <-.
  destruct (decide_accepts_best _ _ Hdecide Hacc) as (bi & best & Hsel & Hbest & Hbi).
  pose proof (select_best_lookup _ _ _ Hsel) as Hlook.
  unfold ordered_results in Hlook. rewrite list_lookup_fmap in Hlook.
  destruct (seq 0 (length templates_b64) !! bi) as [j|] eqn:Hseq;
    [|discriminate Hlook].
  apply lookup_seq in Hseq as [-> _]. cbn in Hlook. injection Hlook as Hlook.
  destruct (template_results_dict _ !! bi) as [p|] eqn:Hdict;
    cbn [default] in Hlook; subst best; [|discriminate Hbest].
  apply gather_dict_source in Hdict as [Hempty|(o & Hin & ->)].
  { cbn in Hempty. rewrite lookup_empty in Hempty. discriminate Hempty. }
  assert (Hidx : bi ∈ order).
  { unfold futures in Hin. apply list_elem_of_omap in Hin as (i & Hi & Hsome).
    destruct (templates_b64 !! i); [|discriminate Hsome].
    cbn in Hsome. injection Hsome as <- _. exact Hi. }
  apply futures_source in Hin as (template_data & Htd & ->).
  unfold worker_outcome in Hbest |- *.
  destruct (_process_single_template bi template_data _ _ _) as [p|e] eqn:Hp;
    [|discriminate Hbest].
  cbn [stored] in Hbest.
  destruct (worker_payload _ _ _ _ _ _ Hp) as [_ Hmatch].
  destruct (Hmatch Hbest) as (_ & Hreason & _).
  exists probe_features, bi, template_data, p.
  repeat split; try assumption; try reflexivity.
  clear - Hdecide Hacc. unfold decide_verification in Hdecide.
  repeat (step_run Hdecide); injection Hdecide as <-;
    first [reflexivity | discriminate Hacc].
Qed.

End RequestFacts.

(** * Further properties of the employee index *)

(** A template that the index keeps: successful, with at least one
    descriptor row. *)
Definition usable_template (t : features) : Prop :=
  f_success t = true /\
  exists des n tail, f_descriptors t = Some des /\ shape des = S n :: tail.

(** The three lists of the index describe the same employees, in the same
    order: one record, one embedding row and one id each. *)
Definition aligned (st : index_state) : Prop :=
  Forall2 (fun record id => record !! "employee_id" = Some (PInt id))
          (EMPLOYEE_TEMPLATES st) (EMPLOYEE_IDS st) /\
  exists vectors c,
    EMPLOYEE_VECTORS st = Some vectors /\
    shape vectors = [length (EMPLOYEE_IDS st); c].

Section IndexInvariants.
Context {cfg : Config} {cv : OpenCV} {libs : Libs} {img : Imaging}
        {platform : Platform} {search : Search}.

Lemma load_slot_usable (emp_id : Z) (template_idx : nat)
    (huella_gzip_value huella_png_value : string) (t : features) :
  load_slot emp_id template_idx huella_gzip_value huella_png_value = Ok (Some t) ->
  usable_template t.
Proof.
  unfold load_slot. intros H.
  destruct (is_blank huella_gzip_value && is_blank huella_png_value);
    [discriminate H|].
  set (loaded := if negb (bool_decide (huella_gzip_value = EmptyString)) &&
                    (10 <=? len huella_gzip_value) then _ else _) in H.
  assert (Hloaded : forall t', loaded = Some t' -> f_success t' = true).
  { subst loaded. intros t' Ht'.
    repeat (step_run Ht'); try discriminate Ht'; injection Ht' as <-;
      first [assumption | reflexivity]. }
  destruct loaded as [t_features|]; [|discriminate H].
  specialize (Hloaded t_features eq_refl).
  destruct (f_descriptors t_features) as [des|] eqn:Hdes; [|discriminate H].
  unfold no_rows in H.
  destruct (shape des) as [|n tail] eqn:Hshape;
    cbn [mbind res_bind rbind] in H; [discriminate H|].
  destruct n as [|n]; cbn in H; [discriminate H|].
  injection H as <-. split; [exact Hloaded|].
  exists des, n, tail. split; assumption.
Qed.

Lemma load_slots_usable (row : employee_row) (l : list features) :
  load_slots row = Ok l ->
  (length l <= 4)%nat /\ Forall usable_template l.
Proof.
  unfold load_slots. intros H.
  repeat (step_run H). injection H as <-.
  split.
  - repeat match goal with o : option features |- _ => destruct o end;
      cbn; lia.
  - repeat match goal with
           | Hs : load_slot _ _ _ _ = Ok ?o |- _ =>
               destruct o; [apply load_slot_usable in Hs|clear Hs]
           end; cbn [omap list_omap];
      repeat (apply Forall_cons; split; [assumption|]); apply Forall_nil_2.
Qed.

(** What [descriptors_to_vector] returns is a vector. *)
Lemma descriptors_to_vector_shape (d : option ndarray) (v : ndarray) :
  descriptors_to_vector d = Some v -> exists c, shape v = [c].
Proof.
  unfold descriptors_to_vector. intros H.
  repeat (step_run H); try discriminate H. injection H as <-.
  eexists. reflexivity.
Qed.

(** The records of the rebuild. *)
Definition rebuilt_record (record : gmap string pyval) : Prop :=
  exists emp_id l,
    record = rebuilt_entry emp_id l /\
    (1 <= length l <= 4)%nat /\ Forall usable_template l.

Lemma load_rows_invariant (rows : list employee_row) :
  forall templates vectors employee_ids templates' vectors' employee_ids',
    load_rows rows templates vectors employee_ids
    = Ok (templates', vectors', employee_ids') ->
    Forall2 (fun record id => record !! "employee_id" = Some (PInt id))
            templates employee_ids ->
    length vectors = length employee_ids ->
    Forall (fun v => exists c, shape v = [c]) vectors ->
    Forall rebuilt_record templates ->
    Forall2 (fun record id => record !! "employee_id" = Some (PInt id))
            templates' employee_ids' /\
    length vectors' = length employee_ids' /\
    Forall (fun v => exists c, shape v = [c]) vectors' /\
    Forall rebuilt_record templates' /\
    exists added,
      employee_ids' = employee_ids ++ added /\
      sublist added (map id_empleado rows).
Proof.
  induction rows as [|row rest IH];
    intros templates vectors employee_ids templates' vectors' employee_ids'
      H Hal Hlen Hvec Hrec; cbn [load_rows] in H.
  - injection H as <- <- <-. repeat split; try assumption.
    exists []. rewrite app_nil_r. split; [reflexivity|constructor].
  - destruct (load_slots row) as [l|e] eqn:Hslots;
      cbn [mbind res_bind rbind] in H; [|discriminate H].
    apply load_slots_usable in Hslots as [Hl4 Husable].
    assert (Hskip :
      load_rows rest templates vectors employee_ids
      = Ok (templates', vectors', employee_ids') ->
      Forall2 (fun record id => record !! "employee_id" = Some (PInt id))
              templates' employee_ids' /\
      length vectors' = length employee_ids' /\
      Forall (fun v => exists c, shape v = [c]) vectors' /\
      Forall rebuilt_record templates' /\
      exists added,
        employee_ids' = employee_ids ++ added /\
        sublist added (map id_empleado (row :: rest))).
    { intros Hrest.
      destruct (IH _ _ _ _ _ _ Hrest Hal Hlen Hvec Hrec)
        as (H1 & H2 & H3 & H4 & added & H5 & H6).
      repeat split; try assumption. exists added. split; [exact H5|].
      cbn [map]. apply sublist_cons. exact H6. }
    destruct l as [|t l]; [apply Hskip; exact H|].
    destruct (match vstack (omap f_descriptors (t :: l)) with
              | Ok all_descriptors => descriptors_to_vector (Some all_descriptors)
              | Raise _ => None
              end) as [v|] eqn:Hv; [|apply Hskip; exact H].
    assert (Hshape : exists c, shape v = [c]).
    { destruct (vstack (omap f_descriptors (t :: l))); [|discriminate Hv].
      apply (descriptors_to_vector_shape _ _ Hv). }
    destruct (IH _ _ _ _ _ _ H) as (H1 & H2 & H3 & H4 & added & H5 & H6).
    + apply Forall2_app; [exact Hal|]. constructor; [reflexivity|constructor].
    + rewrite !length_app. cbn [length]. lia.
    + apply Forall_app. split; [exact Hvec|]. constructor; [exact Hshape|constructor].
    + apply Forall_app. split; [exact Hrec|]. constructor; [|constructor].
      exists (id_empleado row), (t :: l). split; [reflexivity|].
      split; [cbn [length] in *; lia|exact Husable].
    + repeat split; try assumption.
      exists (id_empleado row :: added). split.
      * rewrite H5, <- app_assoc. reflexivity.
      * cbn [map]. apply sublist_skip. exact H6.
Qed.

Lemma stack_shape (vectors : list ndarray) (m : ndarray) :
  stack vectors = Ok m ->
  Forall (fun v => exists c, shape v = [c]) vectors ->
  exists c, shape m = [length vectors; c].
Proof.
  unfold stack. intros H Hvec.
  destruct vectors as [|v rest]; [discriminate H|].
  destruct (forallb _ _); [|discriminate H]. injection H as <-.
  inversion Hvec as [|? ? [c Hc] _]; subst. exists c. cbn [shape].
  rewrite Hc. reflexivity.
Qed.

(** X9. The outcome of a rebuild.  On success the index is ready, its
    three lists are aligned (record, embedding row and id of the same
    employee at the same position), it is not empty, every record holds
    between one and four usable templates, the ids are a subsequence of the
    ids of the rows read, and the FAISS index holds the embeddings when
    FAISS is available.  On failure the index is not ready; with the
    database driver it is empty, without it the lists are untouched. *)
Theorem rebuild_gives_aligned_index (db : database) (st st' : index_state)
    (ok : bool) :
  rebuild_employee_index db st = (st', ok) ->
  if ok then
    EMPLOYEE_INDEX_READY st' = true /\ aligned st' /\
    EMPLOYEE_IDS st' <> [] /\
    Forall rebuilt_record (EMPLOYEE_TEMPLATES st') /\
    (exists rows, active_employees db = Ok rows /\
                  sublist (EMPLOYEE_IDS st') (map id_empleado rows)) /\
    FAISS_INDEX st' = (if FAISS_AVAILABLE then EMPLOYEE_VECTORS st' else None)
  else
    EMPLOYEE_INDEX_READY st' = false /\
    (if PSYCOPG2_AVAILABLE then st' = empty_index
     else EMPLOYEE_IDS st' = EMPLOYEE_IDS st /\
          EMPLOYEE_TEMPLATES st' = EMPLOYEE_TEMPLATES st /\
          EMPLOYEE_VECTORS st' = EMPLOYEE_VECTORS st /\
          FAISS_INDEX st' = FAISS_INDEX st).
Proof.
  unfold rebuild_employee_index. intros H.
  destruct PSYCOPG2_AVAILABLE; cbn [negb] in H.
  - destruct (rebuild_body db) as [[st'' ok']|e] eqn:Hbody.
    + injection H as -> ->. unfold rebuild_body in Hbody.
      destruct (active_employees db) as [rows|e] eqn:Hrows;
        cbn [mbind res_bind rbind] in Hbody; [|discriminate Hbody].
      destruct (load_rows rows [] [] []) as [[[templates vectors] ids]|e]
        eqn:Hload; cbn [mbind res_bind rbind] in Hbody; [|discriminate Hbody].
      destruct (load_rows_invariant rows [] [] [] _ _ _ Hload)
        as (Hal & Hlen & Hvec & Hrec & added & Hids & Hsub);
        try constructor; try reflexivity.
      cbn [app] in Hids. subst added.
      destruct vectors as [|v vectors].
      * injection Hbody as <- <-. split; reflexivity.
      * destruct (stack (v :: vectors)) as [m|e] eqn:Hstack;
          cbn [mbind res_bind rbind] in Hbody; [|discriminate Hbody].
        injection Hbody as <- <-.
        cbn [EMPLOYEE_INDEX_READY EMPLOYEE_IDS EMPLOYEE_TEMPLATES
             EMPLOYEE_VECTORS FAISS_INDEX].
        split; [reflexivity|]. split.
        { split; [exact Hal|].
          destruct (stack_shape _ _ Hstack Hvec) as [c Hc].
          exists m, c. split; [reflexivity|].
          cbn [EMPLOYEE_IDS]. rewrite <- Hlen. exact Hc. }
        split.
        { intros ->. discriminate Hlen. }
        split; [exact Hrec|]. split; [|reflexivity].
        exists rows. split; [reflexivity|exact Hsub].
    + injection H as <- <-. split; reflexivity.
  - injection H as <- <-. cbn. repeat split.
Qed.

End IndexInvariants.

Section AddFacts.
Context {cfg : Config} {cv : OpenCV} {libs : Libs} {img : Imaging}
        {platform : Platform} {search : Search}.

(** Appending a row to a matrix of as many columns adds one row. *)
Lemma append_row_shape (m vec m' : ndarray) (n c : nat) :
  shape m = [n; c] ->
  append_row (Some m) vec = Ok m' ->
  shape m' = [S n; c].
Proof.
  unfold append_row, vstack, vstack_from, atleast_2d. intros Hm H.
  rewrite Hm in H. cbn in H. rewrite Hm in H.
  destruct (bool_decide ([c] = [c])); [|discriminate H].
  destruct (bool_decide ([length (flat vec)] = [c])); [|discriminate H].
  injection H as <-. cbn [shape]. f_equal. lia.
Qed.

(** The outcomes of the body of the incremental add. *)
Lemma add_body_outcome (db : database) (employee_id : Z)
    (st st' : index_state) (ok : bool) :
  add_body db employee_id st = Ok (Some (st', ok)) ->
  exists t_features vec vectors,
    EMPLOYEE_IDS st' = EMPLOYEE_IDS st ++ [employee_id] /\
    EMPLOYEE_TEMPLATES st'
    = EMPLOYEE_TEMPLATES st ++ [synced_entry employee_id t_features] /\
    EMPLOYEE_INDEX_READY st' = EMPLOYEE_INDEX_READY st /\
    EMPLOYEE_VECTORS st' = Some vectors /\
    append_row (EMPLOYEE_VECTORS st) vec = Ok vectors /\
    (ok = false ->
     FAISS_AVAILABLE = true /\ is_Some (FAISS_INDEX st) /\
     FAISS_INDEX st' = FAISS_INDEX st).
Proof.
  unfold add_body. intros H.
  repeat (step_run H); try discriminate H; injection H as <- <-;
    match goal with
    | Ha : append_row (EMPLOYEE_VECTORS st) ?vec = Ok ?vectors,
      Hf : _ = Some ?t |- _ =>
        exists t, vec, vectors
    end;
    cbn [EMPLOYEE_IDS EMPLOYEE_TEMPLATES EMPLOYEE_INDEX_READY
         EMPLOYEE_VECTORS FAISS_INDEX];
    repeat (split; [first [reflexivity | assumption]|]);
    try discriminate.
  split; [eexists; reflexivity|reflexivity].
Qed.

(** X10. A successful incremental add leaves the employee in the
    index: if the id was there already nothing changes; otherwise the id and
    one record are appended and an aligned index stays aligned.  Adding the
    same employee again succeeds, changes nothing and does not depend on the
    store. *)
Theorem successful_add_is_idempotent (db : database) (employee_id : Z)
    (st st' : index_state) :
  add_employee_to_index db employee_id st = (st', true) ->
  employee_id ∈ EMPLOYEE_IDS st' /\
  (employee_id ∈ EMPLOYEE_IDS st -> st' = st) /\
  (employee_id ∉ EMPLOYEE_IDS st ->
   EMPLOYEE_IDS st' = EMPLOYEE_IDS st ++ [employee_id] /\
   length (EMPLOYEE_TEMPLATES st') = S (length (EMPLOYEE_TEMPLATES st)) /\
   (aligned st -> aligned st')) /\
  forall db', add_employee_to_index db' employee_id st' = (st', true).
Proof.
  unfold add_employee_to_index. intros H.
  destruct PSYCOPG2_AVAILABLE; cbn [negb] in H |- *; [|discriminate H].
  destruct (bool_decide_reflect (employee_id ∈ EMPLOYEE_IDS st)) as [Hin|Hnew].
  - injection H as <-.
    split; [exact Hin|]. split; [reflexivity|]. split; [contradiction|].
    intros db'. rewrite bool_decide_eq_true_2 by exact Hin. reflexivity.
  - destruct (add_body db employee_id st) as [[[st'' ok]|]|e] eqn:Hbody;
      try discriminate H.
    injection H as -> ->.
    destruct (add_body_outcome _ _ _ _ _ Hbody)
      as (t_features & vec & vectors & Hids & Htemplates & _ & Hvectors
          & Happend & _).
    assert (Hpresent : employee_id ∈ EMPLOYEE_IDS st').
    { rewrite Hids. apply elem_of_app. right. apply list_elem_of_here. }
    split; [exact Hpresent|]. split; [contradiction|]. split.
    + intros _. split; [exact Hids|]. split.
      * rewrite Htemplates, length_app. cbn [length]. lia.
      * intros [Hal (m & c' & Hm & Hshape)]. split.
        -- rewrite Hids, Htemplates. apply Forall2_app; [exact Hal|].
           constructor; [reflexivity|constructor].
        -- rewrite Hm in Happend.
           exists vectors, c'. split; [exact Hvectors|].
           rewrite (append_row_shape _ _ _ _ _ Hshape Happend).
           rewrite Hids, length_app. cbn [length]. f_equal. lia.
    + intros db'. rewrite bool_decide_eq_true_2 by exact Hpresent. reflexivity.
Qed.

(** X11. A failed incremental add leaves the index as it was, with one
    exception: when FAISS is available and its index exists, the failure may
    come from the FAISS add, after the id was appended to the lists. *)
Theorem failed_add_keeps_index (db : database) (employee_id : Z)
    (st st' : index_state) :
  add_employee_to_index db employee_id st = (st', false) ->
  st' = st \/
  (FAISS_AVAILABLE = true /\ is_Some (FAISS_INDEX st) /\
   FAISS_INDEX st' = FAISS_INDEX st /\
   EMPLOYEE_IDS st' = EMPLOYEE_IDS st ++ [employee_id]).
Proof.
  unfold add_employee_to_index. intros H.
  destruct (negb PSYCOPG2_AVAILABLE); [injection H as <-; left; reflexivity|].
  destruct (bool_decide (employee_id ∈ EMPLOYEE_IDS st)); [discriminate H|].
  destruct (add_body db employee_id st) as [[[st'' ok]|]|e] eqn:Hbody;
    try (injection H as <-; left; reflexivity).
  injection H as -> ->.
  destruct (add_body_outcome _ _ _ _ _ Hbody)
    as (t_features & vec & vectors & Hids & _ & _ & _ & _ & Hfaiss).
  destruct (Hfaiss eq_refl) as (Havailable & Hindex & Hsame).
  right. repeat split; assumption.
Qed.

End AddFacts.

(** * Further properties of identification *)

Section GateFacts.
Context {cfg : Config}.

(** X12. The gates of the identification only reject.  They keep the
    score and the employee of the best result and leave a rejected result
    unchanged; a result they accept is the best result unchanged, it wins by
    at least the minimum margin over the best other employee (or there is at
    most one candidate), its score reaches the absolute minimum, and, when
    the employee has three or more template scores, at least two of them
    reach 60% of the best. *)
Theorem gates_only_reject (num_employees : Z) (candidate_results : list payload)
    (best_result final : payload) :
  apply_gates num_employees candidate_results best_result = Ok final ->
  score final = score best_result /\
  employee_id final = employee_id best_result /\
  (accepted best_result = false -> final = best_result) /\
  (accepted final = true ->
   final = best_result /\
   ((length candidate_results <= 1)%nat \/
    min_margin num_employees
    <= score best_result
       - second_best_score (employee_id best_result) candidate_results) /\
   (if 0 <? FP_ABS_MIN_SCORE then FP_ABS_MIN_SCORE else 45)
   <= score best_result /\
   ((length (get_default (all_template_scores best_result) []) < 3)%nat \/
    2 <= reaching_templates best_result)).
Proof.
  unfold apply_gates. intros H.
  destruct (accepted best_result) eqn:Hacc.
  - cbn zeta in H.
    set (margin := score best_result
                   - second_best_score (employee_id best_result)
                       candidate_results) in *.
    set (after_margin :=
           if (1 <? Z.of_nat (length candidate_results)) &&
              (margin <? min_margin num_employees)
           then reject _ best_result else best_result) in *.
    set (floor := if 0 <? FP_ABS_MIN_SCORE then FP_ABS_MIN_SCORE else 45) in *.
    set (after_floor :=
           if score best_result <? floor
           then reject _ after_margin else after_margin) in *.
    assert (Hmargin : score after_margin = score best_result /\
                      employee_id after_margin = employee_id best_result /\
                      (accepted after_margin = true ->
                       after_margin = best_result /\
                       ((length candidate_results <= 1)%nat \/
                        min_margin num_employees <= margin))).
    { subst after_margin.
      destruct (Z.ltb_spec 1 (Z.of_nat (length candidate_results)));
        destruct (Z.ltb_spec margin (min_margin num_employees)); cbn [andb];
        (split; [reflexivity|]); (split; [reflexivity|]);
        try (cbn; discriminate); intros _; (split; [reflexivity|]); lia. }
    assert (Hfloor : score after_floor = score best_result /\
                     employee_id after_floor = employee_id best_result /\
                     (accepted after_floor = true ->
                      after_floor = best_result /\
                      ((length candidate_results <= 1)%nat \/
                       min_margin num_employees <= margin) /\
                      floor <= score best_result)).
    { destruct Hmargin as (Hs & He & Ha). subst after_floor.
      destruct (Z.ltb_spec (score best_result) floor).
      - split; [exact Hs|]. split; [exact He|]. cbn. discriminate.
      - split; [exact Hs|]. split; [exact He|]. intros Hacc'.
        destruct (Ha Hacc') as [-> Hm]. repeat split; assumption. }
    clearbody after_floor. destruct Hfloor as (Hs & He & Ha).
    unfold reaching_templates.
    destruct (Z.leb_spec 3 (Z.of_nat (length
                (get_default (all_template_scores best_result) []))))
      as [Hmany|Hfew].
    + unfold PyFloat.of_int in H.
      destruct (PyFloat.is_finite (PyFloat.of_Z (score best_result)));
        cbn [mbind res_bind rbind] in H; [|discriminate H].
      match type of H with
      | (if ?k <? 2 then _ else _) = _ => destruct (Z.ltb_spec k 2)
      end; injection H as <-.
      * split; [exact Hs|]. split; [exact He|]. split; [discriminate|].
        cbn. discriminate.
      * split; [exact Hs|]. split; [exact He|]. split; [discriminate|].
        intros Hacc'. destruct (Ha Hacc') as (-> & Hm & Hf).
        repeat split; try assumption. right. assumption.
    + injection H as <-.
      split; [exact Hs|]. split; [exact He|]. split; [discriminate|].
      intros Hacc'. destruct (Ha Hacc') as (-> & Hm & Hf).
      repeat split; try assumption. left. lia.
  - injection H as <-. split; [reflexivity|]. split; [reflexivity|].
    split; [reflexivity|]. intros Hacc'. congruence.
Qed.

End GateFacts.

Section IdentifyFacts.
Context {cfg : Config} {cv : OpenCV} {libs : Libs} {img : Imaging}
        {platform : Platform} {search : Search}.

(** The result of a shortlisted position carries the id of a record of the
    index. *)
Lemma evaluate_candidate_employee (st : index_state) (probe_features : features)
    (threshold_override : option Z) (idx : Z) (r : payload) :
  evaluate_candidate st probe_features threshold_override idx = Ok r ->
  exists record emp_id,
    record ∈ EMPLOYEE_TEMPLATES st /\
    record !! "employee_id" = Some (PInt emp_id) /\
    employee_id r = Present emp_id.
Proof.
  unfold evaluate_candidate. intros H.
  destruct (match (if idx <? 0
                   then rev (EMPLOYEE_TEMPLATES st) !! Z.to_nat (- idx - 1)
                   else EMPLOYEE_TEMPLATES st !! Z.to_nat idx) with
            | Some d => Ok d
            | None => Raise IndexError
            end) as [record|e] eqn:Hrecord; cbn [mbind res_bind rbind] in H;
    [|discriminate H].
  assert (Hin : record ∈ EMPLOYEE_TEMPLATES st).
  { destruct (idx <? 0).
    - destruct (rev (EMPLOYEE_TEMPLATES st) !! Z.to_nat (- idx - 1)) eqn:Hl;
        [|discriminate Hrecord]. injection Hrecord as ->.
      apply list_elem_of_lookup_2 in Hl. apply list_elem_of_In in Hl.
      apply list_elem_of_In. apply in_rev. exact Hl.
    - destruct (EMPLOYEE_TEMPLATES st !! Z.to_nat idx) eqn:Hl;
        [|discriminate Hrecord]. injection Hrecord as ->.
      apply list_elem_of_lookup_2 in Hl. exact Hl. }
  unfold get_item in H.
  destruct (record !! "employee_id") as [emp|] eqn:Hemp;
    cbn [mbind res_bind rbind] in H; [|discriminate H].
  repeat (step_run H); try discriminate H. injection H as <-.
  exists record. eexists. split; [exact Hin|]. split; [exact Hemp|reflexivity].
Qed.

Lemma evaluate_candidates_employee (st : index_state) (probe_features : features)
    (threshold_override : option Z) (candidate_indices : list Z) :
  forall results,
    evaluate_candidates st probe_features threshold_override candidate_indices
    = Ok results ->
    Forall (fun r => exists record emp_id,
                record ∈ EMPLOYEE_TEMPLATES st /\
                record !! "employee_id" = Some (PInt emp_id) /\
                employee_id r = Present emp_id) results.
Proof.
  induction candidate_indices as [|idx rest IH]; intros results H;
    cbn [evaluate_candidates] in H.
  - injection H as <-. constructor.
  - repeat (step_run H). injection H as <-. constructor.
    + eapply evaluate_candidate_employee; eassumption.
    + apply IH. reflexivity.
Qed.

(** What the gates let through is the best result, at or above the floor. *)
Lemma apply_gates_accepted (num_employees : Z) (candidate_results : list payload)
    (best_result final : payload) :
  apply_gates num_employees candidate_results best_result = Ok final ->
  accepted final = true ->
  final = best_result /\
  (if 0 <? FP_ABS_MIN_SCORE then FP_ABS_MIN_SCORE else 45) <= score best_result.
Proof.
  unfold apply_gates. intros H Hacc.
  destruct (accepted best_result) eqn:Hbest;
    [|injection H as <-; congruence].
  cbv zeta in H.
  set (floor := if 0 <? FP_ABS_MIN_SCORE then FP_ABS_MIN_SCORE else 45) in *.
  destruct ((1 <? Z.of_nat (length candidate_results)) && _);
    destruct (Z.ltb_spec (score best_result) floor);
    destruct (3 <=? _);
    try (unfold PyFloat.of_int in H;
         destruct (PyFloat.is_finite _); cbn [mbind res_bind rbind] in H;
         [|discriminate H];
         destruct (_ <? 2));
    injection H as <-; cbn in Hacc; try discriminate Hacc;
    (split; [reflexivity|assumption]).
Qed.

(** X13. The answer of an identification.  A rejection names no
    employee.  A match has the reason match_found, a best score of at least
    the absolute minimum (FP_ABS_MIN_SCORE, or 45 when that is not
    positive), and names an employee, who is one of the ids of the index
    when the index is aligned. *)
Theorem identification_names_indexed_employee (st : index_state)
    (probe_image_b64 : string) (max_candidates threshold_override : option Z)
    (answer : identification) :
  identify_in_index st probe_image_b64 max_candidates threshold_override
  = Ok answer ->
  (matched answer = false -> id_employee_id answer = None) /\
  (matched answer = true ->
   decision_reason answer = Some "match_found" /\
   (exists s,
       best_score answer = Present s /\
       (if 0 <? FP_ABS_MIN_SCORE then FP_ABS_MIN_SCORE else 45) <= s) /\
   exists employee,
     id_employee_id answer = Some employee /\
     (aligned st -> employee ∈ EMPLOYEE_IDS st)).
Proof.
  intros H. unfold identify_in_index in H.
  repeat (step_run H); try discriminate H;
    try (injection H as <-; split; [reflexivity|discriminate]).
  injection H as <-. cbn [matched id_employee_id decision_reason best_score].
  split; [intros ->; reflexivity|]. intros Hmatched. rewrite Hmatched.
  split; [reflexivity|].
  match goal with
  | Hgates : apply_gates _ _ _ = Ok _ |- _ =>
      destruct (apply_gates_accepted _ _ _ _ Hgates Hmatched) as [-> Hfloor]
  end.
  split; [eexists; split; [reflexivity|exact Hfloor]|].
  match goal with
  | Hsel : select_best 0 _ None = Some (_, ?best) |- _ =>
      apply select_best_lookup in Hsel; apply list_elem_of_lookup_2 in Hsel;
      rename Hsel into Hbest
  end.
  match goal with
  | Hev : evaluate_candidates _ _ _ _ = Ok _ |- _ =>
      apply evaluate_candidates_employee in Hev;
      rewrite Forall_forall in Hev;
      destruct (Hev _ Hbest) as (record & emp_id & Hin & Hrecord & Hemp)
  end.
  rewrite Hemp. exists emp_id. split; [reflexivity|].
  intros [Hal _].
  apply list_elem_of_lookup_1 in Hin as [i Hi].
  destruct (Forall2_lookup_l _ _ _ _ _ Hal Hi) as (employee & Hid & Hkey).
  rewrite Hrecord in Hkey. injection Hkey as ->.
  apply (list_elem_of_lookup_2 _ _ _ Hid).
Qed.

End IdentifyFacts.

(** * Further properties of the template codec *)

Section LoadFacts.
Context {libs : Libs} {laws : LibsLaws} {cfg : Config}.

(** Decoding what the encoder made of a template, as long as the decoder's
    length guard lets it through. *)
Lemma deserialize_encoded (mtime : Z) (keypoints : list keypoint)
    (descriptors : ndarray) (n c : nat) (enhancement_method : string)
    (roi_shape : option (Z * Z)) :
  all_valid keypoints ->
  shape descriptors = [n; c] -> (1 <= n)%nat ->
  length (flat descriptors) = (n * c)%nat ->
  all_f32 (flat descriptors) ->
  let encoded :=
    Base64.b64encode
      (gzip_compress mtime
         (json_dumps (template_data keypoints descriptors enhancement_method
                        roi_shape))) in
  100 <= len encoded ->
  deserialize_keypoints_descriptors encoded
  = Some (keypoints, descriptors,
          {| md_method := JStr enhancement_method;
             md_kp_count := JInt (Z.of_nat (length keypoints));
             md_roi_w := Some (match roi_shape with
                               | Some (_, w) => JInt w
                               | None => JNull
                               end);
             md_roi_h := Some (match roi_shape with
                               | Some (h, _) => JInt h
                               | None => JNull
                               end) |}).
Proof.
  intros Hkp Hshape Hn Hlen Hdes encoded Hlong.
  unfold deserialize_keypoints_descriptors.
  destruct (Z.ltb_spec (len encoded) 100) as [Hshort|_]; [lia|].
  subst encoded.
  rewrite Base64.b64decode_b64encode. cbn [mbind option_bind].
  rewrite gzip_decompress_compress. cbn [mbind option_bind].
  rewrite json_loads_dumps by (apply json_wf_template_data; assumption).
  cbn [mbind option_bind].
  destruct descriptors as [sh elements]. cbn [shape flat] in *. subst sh.
  unfold template_data at 1 2 3. cbn [shape flat].
  change (contains_key "kpts" (JObj ?m)) with (Some true).
  cbn -[tolist np_array mapM json_of_keypoint keypoint_of_json map length].
  rewrite (mapM_map_Some json_of_keypoint keypoint_of_json)
    by (eapply Forall_impl; [exact Hkp|]; intros x Hx;
        apply keypoint_round_trip; exact Hx).
  cbn -[tolist np_array length].
  rewrite np_array_tolist by assumption.
  reflexivity.
Qed.

(** The detector accepts what the encoder made, under the same guard. *)
Lemma encoded_is_precomputed (mtime : Z) (keypoints : list keypoint)
    (descriptors : ndarray) (enhancement_method : string)
    (roi_shape : option (Z * Z)) :
  all_valid keypoints -> all_f32 (flat descriptors) ->
  let encoded :=
    Base64.b64encode
      (gzip_compress mtime
         (json_dumps (template_data keypoints descriptors enhancement_method
                        roi_shape))) in
  100 <= len encoded ->
  is_precomputed_template encoded = true.
Proof.
  intros Hkp Hdes encoded Hlong. unfold is_precomputed_template.
  destruct (Z.ltb_spec (len encoded) 100) as [Hshort|_]; [lia|].
  subst encoded. rewrite b64encode_gzip.
  rewrite valid_template_json_encoded by assumption.
  reflexivity.
Qed.

(** X14. Loading what the encoder wrote, for json and gzip libraries
    that keep their contracts: for valid keypoints and a float32 matrix of
    descriptors, a serialized template of at least 100 characters loads with
    the same keypoint count and descriptors, marked precomputed, with the
    enhancement method and the ROI shape in its metadata; it is usable
    (success) exactly when it has at least 10 keypoints, and reports
    insufficient_features otherwise. *)
Theorem load_serialized_template (mtime : Z) (keypoints : list keypoint)
    (descriptors : ndarray) (n c : nat) (enhancement_method : string)
    (roi_shape : option (Z * Z)) (encoded label : string) :
  all_valid keypoints ->
  shape descriptors = [n; c] -> (1 <= n)%nat ->
  length (flat descriptors) = (n * c)%nat ->
  all_f32 (flat descriptors) ->
  serialize_keypoints_descriptors mtime (Some keypoints) (Some descriptors)
    enhancement_method roi_shape = Some encoded ->
  100 <= len encoded ->
  let loaded := load_precomputed_template encoded label in
  f_keypoints loaded = Z.of_nat (length keypoints) /\
  f_descriptors loaded = Some descriptors /\
  f_success loaded = (10 <=? Z.of_nat (length keypoints)) /\
  f_is_precomputed loaded = Present true /\
  f_error loaded
  = Present (if 10 <=? Z.of_nat (length keypoints) then None
             else Some "insufficient_features") /\
  exists md,
    f_metadata loaded = Present md /\
    md_method md = JStr enhancement_method /\
    md_roi_h md = Some (match roi_shape with
                        | Some (h, _) => JInt h
                        | None => JNull
                        end) /\
    md_roi_w md = Some (match roi_shape with
                        | Some (_, w) => JInt w
                        | None => JNull
                        end).
Proof.
  intros Hkp Hshape Hn Hlen Hdes Henc Hlong loaded. subst loaded.
  unfold serialize_keypoints_descriptors in Henc.
  destruct keypoints as [|kp kps]; [discriminate Henc|].
  injection Henc as <-. unfold load_precomputed_template.
  rewrite (deserialize_encoded mtime (kp :: kps) descriptors n c) by assumption.
  cbn [f_keypoints f_descriptors f_success f_is_precomputed f_error f_metadata].
  repeat split. eexists. repeat split.
Qed.

End LoadFacts.

Section LoadGuards.
Context {libs : Libs} {cfg : Config} {cv : OpenCV}.

(** X15. Only a decodable template can match: when the Matcher accepts
    a probe against load_precomputed_template of a string, the string has at
    least 100 characters and deserializes to at least 10 keypoints, whose
    number is the template_keypoints of the result. *)
Theorem only_decodable_templates_match (b64_compressed_json label : string)
    (probe_features : features) (threshold_override : option Z)
    (strict : bool) (p : payload) :
  match_feature_sets probe_features
    (load_precomputed_template b64_compressed_json label)
    threshold_override strict = Ok p ->
  accepted p = true ->
  100 <= len b64_compressed_json /\
  exists keypoints descriptors md,
    deserialize_keypoints_descriptors b64_compressed_json
    = Some (keypoints, descriptors, md) /\
    (10 <= length keypoints)%nat /\
    template_keypoints p = Z.of_nat (length keypoints).
Proof.
  intros Hrun Hacc.
  destruct (accepted_reason_quality _ _ _ _ _ Hrun Hacc)
    as (_ & _ & _ & Hsuccess).
  assert (Hkp : template_keypoints p
                = f_keypoints (load_precomputed_template b64_compressed_json
                                 label)).
  { clear Hsuccess. unfold match_feature_sets in Hrun.
    repeat (step_run Hrun); injection Hrun as <-; reflexivity. }
  unfold load_precomputed_template in Hsuccess, Hkp.
  destruct (deserialize_keypoints_descriptors b64_compressed_json)
    as [[[keypoints descriptors] md]|] eqn:Hdecode;
    [|discriminate Hsuccess].
  cbn [f_success f_keypoints] in Hsuccess, Hkp. apply Z.leb_le in Hsuccess.
  split.
  - unfold deserialize_keypoints_descriptors in Hdecode.
    destruct (Z.ltb_spec (len b64_compressed_json) 100) as [Hshort|Hlong];
      [discriminate Hdecode|exact Hlong].
  - exists keypoints, descriptors, md. split; [reflexivity|].
    split; [lia|exact Hkp].
Qed.

End LoadGuards.

(** * Properties of image decoding *)

Fixpoint all_chars (P : ascii -> bool) (s : string) : bool :=
  match s with
  | EmptyString => true
  | String c rest => P c && all_chars P rest
  end.

(** A character that the cleaning leaves alone. *)
Definition plain (c : ascii) : bool :=
  negb (is_space c) && negb (Ascii.eqb c ","%char).

(** A line break or a blank: what the cleaning removes anywhere. *)
Definition removable (c : ascii) : bool :=
  Ascii.eqb c (ascii_of_nat 10) || Ascii.eqb c (ascii_of_nat 13) ||
  Ascii.eqb c " "%char.

Definition remove_breaks (s : string) : string :=
  remove_char " "%char
    (remove_char (ascii_of_nat 13) (remove_char (ascii_of_nat 10) s)).

Lemma b2a_plain (x : Base64.sextet) : plain (Base64.b2a x) = true.
Proof. destruct x as [[] [] [] [] [] []]; vm_compute; reflexivity. Qed.

Lemma b2a_not_removable (x : Base64.sextet) :
  removable (Base64.b2a x) = false.
Proof. destruct x as [[] [] [] [] [] []]; vm_compute; reflexivity. Qed.

#[local] Opaque Base64.b2a.

Lemma b64encode_plain (s : string) : all_chars plain (Base64.b64encode s) = true.
Proof.
  induction s as [|a|a b|a b c rest IH] using Base64.string_ind3.
  - reflexivity.
  - destruct a as [a0 a1 a2 a3 a4 a5 a6 a7]. cbn.
    rewrite !b2a_plain. reflexivity.
  - destruct a as [a0 a1 a2 a3 a4 a5 a6 a7], b as [b0 b1 b2 b3 b4 b5 b6 b7].
    cbn. rewrite !b2a_plain. reflexivity.
  - destruct a as [a0 a1 a2 a3 a4 a5 a6 a7], b as [b0 b1 b2 b3 b4 b5 b6 b7],
      c as [c0 c1 c2 c3 c4 c5 c6 c7].
    cbn. rewrite !b2a_plain, IH. reflexivity.
Qed.

Lemma b64encode_length (s : string) :
  (String.length (Base64.b64encode s) mod 4 = 0)%nat.
Proof.
  induction s as [|a|a b|a b c rest IH] using Base64.string_ind3.
  - reflexivity.
  - destruct a as [a0 a1 a2 a3 a4 a5 a6 a7]. reflexivity.
  - destruct a as [a0 a1 a2 a3 a4 a5 a6 a7], b as [b0 b1 b2 b3 b4 b5 b6 b7].
    reflexivity.
  - destruct a as [a0 a1 a2 a3 a4 a5 a6 a7], b as [b0 b1 b2 b3 b4 b5 b6 b7],
      c as [c0 c1 c2 c3 c4 c5 c6 c7].
    cbn [Base64.b64encode Base64.quad String.length].
    replace (S (S (S (S (String.length (Base64.b64encode rest))))))
      with (String.length (Base64.b64encode rest) + 1 * 4)%nat by lia.
    rewrite Nat.Div0.mod_add. exact IH.
Qed.

(** The padding step of the cleaning. *)
Definition pad4 (s : string) : string :=
  let padding := (4 - String.length s mod 4)%nat in
  if (padding =? 4)%nat then s else (s ++ pads padding)%string.

Lemma pad4_block (a b c d : ascii) (s : string) :
  pad4 (String a (String b (String c (String d s))))
  = String a (String b (String c (String d (pad4 s)))).
Proof.
  unfold pad4. cbn [String.length].
  replace (S (S (S (S (String.length s)))))
    with (String.length s + 1 * 4)%nat by lia.
  rewrite Nat.Div0.mod_add.
  destruct (4 - String.length s mod 4 =? 4)%nat; reflexivity.
Qed.

Lemma remove_char_plain (c : ascii) (s : string) :
  removable c = true -> all_chars plain s = true -> remove_char c s = s.
Proof.
  intros Hc. induction s as [|d rest IH]; cbn [all_chars remove_char];
    [reflexivity|].
  intros H. apply andb_true_iff in H as [Hd Hrest].
  destruct (Ascii.eqb_spec d c) as [->|_].
  - exfalso. revert Hc Hd. unfold removable, plain, is_space.
    destruct (Ascii.eqb_spec c (ascii_of_nat 10)) as [->|_];
      [vm_compute; discriminate|].
    destruct (Ascii.eqb_spec c (ascii_of_nat 13)) as [->|_];
      [vm_compute; discriminate|].
    destruct (Ascii.eqb_spec c " "%char) as [->|_];
      [vm_compute; discriminate|]. discriminate.
  - rewrite IH by exact Hrest. reflexivity.
Qed.

Lemma remove_breaks_plain (s : string) :
  all_chars plain s = true -> remove_breaks s = s.
Proof.
  intros H. unfold remove_breaks.
  rewrite (remove_char_plain (ascii_of_nat 10)) by (reflexivity || exact H).
  rewrite (remove_char_plain (ascii_of_nat 13)) by (reflexivity || exact H).
  apply remove_char_plain; [reflexivity|exact H].
Qed.

Lemma remove_breaks_cons (c : ascii) (s : string) :
  remove_breaks (String c s)
  = if removable c then remove_breaks s else String c (remove_breaks s).
Proof.
  unfold remove_breaks, removable. cbn [remove_char].
  destruct (Ascii.eqb_spec c (ascii_of_nat 10)) as [->|H10]; [reflexivity|].
  cbn [remove_char orb].
  destruct (Ascii.eqb_spec c (ascii_of_nat 13)) as [->|H13]; [reflexivity|].
  cbn [remove_char orb].
  destruct (Ascii.eqb_spec c " "%char) as [->|H32]; reflexivity.
Qed.

(** A string whose characters are plain once the breaks are removed holds
    only plain characters and breaks. *)
Definition plain_or_break (c : ascii) : bool := removable c || plain c.

Lemma remove_breaks_source (s : string) :
  all_chars plain (remove_breaks s) = true ->
  all_chars plain_or_break s = true.
Proof.
  induction s as [|c rest IH]; [reflexivity|].
  rewrite remove_breaks_cons. cbn [all_chars]. unfold plain_or_break at 1.
  destruct (removable c); cbn [orb andb all_chars].
  - exact IH.
  - intros H. apply andb_true_iff in H as [-> H]. apply IH. exact H.
Qed.

Lemma space_is_removable (c : ascii) :
  plain_or_break c = true -> is_space c = true -> removable c = true.
Proof.
  unfold plain_or_break, plain.
  destruct (removable c); [reflexivity|]. cbn [orb].
  intros H Hs. rewrite Hs in H. discriminate H.
Qed.

Lemma remove_breaks_lstrip (s : string) :
  all_chars plain_or_break s = true ->
  remove_breaks (lstrip s) = remove_breaks s /\
  all_chars plain_or_break (lstrip s) = true.
Proof.
  induction s as [|c rest IH]; [split; reflexivity|].
  cbn [all_chars lstrip]. intros H. apply andb_true_iff in H as [Hc Hrest].
  destruct (is_space c) eqn:Hs.
  - destruct (IH Hrest) as [IH1 IH2]. split; [|exact IH2].
    rewrite IH1, remove_breaks_cons, (space_is_removable c Hc Hs). reflexivity.
  - split; [reflexivity|]. cbn [all_chars]. rewrite Hc, Hrest. reflexivity.
Qed.

Lemma remove_breaks_rstrip (s : string) :
  all_chars plain_or_break s = true ->
  remove_breaks (rstrip s) = remove_breaks s.
Proof.
  induction s as [|c rest IH]; [reflexivity|].
  cbn [all_chars rstrip]. intros H. apply andb_true_iff in H as [Hc Hrest].
  specialize (IH Hrest).
  destruct (rstrip rest) as [|d kept] eqn:Hr.
  - destruct (is_space c) eqn:Hs.
    + rewrite remove_breaks_cons, (space_is_removable c Hc Hs). exact IH.
    + rewrite (remove_breaks_cons c rest), <- IH. apply remove_breaks_cons.
  - rewrite (remove_breaks_cons c rest), <- IH. apply remove_breaks_cons.
Qed.

Lemma no_comma (s : string) :
  all_chars plain_or_break s = true -> after_first_comma s = None.
Proof.
  induction s as [|c rest IH]; [reflexivity|].
  cbn [all_chars after_first_comma]. intros H.
  apply andb_true_iff in H as [Hc Hrest].
  destruct (Ascii.eqb_spec c ","%char) as [->|_];
    [vm_compute in Hc; discriminate Hc|]. apply IH. exact Hrest.
Qed.

Lemma after_prefix (prefix t : string) :
  after_first_comma prefix = None ->
  after_first_comma (prefix ++ String ","%char t) = Some t.
Proof.
  induction prefix as [|c rest IH].
  - intros _. reflexivity.
  - change (String c rest ++ String ","%char t)%string
      with (String c (rest ++ String ","%char t)%string).
    cbn [after_first_comma].
    destruct (Ascii.eqb c ","%char); [discriminate|]. exact IH.
Qed.

(** Completing the padding restores an encoding that lost it. *)
Lemma pad4_unpadded (s : string) :
  pad4 (remove_char "="%char (Base64.b64encode s)) = Base64.b64encode s.
Proof.
  induction s as [|a|a b|a b c rest IH] using Base64.string_ind3.
  - reflexivity.
  - destruct a as [a0 a1 a2 a3 a4 a5 a6 a7].
    cbn -[pad4 Ascii.eqb]. fold Base64.pad.
    rewrite !Base64.b2a_not_pad. unfold Base64.pad. reflexivity.
  - destruct a as [a0 a1 a2 a3 a4 a5 a6 a7], b as [b0 b1 b2 b3 b4 b5 b6 b7].
    cbn -[pad4 Ascii.eqb]. fold Base64.pad.
    rewrite !Base64.b2a_not_pad. unfold Base64.pad. reflexivity.
  - destruct a as [a0 a1 a2 a3 a4 a5 a6 a7], b as [b0 b1 b2 b3 b4 b5 b6 b7],
      c as [c0 c1 c2 c3 c4 c5 c6 c7].
    cbn -[pad4 Ascii.eqb]. fold Base64.pad.
    rewrite !Base64.b2a_not_pad. unfold Base64.pad. rewrite pad4_block, IH. reflexivity.
Qed.

Lemma pad4_encoded (s : string) :
  pad4 (Base64.b64encode s) = Base64.b64encode s.
Proof. unfold pad4. rewrite b64encode_length. reflexivity. Qed.

Lemma remove_char_keeps (P : ascii -> bool) (c : ascii) (s : string) :
  all_chars P s = true -> all_chars P (remove_char c s) = true.
Proof.
  induction s as [|d rest IH]; cbn [all_chars remove_char]; [reflexivity|].
  intros H. apply andb_true_iff in H as [Hd Hrest].
  destruct (Ascii.eqb d c); [apply IH; exact Hrest|].
  cbn [all_chars]. rewrite Hd, IH by exact Hrest. reflexivity.
Qed.

Section DecodeFacts.
Context {vision : Vision}.

(** The cleaning of a string without comma: breaks go, padding comes. *)
Lemma clean_b64_breaks (t : string) :
  all_chars plain_or_break t = true ->
  clean_b64 t = pad4 (remove_breaks t).
Proof.
  intros H. unfold clean_b64. rewrite (no_comma t H). cbn [default].
  fold (remove_breaks (strip t)). unfold strip.
  destruct (remove_breaks_lstrip t H) as [Hl Hl'].
  rewrite (remove_breaks_rstrip _ Hl'), Hl. reflexivity.
Qed.

(** X16. Decoding tolerates what transport does to a base64 image.  If
    the text, once blanks and line breaks are removed, is the base64
    encoding of the bytes s, with or without its padding, then
    _decode_image_from_b64 gives what cv2.imdecode makes of s, and so it
    does when the text follows a data-URI prefix and its comma. *)
Theorem decoding_tolerates_transport (prefix t s : string) :
  after_first_comma prefix = None ->
  remove_breaks t = Base64.b64encode s \/
  remove_breaks t = remove_char "="%char (Base64.b64encode s) ->
  _decode_image_from_b64 t = imdecode s /\
  _decode_image_from_b64 (prefix ++ String ","%char t) = imdecode s.
Proof.
  intros Hprefix Ht.
  assert (Hplain : all_chars plain_or_break t = true).
  { apply remove_breaks_source.
    destruct Ht as [-> | ->]; [apply b64encode_plain|].
    apply remove_char_keeps, b64encode_plain. }
  assert (Hclean : clean_b64 t = Base64.b64encode s).
  { rewrite (clean_b64_breaks t Hplain).
    destruct Ht as [-> | ->]; [apply pad4_encoded|apply pad4_unpadded]. }
  assert (Hsame : clean_b64 (prefix ++ String ","%char t) = clean_b64 t).
  { unfold clean_b64. rewrite (after_prefix prefix t Hprefix).
    rewrite (no_comma t Hplain). reflexivity. }
  unfold _decode_image_from_b64. rewrite Hsame, Hclean.
  rewrite Base64.b64decode_b64encode. split; reflexivity.
Qed.

End DecodeFacts.

(** * Properties of the imaging chain *)

(** A float that is not below zero. *)
Definition not_negative (x : PyFloat.float) : bool :=
  match x with
  | S754_finite true _ _ => false
  | _ => true
  end.

Lemma binary_round_aux_not_negative (prec emax : Z) (m e : Z) (l : location) :
  not_negative (binary_round_aux prec emax false m e l) = true.
Proof.
  unfold binary_round_aux.
  destruct (shr_fexp prec emax m e l) as [mrs' e'].
  destruct (shr_fexp prec emax _ e' loc_Exact) as [mrs'' e''].
  destruct (shr_m mrs''); [reflexivity| |reflexivity].
  destruct (e'' <=? emax - prec); reflexivity.
Qed.

Lemma of_Z_not_negative (z : Z) :
  0 <= z -> not_negative (PyFloat.of_Z z) = true.
Proof.
  intros Hz. unfold PyFloat.of_Z, binary_normalize.
  destruct z as [|p|p]; [reflexivity| |lia].
  unfold binary_round. destruct (shl_align _ _ _) as [mz ez].
  apply binary_round_aux_not_negative.
Qed.

Lemma trunc_not_negative (x : PyFloat.float) (k : Z) :
  not_negative x = true -> PyFloat.trunc x = Ok k -> 0 <= k.
Proof.
  destruct x as [s|s| |[] m e]; cbn; intros Hx H;
    try discriminate Hx; try discriminate H; injection H as <-.
  - lia.
  - destruct e as [|p|p]; [lia|lia|]. apply Z.div_pos; lia.
Qed.

Lemma pad_of_nonneg (z p : Z) : 0 <= z -> pad_of z = Ok p -> 0 <= p.
Proof.
  intros Hz. unfold pad_of, PyFloat.of_int.
  pose proof (of_Z_not_negative z Hz) as Hx.
  destruct (PyFloat.is_finite (PyFloat.of_Z z)); cbn [mbind res_bind rbind];
    [|discriminate].
  apply trunc_not_negative.
  let v := eval vm_compute in (PyFloat.literal 8 2) in
  change (PyFloat.literal 8 2) with v.
  destruct (PyFloat.of_Z z) as [s|s| |[] m e]; try reflexivity;
    try discriminate Hx.
  apply binary_round_aux_not_negative.
Qed.

Section ChainFacts.
Context {cfg : Config} {libs : Libs} {vision : Vision}.

(** The bounds of a returned slice. *)
Lemma roi_of_rect_slice (h w : nat) (x y rw rh y0 y1 x0 x1 : Z) :
  roi_of_rect (Z.of_nat h) (Z.of_nat w) x y rw rh = Ok (Slice y0 y1 x0 x1) ->
  0 <= y0 /\ y0 + 40 <= y1 /\ y1 <= Z.of_nat h /\
  0 <= x0 /\ x0 + 40 <= x1 /\ x1 <= Z.of_nat w /\
  (0 <= x -> 0 <= y -> 0 <= rw -> 0 <= rh ->
   x + rw <= Z.of_nat w -> y + rh <= Z.of_nat h ->
   y0 <= y /\ y + rh <= y1 /\ x0 <= x /\ x + rw <= x1).
Proof.
  unfold roi_of_rect. intros H.
  destruct (PyFloat.of_int _) as [area|e]; cbn [mbind res_bind rbind] in H;
    [|discriminate H].
  destruct (int_lt_float _ _); [discriminate H|].
  destruct (pad_of rw) as [pad_x|e] eqn:Hpad_x; cbn [mbind res_bind rbind] in H;
    [|discriminate H].
  destruct (pad_of rh) as [pad_y|e] eqn:Hpad_y; cbn [mbind res_bind rbind] in H;
    [|discriminate H].
  cbv zeta in H.
  match type of H with
  | (if ?c then _ else _) = _ => destruct c eqn:Hsmall
  end; [discriminate H|].
  injection H as <- <- <- <-.
  apply orb_false_iff in Hsmall as [Hsmall Hcolumns].
  apply orb_false_iff in Hsmall as [_ Hrows].
  apply Z.ltb_ge in Hrows, Hcolumns.
  assert (Hpads : 0 <= rw -> 0 <= rh -> 0 <= pad_x /\ 0 <= pad_y).
  { intros Hrw Hrh. split.
    - exact (pad_of_nonneg rw pad_x Hrw Hpad_x).
    - exact (pad_of_nonneg rh pad_y Hrh Hpad_y). }
  revert Hrows Hcolumns. unfold slice_index.
  repeat match goal with
         | |- context [?a <? ?b] => destruct (Z.ltb_spec a b)
         end; lia.
Qed.

(** X17. The region of interest is the whole image or a window inside
    it: a returned slice lies within the image, has at least 40 rows and 40
    columns, and, when the bounding rectangle of the largest contour lies in
    the image, contains that rectangle. *)
Theorem region_of_interest_is_a_window (img : image) :
  match extract_fingerprint_roi img with
  | Whole => True
  | Slice y0 y1 x0 x1 =>
      let '(h, w) := image_shape img in
      0 <= y0 /\ y0 + 40 <= y1 /\ y1 <= Z.of_nat h /\
      0 <= x0 /\ x0 + 40 <= x1 /\ x1 <= Z.of_nat w /\
      exists x y rw rh,
        largest_contour_rect img = Ok (Some (x, y, rw, rh)) /\
        (0 <= x -> 0 <= y -> 0 <= rw -> 0 <= rh ->
         x + rw <= Z.of_nat w -> y + rh <= Z.of_nat h ->
         y0 <= y /\ y + rh <= y1 /\ x0 <= x /\ x + rw <= x1)
  end.
Proof.
  unfold extract_fingerprint_roi.
  destruct (image_shape img) as [h w].
  destruct (largest_contour_rect img) as [[[[[x y] rw] rh]|]|e];
    cbn [mbind res_bind rbind]; [|exact I|exact I].
  destruct (roi_of_rect _ _ x y rw rh) as [[|y0 y1 x0 x1]|e] eqn:Hroi;
    [exact I| |exact I].
  destruct (roi_of_rect_slice h w x y rw rh y0 y1 x0 x1 Hroi)
    as (Hy0 & Hy1 & Hh & Hx0 & Hx1 & Hw & Hrect).
  repeat (split; [assumption|]).
  exists x, y, rw, rh. split; [reflexivity|exact Hrect].
Qed.

(** Successive calls of the enhancement, each on the flag that the call
    before left. *)
Fixpoint enhance_each (available : bool) (imgs : list image)
    : bool * list (option image) :=
  match imgs with
  | [] => (available, [])
  | img :: later =>
      let '(available, enhanced) :=
        enhance_fingerprint_professional available (Some img) in
      let '(available, others) := enhance_each available later in
      (available, enhanced :: others)
  end.

Lemma enhance_each_basic (available : bool) (imgs : list image) :
  available && negb FP_FORCE_BASIC = false ->
  enhance_each available imgs = (available, map enhance_fingerprint_basic imgs).
Proof.
  intros Hoff. induction imgs as [|img later IH]; [reflexivity|].
  cbn [enhance_each enhance_fingerprint_professional map].
  rewrite Hoff, IH. reflexivity.
Qed.

(** X18. A failure of the Gabor enhancer is permanent: if it raises on
    an image, that image and every later one get the basic enhancement, and
    the availability flag ends false unless FP_FORCE_BASIC kept the enhancer
    from being called at all. *)
Theorem enhancer_failure_is_permanent (available : bool) (img : image)
    (later : list image) (e : exn) :
  gabor img = Raise e ->
  enhance_each available (img :: later)
  = (available && FP_FORCE_BASIC,
     map enhance_fingerprint_basic (img :: later)).
Proof.
  intros Hfails.
  destruct (available && negb FP_FORCE_BASIC) eqn:Hon.
  - apply andb_true_iff in Hon as [-> Hforce].
    apply negb_true_iff in Hforce.
    cbn [enhance_each enhance_fingerprint_professional map].
    rewrite Hforce, Hfails. cbn [andb negb].
    rewrite enhance_each_basic by reflexivity. reflexivity.
  - rewrite enhance_each_basic by exact Hon.
    destruct available; [|reflexivity].
    destruct FP_FORCE_BASIC; [reflexivity|discriminate Hon].
Qed.

End ChainFacts.

Section Enrolment.
Context {cfg : Config} {libs : Libs} {laws : LibsLaws} {vision : Vision}.

(** What SIFT returns: keypoints with finite coordinates and a float32
    matrix with at least one row. *)
Definition sift_output_ok (keypoints : list keypoint) (descriptors : ndarray)
    : Prop :=
  all_valid keypoints /\ all_f32 (flat descriptors) /\
  exists n c, shape descriptors = [n; c] /\ (1 <= n)%nat /\
              length (flat descriptors) = (n * c)%nat.

(** X19. A template returned by /extract_template passes
    /test_template, for json and gzip libraries that keep their contracts
    and a SIFT that returns valid keypoints and a float32 matrix: it has at
    least 10 keypoints and, when it is at least 100 characters long, it
    starts with H4sI, is detected as precomputed, deserializes with the same
    keypoint count and no error, and carries the method professional and the
    ROI shape of the response in its metadata. *)
Theorem extracted_template_is_loadable (mtime : Z) (image_b64 : string)
    (available available' : bool) (response : extraction) :
  (forall img keypoints descriptors,
      sift img = Ok (Some keypoints, Some descriptors) ->
      sift_output_ok keypoints descriptors) ->
  extract_template mtime image_b64 available = (available', Ok response) ->
  100 <= len (template_json response) ->
  10 <= keypoints_count response /\
  let checked := test_template (template_json response) in
  starts_with_h4si checked = true /\
  is_precomputed_detected checked = true /\
  deserialization_success checked = true /\
  tt_keypoints_count checked = keypoints_count response /\
  tt_error checked = None /\
  exists md height width,
    tt_metadata checked = Some md /\
    et_roi_shape response = Some (height, width) /\
    md_method md = JStr "professional" /\
    md_roi_h md = Some (JInt height) /\ md_roi_w md = Some (JInt width).
Proof.
  intros Hsift H Hlong. unfold extract_template in H.
  destruct (_decode_image_from_b64 image_b64) as [img|]; [|inversion H].
  destruct (enhance_fingerprint_professional available (Some img))
    as [flag [enhanced|]]; [|inversion H].
  set (cleaned := apply_morphological_operations enhanced) in H.
  set (roi := extract_fingerprint_roi cleaned) in H.
  destruct (sift (roi_image cleaned roi))
    as [[[[|kp kps]|] [descriptors|]]|e] eqn:Hrun; try (inversion H; fail).
  destruct (Hsift _ _ _ Hrun) as (Hkp & Hdes & n & c & Hshape & Hn & Hlen).
  destruct (Z.ltb_spec (Z.of_nat (length (kp :: kps))) 10) as [|Hcount];
    [inversion H|].
  destruct (roi_shape cleaned roi) as [height width] eqn:Hroi.
  cbn [serialize_keypoints_descriptors] in H.
  injection H as _ <-.
  cbn [template_json keypoints_count et_roi_shape] in *.
  split; [exact Hcount|].
  unfold test_template.
  rewrite (encoded_is_precomputed mtime (kp :: kps) descriptors "professional"
             (Some (height, width)) Hkp Hdes Hlong).
  unfold load_precomputed_template.
  rewrite (deserialize_encoded mtime (kp :: kps) descriptors n c
             "professional" (Some (height, width)) Hkp Hshape Hn Hlen Hdes
             Hlong).
  cbn [starts_with_h4si is_precomputed_detected deserialization_success
       tt_keypoints_count tt_error tt_metadata f_success f_keypoints f_error
       f_metadata get_default andb].
  rewrite b64encode_gzip.
  destruct (Z.leb_spec 10 (Z.of_nat (length (kp :: kps)))) as [_|Hlow];
    [|lia].
  repeat (split; [reflexivity|]).
  eexists _, height, width. repeat split.
Qed.

End Enrolment.

(** * The further properties on the samples *)

Lemma match_feature_sets_returns_witness :
  exists p,
    @match_feature_sets default_config Sample.cv Sample.probe Sample.template
      None false = Ok p.
Proof.
  apply (@match_feature_sets_returns Sample.cv Sample.probe Sample.template
           None false).
  - vm_compute. split; discriminate.
  - vm_compute. split; discriminate.
  - intros o Ho. discriminate Ho.
  - intros dp dt Hdp Hdt. injection Hdp as <-. injection Hdt as <-.
    split; [discriminate|]. split; [discriminate|].
    eexists. split; [vm_compute; reflexivity|]. vm_compute. reflexivity.
Defined.

Lemma single_template_needs_extra_margin_witness :
  exists v,
    @decide_verification default_config [sample_primary] = Ok v /\
    v_accepted v = true.
Proof.
  destruct (single_template_needs_extra_margin [sample_primary] 0
              sample_primary) as (v & Hrun & Hacc & _).
  - reflexivity.
  - reflexivity.
  - vm_compute. lia.
  - vm_compute. split; discriminate.
  - exists v. split; [exact Hrun|]. rewrite Hacc. vm_compute. reflexivity.
Defined.

Lemma verification_response_consistent_witness :
  exists v,
    @decide_verification default_config [sample_primary; sample_secondary]
    = Ok v /\
    v_template_results v = [sample_primary; sample_secondary].
Proof.
  destruct (@decide_verification default_config
              [sample_primary; sample_secondary]) as [v|e] eqn:Hrun;
    [|vm_compute in Hrun; discriminate Hrun].
  exists v. split; [reflexivity|].
  destruct (@verification_response_consistent default_config
              [sample_primary; sample_secondary] v Hrun) as (_ & Hacc & _).
  apply Hacc. vm_compute in Hrun. injection Hrun as <-. reflexivity.
Defined.

(** *** A verification request on captures of SIFT width

    Every image yields 200 keypoints with descriptors of 128 columns; a
    capture of [g] characters scores [g]. *)

Definition sift_image : Imaging :=
  {| detectAndCompute _ image :=
       match image with
       | EmptyString => DecodeFailed
       | _ => Detected (Some (repeat Sample.corner 200))
                       (Some (Sample.descriptors 200 (len image)))
       end |}.

Definition sample_request : res verification :=
  Eval vm_compute in
    @match_templates_request default_config Sample.cv RefLibs.libs sift_image
      (Sample.png 70) [Sample.png 90; EmptyString] None [1%nat; 0%nat]
      (fun _ => true).

Lemma worker_always_answers_witness :
  exists p,
    @_process_single_template default_config Sample.cv RefLibs.libs sift_image
      1 EmptyString (f_descriptors Sample.probe) 300 None = Ok p /\
    reason p = Some "empty_template".
Proof.
  destruct (@worker_always_answers default_config Sample.cv RefLibs.libs
              sift_image 1 EmptyString (f_descriptors Sample.probe) 300 None)
    as (p & Hrun & _ & Hempty & _).
  - intros d Hd. injection Hd as <-. vm_compute. reflexivity.
  - exists p. split; [exact Hrun|]. apply Hempty. reflexivity.
Defined.

Lemma sample_request_run :
  @match_templates_request default_config Sample.cv RefLibs.libs sift_image
    (Sample.png 70) [Sample.png 90; EmptyString] None [1%nat; 0%nat]
    (fun _ => true) = sample_request.
Proof. vm_compute. reflexivity. Qed.

Lemma response_results_in_request_order_witness :
  exists v,
    sample_request = Ok v /\
    length (v_template_results v) = 2%nat /\
    forall i r, v_template_results v !! i = Some r ->
                template_index r = Present (Z.of_nat i).
Proof.
  destruct sample_request as [v|e] eqn:Hv; [|discriminate Hv].
  exists v. split; [reflexivity|].
  rewrite <- sample_request_run in Hv.
  destruct (@response_results_in_request_order default_config Sample.cv
              RefLibs.libs sift_image _ _ _ _ _ v Hv) as [[_ Hrej]|Hall].
  - rewrite sample_request_run in Hv. injection Hv as <-. discriminate Hrej.
  - exact Hall.
Defined.

Lemma verification_accepts_only_matched_witness :
  exists v p,
    sample_request = Ok v /\
    @_process_single_template default_config Sample.cv RefLibs.libs sift_image
      0 (Sample.png 90)
      (Some (Sample.descriptors 200 70)) 200 None = Ok p /\
    accepted p = true /\ reason p = Some "match".
Proof.
  destruct sample_request as [v|e] eqn:Hv; [|discriminate Hv].
  pose proof Hv as Hrun. rewrite <- sample_request_run in Hrun.
  destruct (@verification_accepts_only_matched default_config Sample.cv
              RefLibs.libs sift_image _ _ _ _ _ v Hrun)
    as (probe_features & idx & template_data & p & Hprobe & _ & _ & Hdata
        & _ & Hworker & Hacc & Hreason & Hbest & _).
  - injection Hv as <-. reflexivity.
  - exists v, p. split; [reflexivity|].
    injection Hv as <-. injection Hbest as <-.
    injection Hdata as <-. injection Hprobe as <-.
    split; [exact Hworker|]. split; [exact Hacc|exact Hreason].
Defined.

Lemma sample_index_rebuilt :
  @rebuild_employee_index default_config RefLibs.libs Sample.img
    Sample.platform Sample.db empty_index = (sample_index, true).
Proof. vm_compute. reflexivity. Qed.

Lemma sample_index_aligned : aligned sample_index.
Proof.
  split.
  - repeat (constructor; [reflexivity|]). constructor.
  - eexists _, _. split; reflexivity.
Qed.

Lemma rebuild_gives_aligned_index_witness :
  aligned sample_index /\ EMPLOYEE_IDS sample_index <> [].
Proof.
  pose proof (@rebuild_gives_aligned_index default_config RefLibs.libs
                Sample.img Sample.platform Sample.db empty_index sample_index
                true sample_index_rebuilt) as (_ & Haligned & Hids & _).
  split; [exact Haligned|exact Hids].
Defined.

Lemma sample_sync_run :
  @add_employee_to_index default_config RefLibs.libs Sample.img
    Sample.platform Sample.db 4 sample_index = (fst synced_index, true).
Proof. vm_compute. reflexivity. Qed.

Lemma successful_add_is_idempotent_witness :
  EMPLOYEE_IDS (fst synced_index) = EMPLOYEE_IDS sample_index ++ [4] /\
  aligned (fst synced_index) /\
  @add_employee_to_index default_config RefLibs.libs Sample.img
    Sample.platform Sample.unreachable_db 4 (fst synced_index)
  = (fst synced_index, true).
Proof.
  pose proof (@successful_add_is_idempotent default_config RefLibs.libs
                Sample.img Sample.platform Sample.db 4 sample_index
                (fst synced_index) sample_sync_run)
    as (_ & _ & Hnew & Hagain).
  destruct Hnew as (Hids & _ & Haligned).
  - intros Hin. vm_compute in Hin.
    repeat (apply elem_of_cons in Hin as [Hin|Hin]; [discriminate Hin|]).
    apply elem_of_nil in Hin. exact Hin.
  - split; [exact Hids|]. split; [exact (Haligned sample_index_aligned)|].
    apply Hagain.
Defined.

Lemma failed_add_keeps_index_witness :
  @add_employee_to_index default_config RefLibs.libs Sample.img
    Sample.platform Sample.db 5 sample_index = (sample_index, false).
Proof.
  destruct (@add_employee_to_index default_config RefLibs.libs Sample.img
              Sample.platform Sample.db 5 sample_index) as [st' ok] eqn:Hrun.
  assert (Hok : ok = false) by (vm_compute in Hrun; congruence).
  subst ok.
  destruct (@failed_add_keeps_index default_config RefLibs.libs Sample.img
              Sample.platform Sample.db 5 sample_index st' Hrun)
    as [-> | (Hfaiss & _)]; [reflexivity|discriminate Hfaiss].
Defined.

Lemma gates_only_reject_witness :
  exists final,
    @apply_gates default_config 3 tied_results tied_best = Ok final /\
    score final = score tied_best /\
    employee_id final = employee_id tied_best.
Proof.
  destruct (@apply_gates default_config 3 tied_results tied_best)
    as [final|e] eqn:Hrun; [|vm_compute in Hrun; discriminate Hrun].
  exists final. split; [reflexivity|].
  destruct (@gates_only_reject default_config 3 tied_results tied_best final
              Hrun) as (Hscore & Hemployee & _).
  split; [exact Hscore|exact Hemployee].
Defined.

(** *** Three employees, one of them close to the probe *)

Definition clear_store : database :=
  {| active_employees :=
       Ok [Sample.row 1 [20%nat]; Sample.row 2 [90%nat]; Sample.row 3 [20%nat]];
     active_employee _ := Ok None |}.

Definition clear_index : index_state :=
  Eval vm_compute in
    fst (@rebuild_employee_index default_config RefLibs.libs Sample.img
           Sample.platform clear_store empty_index).

Lemma clear_index_aligned : aligned clear_index.
Proof.
  split.
  - repeat (constructor; [reflexivity|]). constructor.
  - eexists _, _. split; reflexivity.
Qed.

Lemma clear_index_answer :
  exists answer,
    identify_in_index (cfg := default_config) (cv := Sample.cv)
      (img := Sample.img) (platform := Sample.platform)
      (search := Sample.search) clear_index (Sample.png 70) None None
    = Ok answer /\
    matched answer = true /\ id_employee_id answer = Some 2.
Proof. eexists. split; [vm_compute; reflexivity|]. split; reflexivity. Qed.

Lemma identification_names_indexed_employee_witness :
  exists answer,
    identify_in_index (cfg := default_config) (cv := Sample.cv)
      (img := Sample.img) (platform := Sample.platform)
      (search := Sample.search) clear_index (Sample.png 70) None None
    = Ok answer /\
    id_employee_id answer = Some 2 /\
    2 ∈ EMPLOYEE_IDS clear_index.
Proof.
  destruct clear_index_answer as (answer & Hrun & Hmatched & Hid).
  exists answer. split; [exact Hrun|]. split; [exact Hid|].
  destruct (identification_names_indexed_employee (cfg := default_config)
              (cv := Sample.cv) (img := Sample.img)
              (platform := Sample.platform) (search := Sample.search)
              clear_index (Sample.png 70) None None answer Hrun)
    as (_ & Hfound).
  destruct (Hfound Hmatched) as (_ & _ & employee & Hemployee & Hin).
  rewrite Hid in Hemployee. injection Hemployee as <-.
  exact (Hin clear_index_aligned).
Defined.

(** *** A stored template that matches *)

Definition strong_descriptors : ndarray := Sample.descriptors_of 10 2 80.

Definition strong_encoded : string :=
  Eval vm_compute in
    default EmptyString
      (@serialize_keypoints_descriptors RefLibs.libs 0 (Some sample_keypoints)
         (Some strong_descriptors) "professional" (Some (96, 96))).

Lemma load_serialized_template_witness :
  let loaded := load_precomputed_template (libs := RefLibs.libs) (cfg := default_config)
      strong_encoded "emp_1" in
  f_success loaded = true /\ f_keypoints loaded = 10 /\
  f_descriptors loaded = Some strong_descriptors.
Proof.
  destruct (load_serialized_template (libs := RefLibs.libs)
              (laws := RefLibs.libs_laws) (cfg := default_config) 0
              sample_keypoints strong_descriptors 10 2 "professional"
              (Some (96, 96)) strong_encoded "emp_1")
    as (Hcount & Hdes & Hsuccess & _).
  - repeat constructor.
  - reflexivity.
  - lia.
  - reflexivity.
  - repeat constructor.
  - vm_compute. reflexivity.
  - vm_compute. discriminate.
  - cbv zeta. split; [exact Hsuccess|]. split; [exact Hcount|exact Hdes].
Defined.

Lemma only_decodable_templates_match_witness :
  100 <= len strong_encoded /\
  exists keypoints descriptors md,
    @deserialize_keypoints_descriptors RefLibs.libs strong_encoded
    = Some (keypoints, descriptors, md) /\
    (10 <= length keypoints)%nat.
Proof.
  destruct (@match_feature_sets default_config Sample.cv Sample.probe
              (load_precomputed_template (libs := RefLibs.libs)
                 (cfg := default_config) strong_encoded "template_0") None false) as [p|e] eqn:Hrun;
    [|vm_compute in Hrun; discriminate Hrun].
  destruct (only_decodable_templates_match (libs := RefLibs.libs)
              (cfg := default_config) (cv := Sample.cv) strong_encoded "template_0" Sample.probe None false p
              Hrun)
    as (Hlong & keypoints & descriptors & md & Hdecode & Hcount & _).
  - vm_compute in Hrun. injection Hrun as <-. reflexivity.
  - split; [exact Hlong|]. exists keypoints, descriptors, md.
    split; [exact Hdecode|exact Hcount].
Defined.

(** *** An imaging chain to run

    Every byte string but the empty one is an image of 96 by 96 pixels whose
    largest contour lies in the rectangle at (10, 12) of 60 by 64 pixels;
    the Gabor enhancer fails on the image "noise"; SIFT finds the ten
    keypoints of the stored template. *)
Definition sample_vision : Vision :=
  {| image := string;
     imdecode img_bytes :=
       match img_bytes with
       | EmptyString => None
       | _ => Some img_bytes
       end;
     gabor img := if String.eqb img "noise" then Raise ValueError else Ok img;
     enhance_fingerprint_basic img := Some img;
     apply_morphological_operations img := img;
     image_shape _ := (96%nat, 96%nat);
     largest_contour_rect _ := Ok (Some (10, 12, 60, 64));
     crop img _ _ _ _ := img;
     sift _ := Ok (Some sample_keypoints, Some strong_descriptors) |}.

Lemma decoding_tolerates_transport_witness :
  @_decode_image_from_b64 sample_vision
    ("data:image/png;base64," ++ " aG k" ++ String (ascii_of_nat 10) EmptyString)
  = Some "hi"%string.
Proof.
  apply (@decoding_tolerates_transport sample_vision "data:image/png;base64"
           (" aG k" ++ String (ascii_of_nat 10) EmptyString) "hi").
  - reflexivity.
  - right. reflexivity.
Defined.

Lemma enhancer_failure_is_permanent_witness :
  enhance_each (cfg := default_config) (vision := sample_vision) true
    ["noise"; "hi"]%string
  = (false, [Some "noise"; Some "hi"]%string).
Proof.
  apply (enhancer_failure_is_permanent (cfg := default_config)
           (vision := sample_vision) true "noise"%string ["hi"%string]
           ValueError).
  reflexivity.
Defined.

Definition sample_extraction : bool * res extraction :=
  Eval vm_compute in
    extract_template (cfg := default_config) (libs := RefLibs.libs)
      (vision := sample_vision) 0 "data:image/png;base64,aGk=" true.

Lemma sample_extraction_run :
  extract_template (cfg := default_config) (libs := RefLibs.libs)
    (vision := sample_vision) 0 "data:image/png;base64,aGk=" true
  = sample_extraction.
Proof. vm_compute. reflexivity. Qed.

Lemma extracted_template_is_loadable_witness :
  exists response,
    sample_extraction = (true, Ok response) /\
    et_roi_shape response = Some (74, 68) /\
    tt_keypoints_count
      (test_template (cfg := default_config) (libs := RefLibs.libs)
         (template_json response)) = 10.
Proof.
  destruct sample_extraction as [available' [response|e]] eqn:Hrun;
    [|discriminate Hrun].
  injection Hrun as Hflag Hresponse. subst available'.
  exists response. split; [reflexivity|].
  destruct (extracted_template_is_loadable (cfg := default_config)
              (libs := RefLibs.libs) (laws := RefLibs.libs_laws)
              (vision := sample_vision) 0 "data:image/png;base64,aGk=" true
              true response)
    as (_ & _ & _ & _ & Hcount & _).
  - intros img keypoints descriptors Hsift. injection Hsift as <- <-.
    split; [repeat constructor|]. split; [repeat constructor|].
    exists 10%nat, 2%nat. repeat split. lia.
  - rewrite sample_extraction_run, <- Hresponse. reflexivity.
  - rewrite <- Hresponse. vm_compute. discriminate.
  - rewrite Hcount, <- Hresponse. split; reflexivity.
Defined.
